(** * Patient-registration client: API layer and error classifier

    A shallow embedding of
      - [utils/errorHandler.ts]   (NetworkUtils, ErrorHandler),
      - [services/patientApi.ts]  (PatientApi),
      - [services/consultaApi.ts] (ConsultaApi),
      - [services/exameApi.ts]    (ExameApi),
    and the properties of the retry executor, the response normaliser and the
    error classifier that the specification states about them.  Around them,
    as far as the further properties need it:
      - [pages/AdminPanel.tsx]    (the listing and its error report),
      - [utils/validation.ts]     (CPF and gender),
      - [services/authService.ts] and [contexts/AuthContext.tsx] (the session).

    The browser is the environment.  What the code reads from it
    ([navigator.onLine], the outcome of each [fetch]) is supplied by a
    [World]; what the code does to it (requests issued, back-off sleeps) is
    recorded in a trace.  Asynchronous functions are sequential here: every
    [await] of the source is a bind of the monad [M]. *)

From Stdlib Require Import String Ascii List ZArith Bool Lia DecimalString.
Import ListNotations.
Local Open Scope string_scope.
Local Open Scope Z_scope.
Set Warnings "-register-all".

(* ===================================================================== *)
(** ** JavaScript strings *)
(* ===================================================================== *)

(** [s.includes(needle)] *)
Fixpoint includes (s needle : string) : bool :=
  if String.prefix needle s then true
  else match s with
       | EmptyString => false
       | String _ rest => includes rest needle
       end.

(** [toLowerCase] on one character.  Only the ASCII letters are mapped; the
    single use in the source looks for the ASCII word [cors], and no
    character outside ASCII lower-cases to one of its letters. *)
Definition lower_ascii (c : ascii) : ascii :=
  let n := nat_of_ascii c in
  if andb (Nat.leb 65 n) (Nat.leb n 90) then ascii_of_nat (n + 32) else c.

Fixpoint toLowerCase (s : string) : string :=
  match s with
  | EmptyString => EmptyString
  | String c rest => String (lower_ascii c) (toLowerCase rest)
  end.

(** [String(n)] for an integer [n], as in the template [`HTTP ${status}`]. *)
Definition string_of_Z (n : Z) : string := NilZero.string_of_int (Z.to_int n).

Definition is_empty (s : string) : bool :=
  match s with EmptyString => true | _ => false end.

(* ===================================================================== *)
(** ** JavaScript values *)
(* ===================================================================== *)

(** The values that [JSON.parse] produces, together with [undefined] (the
    result of reading a property that is absent).  Numbers are integers: the
    code only tests them for truthiness and copies them.  An object keeps its
    properties in insertion order and holds each key once. *)
Inductive value : Type :=
| VUndefined
| VNull
| VBool (b : bool)
| VNum (n : Z)
| VStr (s : string)
| VArr (items : list value)
| VObj (props : list (string * value)).

(** ToBoolean *)
Definition truthy (v : value) : bool :=
  match v with
  | VUndefined | VNull => false
  | VBool b => b
  | VNum n => negb (n =? 0)
  | VStr s => negb (is_empty s)
  | VArr _ | VObj _ => true
  end.

(** [a || b] *)
Definition js_or (a b : value) : value := if truthy a then a else b.
Infix "|||" := js_or (at level 50, left associativity).

Fixpoint lookup (k : string) (props : list (string * value)) : option value :=
  match props with
  | [] => None
  | (k', v) :: rest => if String.eqb k k' then Some v else lookup k rest
  end.

(** [typeof v === 'object'] (which [null] and arrays satisfy). *)
Definition typeof_object (v : value) : bool :=
  match v with
  | VNull | VArr _ | VObj _ => true
  | _ => false
  end.

Definition isArray (v : value) : bool :=
  match v with VArr _ => true | _ => false end.

(** [v.k] for a property name [k] that is neither an array index, nor
    [length], nor inherited from a prototype (the source reads only such
    names).  Reading a property of [null] or [undefined] throws: [None]. *)
Definition get (v : value) (k : string) : option value :=
  match v with
  | VUndefined | VNull => None
  | VObj props => Some (match lookup k props with Some x => x | None => VUndefined end)
  | _ => Some VUndefined
  end.

(** [v.k] where [v] is known to be neither [null] nor [undefined]. *)
Definition field (v : value) (k : string) : value :=
  match get v k with Some x => x | None => VUndefined end.

(** [obj[k] = x] on a plain object: replaces in place or appends. *)
Fixpoint set_prop (k : string) (x : value) (props : list (string * value))
  : list (string * value) :=
  match props with
  | [] => [(k, x)]
  | (k', v) :: rest =>
      if String.eqb k k' then (k', x) :: rest else (k', v) :: set_prop k x rest
  end.

(** Names that every plain object inherits from [Object.prototype]; [obj[k]]
    is truthy for them even when [obj] is [{}]. *)
Definition inherited_names : list string :=
  [ "constructor"; "__proto__"; "hasOwnProperty"; "isPrototypeOf";
    "propertyIsEnumerable"; "toLocaleString"; "toString"; "valueOf";
    "__defineGetter__"; "__defineSetter__"; "__lookupGetter__";
    "__lookupSetter__" ].

Definition is_inherited (k : string) : bool :=
  existsb (String.eqb k) inherited_names.

(* ===================================================================== *)
(** ** Errors, responses, requests *)
(* ===================================================================== *)

(** A thrown object, with the properties the code inspects.  It is never
    [null] or [undefined], and its [message] is a text, the empty one when
    the property is absent. *)
Record JsError : Type := mkError {
  isError : bool;                 (* error instanceof Error *)
  isTypeError : bool;             (* error instanceof TypeError *)
  name : string;
  message : string;
  errStatus : option Z;           (* error.status *)
  errStatusText : option string;  (* error.statusText *)
  errValidationErrors : value     (* error.validationErrors *)
}.

(** [new Error(msg)] *)
Definition new_Error (msg : string) : JsError :=
  mkError true false "Error" msg None None VUndefined.

(** The [TypeError] the engine throws on a bad property access or call.  The
    wording of its message belongs to the engine. *)
Definition runtime_TypeError (msg : string) : JsError :=
  mkError true true "TypeError" msg None None VUndefined.

(** The body of a response, with what [JSON.parse] (a builtin) makes of it. *)
Inductive Body : Type :=
| BodyJson (text : string) (parsed : value)  (* text that JSON.parse accepts *)
| BodyText (text : string)                   (* text that JSON.parse rejects *)
| BodyUnreadable (why : JsError).            (* reading the body rejects *)

Module Response.
Record t : Type := mk {
  status : Z;
  statusText : string;
  headers : list (string * string);   (* names in lower case *)
  body : Body
}.

(** [response.headers.get(name)], [response.headers.has(name)] *)
Fixpoint assoc (k : string) (hs : list (string * string)) : option string :=
  match hs with
  | [] => None
  | (k', v) :: rest => if String.eqb k k' then Some v else assoc k rest
  end.
Definition headers_get (r : t) (name : string) : option string :=
  assoc (toLowerCase name) (headers r).
Definition headers_has (r : t) (name : string) : bool :=
  match headers_get r name with Some _ => true | None => false end.
End Response.

Record Request : Type := mkRequest {
  url : string;
  method : string;
  reqBody : option value   (* the object handed to JSON.stringify *)
}.

(* ===================================================================== *)
(** ** The environment and the monad of effects *)
(* ===================================================================== *)

(** [ErrorType] of [utils/errorHandler.ts] *)
Inductive ErrorType : Type :=
| NETWORK | API | VALIDATION | AUTHENTICATION | AUTHORIZATION
| TIMEOUT | CORS | UNKNOWN.

Inductive FetchOutcome : Type :=
| Resolves (r : Response.t)
| Rejects (e : JsError).

(** What the browser answers: [onLine k] is [navigator.onLine] at its [k]-th
    reading, [network k] the outcome of the [k]-th call of [fetch].  The clock
    and the random source only feed request ids and timestamps; one reading
    of each stands for all of them. *)
Record World : Type := mkWorld {
  onLine : nat -> bool;
  network : nat -> FetchOutcome;
  nowMs : Z;              (* Date.now() *)
  isoTime : string;       (* new Date().toISOString() *)
  randomTag : string      (* Math.random().toString(36), six characters of it *)
}.

Inductive Event : Type :=
| EvProbe (u : string)        (* HEAD request of the connectivity check *)
| EvAttempt (rq : Request)    (* request issued through fetchWithTimeout *)
| EvDirect (rq : Request)     (* request issued by a bare fetch *)
| EvSleep (ms : Z)            (* back-off delay *)
| EvClassified (category : ErrorType).  (* ghost: what the classifier chose *)

Record Machine : Type := mkMachine {
  reads : nat;          (* readings of navigator.onLine so far *)
  sent : nat;           (* calls of fetch so far *)
  trace : list Event
}.

Definition boot : Machine := mkMachine 0 0 [].

Inductive Outcome (A : Type) : Type :=
| Returned (a : A)
| Thrown (e : JsError).
Arguments Returned {A} a.
Arguments Thrown {A} e.

Definition M (A : Type) : Type := World -> Machine -> Outcome A * Machine.

Definition ret {A} (a : A) : M A := fun _ m => (Returned a, m).

Definition throw {A} (e : JsError) : M A := fun _ m => (Thrown e, m).

Definition bind {A B} (c : M A) (k : A -> M B) : M B :=
  fun w m =>
    match c w m with
    | (Returned a, m') => k a w m'
    | (Thrown e, m') => (Thrown e, m')
    end.

(** [try { c } catch (error) { h error }] *)
Definition try_catch {A} (c : M A) (h : JsError -> M A) : M A :=
  fun w m =>
    match c w m with
    | (Returned a, m') => (Returned a, m')
    | (Thrown e, m') => h e w m'
    end.

Notation "x <- c ;; k" := (bind c (fun x => k))
  (at level 61, c at next level, right associativity).
Notation "c ;;; k" := (bind c (fun _ => k))
  (at level 61, right associativity).

Definition emit (e : Event) : M unit :=
  fun _ m => (Returned tt, mkMachine (reads m) (sent m) (trace m ++ [e])).

(** [navigator.onLine] *)
Definition read_onLine : M bool :=
  fun w m => (Returned (onLine w (reads m)),
              mkMachine (S (reads m)) (sent m) (trace m)).

(** [fetch(...)]: the event says who issued it. *)
Definition fetch (e : Event) : M Response.t :=
  fun w m =>
    let m' := mkMachine (reads m) (S (sent m)) (trace m ++ [e]) in
    match network w (sent m) with
    | Resolves r => (Returned r, m')
    | Rejects err => (Thrown err, m')
    end.

Definition Date_now : M Z := fun w m => (Returned (nowMs w), m).
Definition toISOString : M string := fun w m => (Returned (isoTime w), m).
Definition Math_random_tag : M string := fun w m => (Returned (randomTag w), m).

Definition run {A} (c : M A) (w : World) : Outcome A * Machine := c w boot.

(* ===================================================================== *)
(** ** utils/errorHandler.ts *)
(* ===================================================================== *)

Record ErrorContext : Type := mkContext {
  operation : string;
  requestData : value;
  networkStatus : bool;        (* true: 'online', false: 'offline' *)
  ctxUrl : option string;
  ctxMethod : option string
  (* timestamp and userAgent are carried along and never inspected *)
}.

Record UserFriendlyError : Type := mkFriendly {
  type : ErrorType;
  ufMessage : string;
  technicalMessage : option string;
  suggestions : list string;
  retryable : bool;
  context : ErrorContext
}.

Module ERROR_MESSAGES.
Definition NETWORK_TIMEOUT := "Tempo limite excedido. Verifique sua conexão e tente novamente.".
Definition NETWORK_OFFLINE := "Você está offline. Verifique sua conexão com a internet.".
Definition NETWORK_ERROR := "Erro de conexão. Verifique sua internet e tente novamente.".
Definition SERVER_ERROR := "Erro interno do servidor. Tente novamente em alguns minutos.".
Definition BAD_REQUEST := "Dados inválidos. Verifique os campos destacados.".
Definition UNAUTHORIZED := "Sessão expirada. Faça login novamente.".
Definition FORBIDDEN := "Você não tem permissão para realizar esta ação.".
Definition NOT_FOUND := "Recurso não encontrado.".
Definition CONFLICT := "Conflito de dados. O recurso já existe ou está sendo usado.".
Definition UNPROCESSABLE_ENTITY := "Dados não podem ser processados. Verifique as informações.".
Definition TOO_MANY_REQUESTS := "Muitas tentativas. Aguarde alguns minutos e tente novamente.".
Definition SERVICE_UNAVAILABLE := "Serviço temporariamente indisponível. Tente novamente em alguns minutos.".
Definition CORS_ERROR := "Erro de configuração do servidor. Contate o suporte técnico.".
Definition UNKNOWN_ERROR := "Erro inesperado. Tente novamente ou contate o suporte.".
Definition CHECK_CONNECTION := "Verifique sua conexão com a internet".
Definition TRY_AGAIN_LATER := "Tente novamente em alguns minutos".
Definition CONTACT_SUPPORT := "Entre em contato com o suporte técnico".
Definition CHECK_FORM_DATA := "Verifique os dados do formulário".
Definition REFRESH_PAGE := "Recarregue a página e tente novamente".
End ERROR_MESSAGES.

Module NetworkUtils.

Definition isOnline : M bool := read_onLine.

(** [getNetworkStatus().isOnline]; the other fields are not used. *)
Definition getNetworkStatus : M bool := read_onLine.

Definition isCorsError (error : JsError) : bool :=
  if isTypeError error && negb (is_empty (message error))
     && includes (message error) "Failed to fetch"
  then true
  else if String.eqb (name error) "TypeError" && negb (is_empty (message error))
          && includes (toLowerCase (message error)) "cors"
  then true
  else false.

Definition isNetworkError (error : JsError) : M bool :=
  online <- isOnline ;;
  if negb online then ret true
  else if isTypeError error && negb (is_empty (message error))
          && includes (message error) "Failed to fetch"
  then ret true
  else if String.eqb (name error) "AbortError" then ret true
  else ret false.

End NetworkUtils.

Module ErrorHandler.
Import ERROR_MESSAGES.

(** [String(error)] *)
Definition String_of_error (error : JsError) : string :=
  if isError error then
    if is_empty (name error) then message error
    else if is_empty (message error) then name error
    else name error ++ ": " ++ message error
  else "[object Object]".

Definition opt_includes (s : option string) (needle : string) : bool :=
  match s with Some x => includes x needle | None => false end.

Definition handleHttpError (status : Z) (msg : string) (ctx : ErrorContext)
  : UserFriendlyError :=
  if status =? 400 then
    let isApiCompatibilityIssue :=
      includes (operation ctx) "Patient" || opt_includes (ctxUrl ctx) "/paciente" in
    mkFriendly VALIDATION
      (if isApiCompatibilityIssue
       then "Formato de dados incompatível com a API. A API Java pode estar esperando campos diferentes."
       else BAD_REQUEST)
      (Some msg)
      (if isApiCompatibilityIssue
       then [ "Verifique se a API Java está configurada corretamente";
              "Os campos enviados podem não corresponder ao esperado pela API";
              "Contate o desenvolvedor da API Java para verificar o formato correto" ]
       else [CHECK_FORM_DATA])
      false ctx
  else if status =? 401 then
    mkFriendly AUTHENTICATION UNAUTHORIZED (Some msg) [REFRESH_PAGE] false ctx
  else if status =? 403 then
    mkFriendly AUTHORIZATION FORBIDDEN (Some msg) [CONTACT_SUPPORT] false ctx
  else if status =? 404 then
    mkFriendly API NOT_FOUND (Some msg) [REFRESH_PAGE] false ctx
  else if status =? 409 then
    mkFriendly VALIDATION CONFLICT (Some msg) [CHECK_FORM_DATA] false ctx
  else if status =? 422 then
    mkFriendly VALIDATION UNPROCESSABLE_ENTITY (Some msg) [CHECK_FORM_DATA] false ctx
  else if status =? 429 then
    mkFriendly API TOO_MANY_REQUESTS (Some msg) [TRY_AGAIN_LATER] true ctx
  else if (status =? 500) || (status =? 502) || (status =? 503) || (status =? 504) then
    mkFriendly API
      (if status =? 503 then SERVICE_UNAVAILABLE else SERVER_ERROR)
      (Some msg) [TRY_AGAIN_LATER] true ctx
  else
    mkFriendly API UNKNOWN_ERROR
      (Some (if is_empty msg then "HTTP " ++ string_of_Z status else msg))
      [TRY_AGAIN_LATER; CONTACT_SUPPORT] (500 <=? status) ctx.

(** The classifier proper; [classified] records its answer in the trace. *)
Definition classified (u : UserFriendlyError) : M UserFriendlyError :=
  emit (EvClassified (type u)) ;;; ret u.

(** [handleApiError] on the errors of [JsError].  The source is also
    called with values that are not: on [null], or on an object whose
    [message] is neither a text nor absent, it can throw where it reads
    [error.name] or calls [error.message.includes]; such arguments have no
    counterpart here. *)
Definition handleApiError (error : JsError) (ctx : ErrorContext)
  : M UserFriendlyError :=
  online <- NetworkUtils.getNetworkStatus ;;
  let enhancedContext :=
    mkContext (operation ctx) (requestData ctx) online (ctxUrl ctx) (ctxMethod ctx) in
  if negb online then
    classified (mkFriendly NETWORK NETWORK_OFFLINE None [CHECK_CONNECTION]
                  true enhancedContext)
  else if NetworkUtils.isCorsError error then
    classified (mkFriendly CORS CORS_ERROR (Some (message error)) [CONTACT_SUPPORT]
                  false enhancedContext)
  else
    net <- NetworkUtils.isNetworkError error ;;
    if net then
      classified (mkFriendly NETWORK NETWORK_ERROR (Some (message error))
                    [CHECK_CONNECTION; TRY_AGAIN_LATER] true enhancedContext)
    else if String.eqb (name error) "AbortError" || includes (message error) "timeout" then
      classified (mkFriendly TIMEOUT NETWORK_TIMEOUT None
                    [CHECK_CONNECTION; TRY_AGAIN_LATER] true enhancedContext)
    else
      match errStatus error with
      | Some st =>
          if st =? 0
          then classified (mkFriendly UNKNOWN UNKNOWN_ERROR
                 (Some (if is_empty (message error) then String_of_error error
                        else message error))
                 [TRY_AGAIN_LATER; CONTACT_SUPPORT] true enhancedContext)
          else classified (handleHttpError st (message error) enhancedContext)
      | None =>
          classified (mkFriendly UNKNOWN UNKNOWN_ERROR
                 (Some (if is_empty (message error) then String_of_error error
                        else message error))
                 [TRY_AGAIN_LATER; CONTACT_SUPPORT] true enhancedContext)
      end.

(** The handler's own back-off formula (not the one the executor uses). *)
Definition getRetryDelay (attempt : Z) : Z := Z.min (1000 * 2 ^ attempt) 10000.

(** [v >= n] for a value whose numeric reading needs no parsing of text:
    [undefined] reads as NaN, which compares false with everything, [null]
    as 0, a boolean as 0 or 1.  For a string, an array or an object the
    comparison goes through the text of the value, which is not modelled:
    [None]. *)
Definition ge_number (v : value) (n : Z) : option bool :=
  match v with
  | VUndefined => Some false
  | VNull => Some (n <=? 0)
  | VBool b => Some (n <=? (if b then 1 else 0))
  | VNum x => Some (n <=? x)
  | VStr _ | VArr _ | VObj _ => None
  end.

(** [requestData?.status] *)
Definition requestStatus (data : value) : value :=
  match data with
  | VUndefined | VNull => VUndefined
  | _ => field data "status"
  end.

Definition shouldRetry (error : UserFriendlyError) : option bool :=
  if retryable error then
    match type error with
    | NETWORK => Some true
    | TIMEOUT => Some true
    | API => ge_number (requestStatus (requestData (context error))) 500
    | _ => Some false
    end
  else Some false.

End ErrorHandler.


(* ===================================================================== *)
(** ** The result envelope ([ApiResponse<T>] of [types/patient.ts]) *)
(* ===================================================================== *)

Module ApiResponse.
Record Details : Type := mkDetails {
  validationErrors : value;     (* VUndefined when absent *)
  serverMessage : value;
  statusText : option string
}.

Record t : Type := mk {
  success : bool;
  data : option value;          (* None: the key is absent *)
  error : option value;
  status : Z;
  requestId : string;
  timestamp : string;
  details : option Details
}.
End ApiResponse.

(* ===================================================================== *)
(** ** Reading a response body *)
(* ===================================================================== *)

(** [await response.text()] *)
Definition Response_text (r : Response.t) : M string :=
  match Response.body r with
  | BodyJson text _ => ret text
  | BodyText text => ret text
  | BodyUnreadable why => throw why
  end.

Definition SyntaxError (msg : string) : JsError :=
  mkError true false "SyntaxError" msg None None VUndefined.

(** [await response.json()] *)
Definition Response_json (r : Response.t) : M value :=
  match Response.body r with
  | BodyJson _ parsed => ret parsed
  | BodyText _ => throw (SyntaxError "Unexpected token in JSON")
  | BodyUnreadable why => throw why
  end.

(** A second read of a body that [text()] or [json()] already consumed. *)
Definition Response_text_again (r : Response.t) : M string :=
  throw (runtime_TypeError "body stream already read").

(** [v.k], throwing as the engine does when [v] is [null] or [undefined]. *)
Definition prop (v : value) (k : string) : M value :=
  match get v k with
  | Some x => ret x
  | None => throw (runtime_TypeError ("Cannot read properties of null (reading '" ++ k ++ "')"))
  end.

(** ToString, as applied to a computed property key.  An array joins its
    items with commas; an object is ["[object Object]"] unless it has a
    [toString] of its own, which coming from JSON is not callable: [None]
    stands for the TypeError thrown then. *)
Fixpoint ToString (v : value) : option string :=
  match v with
  | VUndefined => Some "undefined"
  | VNull => Some "null"
  | VBool true => Some "true"
  | VBool false => Some "false"
  | VNum n => Some (string_of_Z n)
  | VStr s => Some s
  | VArr items =>
      (fix join (l : list value) : option string :=
         match l with
         | [] => Some ""
         | x :: rest =>
             let sx := match x with
                       | VUndefined | VNull => Some ""
                       | _ => ToString x
                       end in
             match sx, rest with
             | None, _ => None
             | Some a, [] => Some a
             | Some a, _ =>
                 match join rest with
                 | Some b => Some (a ++ "," ++ b)
                 | None => None
                 end
             end
         end) items
  | VObj props =>
      match lookup "toString" props with
      | Some _ => None
      | None => Some "[object Object]"
      end
  end.

Definition ToPropertyKey (v : value) : M string :=
  match ToString v with
  | Some k => ret k
  | None => throw (runtime_TypeError "Cannot convert object to primitive value")
  end.

(* ===================================================================== *)
(** ** services/patientApi.ts *)
(* ===================================================================== *)

Record RetryConfig : Type := mkRetryConfig {
  maxAttempts : Z;
  baseDelay : Z;
  maxDelay : Z;
  backoffMultiplier : Z
}.

Module PatientApi.

Definition BASE_URL := "https://sprint4-java-av1f.onrender.com".
Definition TIMEOUT := 30000.
Definition RETRY_CONFIG : RetryConfig := mkRetryConfig 3 1000 10000 2.

Definition checkNetworkConnectivity : M bool :=
  online <- NetworkUtils.isOnline ;;
  if negb online then ret false
  else
    try_catch
      (response <- fetch (EvProbe (BASE_URL ++ "/main/pacientes")) ;;
       ret (Response.status response <? 500))
      (fun _ => ret true).

Definition detectCorsIssue (error : JsError) (response : option Response.t) : bool :=
  if NetworkUtils.isCorsError error then true
  else
    match response with
    | Some r =>
        let hasCorsHeaders :=
          existsb (Response.headers_has r)
            [ "Access-Control-Allow-Origin";
              "Access-Control-Allow-Methods";
              "Access-Control-Allow-Headers" ] in
        if negb hasCorsHeaders && (Response.status r =? 0) then true else false
    | None => false
    end.

Record ApiErrorInfo : Type := mkInfo {
  infoMessage : value;
  infoValidationErrors : value;
  infoServerMessage : value;
  infoCode : value;
  infoField : value
}.

Definition http_status_message (r : Response.t) : string :=
  "HTTP " ++ string_of_Z (Response.status r).

Definition message_object (textResponse : string) (r : Response.t) : value :=
  VObj [("message",
         VStr (if is_empty textResponse then http_status_message r else textResponse))].

(** One round of the [forEach] that folds [errors: [{field, message}, ...]]
    into [validationErrors]. *)
Definition foldValidationError (acc : list (string * value)) (err : value)
  : M (list (string * value)) :=
  f <- prop err "field" ;;
  msg <- prop err "message" ;;
  if truthy f && truthy msg then
    k <- ToPropertyKey f ;;
    match lookup k acc with
    | Some (VArr items) => ret (set_prop k (VArr (items ++ [msg])) acc)
    | Some _ => ret acc
    | None =>
        if is_inherited k
        then throw (runtime_TypeError "validationErrors[err.field].push is not a function")
        else ret (set_prop k (VArr [msg]) acc)
    end
  else ret acc.

Fixpoint forEachValidationError (errs : list value) (acc : list (string * value))
  : M (list (string * value)) :=
  match errs with
  | [] => ret acc
  | err :: rest =>
      acc' <- foldValidationError acc err ;;
      forEachValidationError rest acc'
  end.

Definition parseApiError (response : Response.t) : M ApiErrorInfo :=
  errorData <-
    try_catch
      (match Response.headers_get response "content-type" with
       | Some contentType =>
           if negb (is_empty contentType) && includes contentType "application/json"
           then Response_json response
           else (textResponse <- Response_text response ;;
                 ret (message_object textResponse response))
       | None =>
           textResponse <- Response_text response ;;
           ret (message_object textResponse response)
       end)
      (fun _ =>
         try_catch
           (textResponse <- Response_text_again response ;;
            ret (message_object textResponse response))
           (fun _ => ret (VObj [("message", VStr (http_status_message response))]))) ;;
  m <- prop errorData "message" ;;
  e <- prop errorData "error" ;;
  d <- prop errorData "detail" ;;
  g <- prop errorData "msg" ;;
  let msg := m ||| e ||| d ||| g ||| VStr (http_status_message response) in
  let serverMessage := m ||| e ||| d in
  ve <- prop errorData "validationErrors" ;;
  errs <- prop errorData "errors" ;;
  fld <- prop errorData "field" ;;
  validationErrors <-
    (if truthy ve then ret ve
     else if truthy errs then
       match errs with
       | VArr items =>
           folded <- forEachValidationError items [] ;;
           ret (VObj folded)
       | VObj _ => ret errs
       | _ => ret VUndefined
       end
     else if truthy fld && truthy m then
       k <- ToPropertyKey fld ;;
       ret (VObj [(k, VArr [m])])
     else ret VUndefined) ;;
  code <- prop errorData "code" ;;
  ret (mkInfo msg validationErrors serverMessage code fld).

(** The record that both branches of the patient remapping build. *)
Definition remap (patient : value) : value :=
  VObj [ ("id", field patient "id");
         ("name", field patient "nomeCompleto" ||| field patient "nome"
                  ||| field patient "name" ||| VStr "");
         ("cpf", field patient "cpfNumero" ||| field patient "cpf" ||| VStr "");
         ("age", field patient "idadePaciente" ||| field patient "idade"
                 ||| field patient "age" ||| VNum 0);
         ("gender", field patient "sexo" ||| field patient "genero"
                    ||| field patient "gender" ||| VStr "");
         ("plan", field patient "planoSaude" ||| field patient "plano"
                  ||| field patient "plan" ||| VStr "") ].

(** The callback of [rawData.map(...)]. *)
Definition remapElement (patient : value) : value :=
  if negb (truthy patient) || negb (typeof_object patient) then patient
  else remap patient.

(** [data] as computed from [rawData] (lines [let data = rawData; ...]). *)
Definition normalize (rawData : value) : value :=
  if truthy rawData && typeof_object rawData then
    match rawData with
    | VArr items => VArr (map remapElement items)
    | _ =>
        if truthy (field rawData "nome" ||| field rawData "idade"
                   ||| field rawData "genero" ||| field rawData "plano")
        then remap rawData
        else rawData
    end
  else rawData.

(** [rawData]: the parsed body, or its stand-in when [JSON.parse] throws. *)
Definition rawDataOf (status : Z) (now : Z) (r : Response.t) (responseText : string)
  : value :=
  match Response.body r with
  | BodyJson _ parsed => parsed
  | _ =>
      if (status =? 201) && negb (is_empty responseText) then
        VObj [ ("success", VBool true);
               ("message", VStr responseText);
               ("id", VNum now);
               ("name", VStr "Paciente criado com sucesso");
               ("cpf", VStr "");
               ("age", VNum 0);
               ("gender", VStr "");
               ("plan", VStr "") ]
      else VObj [("message", VStr responseText)]
  end.

Definition handleResponse (response : Response.t) : M ApiResponse.t :=
  now <- Date_now ;;
  tag <- Math_random_tag ;;
  let requestId := "resp_" ++ string_of_Z now ++ "_" ++ tag in
  try_catch
    (let status := Response.status response in
     timestamp <- toISOString ;;
     if (status =? 200) || (status =? 201) then
       responseText <- Response_text response ;;
       let rawData := rawDataOf status now response responseText in
       let data := normalize rawData in
       ret (ApiResponse.mk true (Some data) None status requestId timestamp None)
     else
       errorInfo <- parseApiError response ;;
       ret (ApiResponse.mk false None (Some (infoMessage errorInfo)) status
              requestId timestamp
              (Some (ApiResponse.mkDetails
                       (infoValidationErrors errorInfo)
                       (infoServerMessage errorInfo)
                       (Some (Response.statusText response))))))
    (fun error =>
       timestamp <- toISOString ;;
       ret (ApiResponse.mk false None
              (Some (VStr (if isError error then message error
                           else "Unknown error occurred")))
              0 requestId timestamp None)).

(** [Math.pow] on the integers the executor passes ([attempt >= 1]). *)
Definition getRetryDelay (attempt : Z) : Z :=
  let delay := baseDelay RETRY_CONFIG * backoffMultiplier RETRY_CONFIG ^ (attempt - 1) in
  Z.min delay (maxDelay RETRY_CONFIG).

Definition status_at_least (error : JsError) (n : Z) : bool :=
  match errStatus error with Some st => n <=? st | None => false end.

Definition status_is (error : JsError) (n : Z) : bool :=
  match errStatus error with Some st => st =? n | None => false end.

Definition shouldRetryRequest (error : JsError) (attempt : Z) : M bool :=
  if maxAttempts RETRY_CONFIG <=? attempt then ret false
  else
    net <- NetworkUtils.isNetworkError error ;;
    if net then ret true
    else if String.eqb (name error) "AbortError" then ret true
    else if status_at_least error 500 then ret true
    else if status_is error 429 then ret true
    else ret false.

Definition sleep (ms : Z) : M unit := emit (EvSleep ms).

(** The abort timer is the environment's business: a request that outlives
    [TIMEOUT] is one whose [fetch] rejects with an [AbortError]. *)
Definition fetchWithTimeout (rq : Request) : M Response.t :=
  fetch (EvAttempt rq).

(** The [for] loop of [fetchWithRetry], entered at iteration [attempt] with
    [remaining] iterations to follow it; [attempt + remaining] is
    [maxAttempts].  Leaving the loop, by [break] or because the guard
    [attempt <= maxAttempts] fails, leads to [throw lastError], and
    [lastError] is then the error of the iteration just run. *)
Fixpoint retryLoop (rq : Request) (remaining : nat) (attempt : Z) : M Response.t :=
  try_catch
    (fetchWithTimeout rq)
    (fun error =>
       let isCorsError := detectCorsIssue error None in
       if isCorsError then throw error
       else
         again <- shouldRetryRequest error attempt ;;
         if negb again then throw error
         else
           (if attempt <? maxAttempts RETRY_CONFIG
            then sleep (getRetryDelay attempt)
            else ret tt) ;;;
           match remaining with
           | O => throw error
           | S remaining' => retryLoop rq remaining' (attempt + 1)
           end).

Definition fetchWithRetry (rq : Request) : M Response.t :=
  isConnected <- checkNetworkConnectivity ;;
  if negb isConnected then throw (new_Error "No network connectivity")
  else retryLoop rq (Z.to_nat (maxAttempts RETRY_CONFIG - 1)) 1.

(** The envelope built in the [catch] of every operation. *)
Definition failureEnvelope (error : JsError) (ctx : ErrorContext)
  (withValidationErrors : bool) : M ApiResponse.t :=
  userFriendlyError <- ErrorHandler.handleApiError error ctx ;;
  now <- Date_now ;;
  tag <- Math_random_tag ;;
  timestamp <- toISOString ;;
  ret (ApiResponse.mk false None
         (Some (VStr (ufMessage userFriendlyError)))
         (match errStatus error with Some st => st | None => 0 end)
         ("err_" ++ string_of_Z now ++ "_" ++ tag)
         timestamp
         (Some (ApiResponse.mkDetails
                  (if withValidationErrors then errValidationErrors error else VUndefined)
                  (match technicalMessage userFriendlyError with
                   | Some t => VStr t
                   | None => VUndefined
                   end)
                  (errStatusText error)))).

Definition getAllPatients : M ApiResponse.t :=
  online <- NetworkUtils.isOnline ;;
  let u := BASE_URL ++ "/main/pacientes" in
  let ctx := mkContext "getAllPatients" VUndefined online (Some u) (Some "GET") in
  try_catch
    (response <- fetchWithRetry (mkRequest u "GET" None) ;;
     handleResponse response)
    (fun error => failureEnvelope error ctx false).

Record PatientRequest : Type := mkPatientRequest {
  pname : string;
  pcpf : string;
  page : Z;
  pgender : string;
  pplan : string
}.

Definition requestValue (patient : PatientRequest) : value :=
  VObj [ ("name", VStr (pname patient)); ("cpf", VStr (pcpf patient));
         ("age", VNum (page patient)); ("gender", VStr (pgender patient));
         ("plan", VStr (pplan patient)) ].

(** [dataVariations] of [createPatient] *)
Definition createVariations (patient : PatientRequest) : list value :=
  let g := pgender patient in
  [ VObj [ ("nomeCompleto", VStr (pname patient));
           ("cpfNumero", VStr (pcpf patient));
           ("idadePaciente", VNum (page patient));
           ("sexo", VStr (if String.eqb g "MASCULINO" then "M"
                          else if String.eqb g "FEMININO" then "F"
                          else if String.eqb g "M" then "M"
                          else if String.eqb g "F" then "F" else "M"));
           ("planoSaude", VStr (pplan patient)) ];
    VObj [ ("nomeCompleto", VStr (pname patient));
           ("cpfNumero", VStr (pcpf patient));
           ("idadePaciente", VNum (page patient));
           ("sexo", VStr (if String.eqb g "MASCULINO" then "m"
                          else if String.eqb g "FEMININO" then "f"
                          else if String.eqb g "M" then "m"
                          else if String.eqb g "F" then "f" else "m"));
           ("planoSaude", VStr (pplan patient)) ];
    VObj [ ("nomeCompleto", VStr (pname patient));
           ("cpfNumero", VStr (pcpf patient));
           ("idadePaciente", VNum (page patient));
           ("sexo", VStr g);
           ("planoSaude", VStr (pplan patient)) ];
    VObj [ ("nome", VStr (pname patient));
           ("cpf", VStr (pcpf patient));
           ("idade", VNum (page patient));
           ("sexo", VStr (if String.eqb g "MASCULINO" then "M"
                          else if String.eqb g "FEMININO" then "F" else g));
           ("plano", VStr (pplan patient)) ] ].

(** [dataVariations] of [updatePatient] *)
Definition updateVariations (patient : PatientRequest) : list value :=
  [ VObj [ ("nome", VStr (pname patient)); ("cpf", VStr (pcpf patient));
           ("idade", VNum (page patient)); ("sexo", VStr (pgender patient));
           ("plano", VStr (pplan patient)) ];
    VObj [ ("nome", VStr (pname patient)); ("cpf", VStr (pcpf patient));
           ("idade", VNum (page patient)); ("genero", VStr (pgender patient));
           ("plano", VStr (pplan patient)) ];
    VObj [ ("name", VStr (pname patient)); ("cpf", VStr (pcpf patient));
           ("age", VNum (page patient)); ("gender", VStr (pgender patient));
           ("plan", VStr (pplan patient)) ] ].

Definition isLast {A} (rest : list A) : bool :=
  match rest with [] => true | _ => false end.

(** The loop over [dataVariations], with the variables [response] and
    [lastError] threaded through.  [secondChance] is set for [createPatient],
    whose loop body sends the last variation once more by a bare [fetch] when
    it was answered 400.  A [break] returns the response; a [throw] in the
    last iteration leaves the function. *)
Fixpoint tryVariations (u meth : string) (secondChance : bool)
  (variations : list value) (response : option Response.t)
  (lastError : option JsError) {struct variations}
  : M (option Response.t * option JsError) :=
  match variations with
  | [] => ret (response, lastError)
  | variation :: rest =>
      fun w m =>
        let rq := mkRequest u meth (Some variation) in
        match fetchWithRetry rq w m with
        | (Returned r1, m1) =>
            let afterSecond :=
              if secondChance && (Response.status r1 =? 400) && isLast rest
              then fetch (EvDirect rq) w m1
              else (Returned r1, m1) in
            match afterSecond with
            | (Returned r2, m2) =>
                if (Response.status r2 <? 400) || (500 <=? Response.status r2)
                then (Returned (Some r2, lastError), m2)
                else tryVariations u meth secondChance rest (Some r2) lastError w m2
            | (Thrown error, m2) =>
                if isLast rest then (Thrown error, m2)
                else tryVariations u meth secondChance rest (Some r1) (Some error) w m2
            end
        | (Thrown error, m1) =>
            if isLast rest then (Thrown error, m1)
            else tryVariations u meth secondChance rest response (Some error) w m1
        end
  end.

Definition sendVariations (u meth : string) (secondChance : bool)
  (variations : list value) (fallback : string) : M ApiResponse.t :=
  found <- tryVariations u meth secondChance variations None None ;;
  match found with
  | (Some response, _) => handleResponse response
  | (None, Some lastError) => throw lastError
  | (None, None) => throw (new_Error fallback)
  end.

Definition createPatient (patient : PatientRequest) : M ApiResponse.t :=
  online <- NetworkUtils.isOnline ;;
  let u := BASE_URL ++ "/main/paciente" in
  let ctx := mkContext "createPatient" (requestValue patient) online
               (Some u) (Some "POST") in
  try_catch
    (sendVariations u "POST" true (createVariations patient)
       "All data variations failed")
    (fun error => failureEnvelope error ctx true).

Definition updatePatient (id : Z) (patient : PatientRequest) : M ApiResponse.t :=
  online <- NetworkUtils.isOnline ;;
  let u := BASE_URL ++ "/main/paciente/" ++ string_of_Z id in
  let ctx := mkContext "updatePatient"
               (match requestValue patient with
                | VObj props => VObj (("id", VNum id) :: props)
                | v => v
                end)
               online (Some u) (Some "PUT") in
  try_catch
    (sendVariations u "PUT" false (updateVariations patient)
       "All update data variations failed")
    (fun error => failureEnvelope error ctx true).

Definition deletePatient (id : Z) : M ApiResponse.t :=
  online <- NetworkUtils.isOnline ;;
  let u := BASE_URL ++ "/main/paciente/" ++ string_of_Z id in
  let ctx := mkContext "deletePatient" (VObj [("id", VNum id)]) online
               (Some u) (Some "DELETE") in
  try_catch
    (response <- fetchWithRetry (mkRequest u "DELETE" None) ;;
     handleResponse response)
    (fun error => failureEnvelope error ctx false).

End PatientApi.

(* ===================================================================== *)
(** ** services/consultaApi.ts *)
(* ===================================================================== *)

Module ConsultaApi.

Definition BASE_URL := "https://sprint4-java-av1f.onrender.com".
Definition TIMEOUT := 30000.

Definition fetchWithTimeout (rq : Request) : M Response.t :=
  fetch (EvAttempt rq).

Definition handleResponse (response : Response.t) : M ApiResponse.t :=
  now <- Date_now ;;
  tag <- Math_random_tag ;;
  let requestId := "resp_" ++ string_of_Z now ++ "_" ++ tag in
  timestamp <- toISOString ;;
  let status := Response.status response in
  try_catch
    (if (status =? 200) || (status =? 201) then
       responseText <- Response_text response ;;
       let data :=
         match Response.body response with
         | BodyJson _ parsed => parsed
         | _ => VObj [("message", VStr responseText); ("success", VBool true)]
         end in
       ret (ApiResponse.mk true (Some data) None status requestId timestamp None)
     else
       errorText <- Response_text response ;;
       ret (ApiResponse.mk false None
              (Some (VStr (if is_empty errorText
                           then "HTTP " ++ string_of_Z status else errorText)))
              status requestId timestamp None))
    (fun error =>
       ret (ApiResponse.mk false None
              (Some (VStr (if isError error then message error
                           else "Erro desconhecido")))
              0 requestId timestamp None)).

(** The [try]/[catch] that wraps each of the three operations. *)
Definition operation (rq : Request) (fallback : string) : M ApiResponse.t :=
  try_catch
    (response <- fetchWithTimeout rq ;;
     handleResponse response)
    (fun error =>
       now <- Date_now ;;
       timestamp <- toISOString ;;
       ret (ApiResponse.mk false None
              (Some (VStr (if isError error then message error else fallback)))
              0 ("err_" ++ string_of_Z now) timestamp None)).

Definition getAllConsultas : M ApiResponse.t :=
  operation (mkRequest (BASE_URL ++ "/main/consultas") "GET" None)
    "Erro ao buscar consultas".

Definition createConsulta (consulta : value) : M ApiResponse.t :=
  operation (mkRequest (BASE_URL ++ "/main/consulta") "POST" (Some consulta))
    "Erro ao criar consulta".

Definition deleteConsulta (id : Z) : M ApiResponse.t :=
  operation (mkRequest (BASE_URL ++ "/main/consultas/" ++ string_of_Z id) "DELETE" None)
    "Erro ao deletar consulta".

End ConsultaApi.

(* ===================================================================== *)
(** ** services/exameApi.ts *)
(* ===================================================================== *)

Module ExameApi.

Definition BASE_URL := "https://sprint4-java-av1f.onrender.com".
Definition TIMEOUT := 30000.

Definition fetchWithTimeout (rq : Request) : M Response.t :=
  fetch (EvAttempt rq).

Definition handleResponse (response : Response.t) : M ApiResponse.t :=
  now <- Date_now ;;
  tag <- Math_random_tag ;;
  let requestId := "resp_" ++ string_of_Z now ++ "_" ++ tag in
  timestamp <- toISOString ;;
  let status := Response.status response in
  try_catch
    (if (status =? 200) || (status =? 201) then
       responseText <- Response_text response ;;
       let data :=
         match Response.body response with
         | BodyJson _ parsed => parsed
         | _ => VObj [("message", VStr responseText); ("success", VBool true)]
         end in
       ret (ApiResponse.mk true (Some data) None status requestId timestamp None)
     else
       errorText <- Response_text response ;;
       ret (ApiResponse.mk false None
              (Some (VStr (if is_empty errorText
                           then "HTTP " ++ string_of_Z status else errorText)))
              status requestId timestamp None))
    (fun error =>
       ret (ApiResponse.mk false None
              (Some (VStr (if isError error then message error
                           else "Erro desconhecido")))
              0 requestId timestamp None)).

Definition operation (rq : Request) (fallback : string) : M ApiResponse.t :=
  try_catch
    (response <- fetchWithTimeout rq ;;
     handleResponse response)
    (fun error =>
       now <- Date_now ;;
       timestamp <- toISOString ;;
       ret (ApiResponse.mk false None
              (Some (VStr (if isError error then message error else fallback)))
              0 ("err_" ++ string_of_Z now) timestamp None)).

Definition getAllExames : M ApiResponse.t :=
  operation (mkRequest (BASE_URL ++ "/main/exames") "GET" None)
    "Erro ao buscar exames".

Definition createExame (exame : value) : M ApiResponse.t :=
  operation (mkRequest (BASE_URL ++ "/main/exame") "POST" (Some exame))
    "Erro ao criar exame".

Definition deleteExame (id : Z) : M ApiResponse.t :=
  operation (mkRequest (BASE_URL ++ "/main/exames/" ++ string_of_Z id) "DELETE" None)
    "Erro ao deletar exame".

End ExameApi.

(* ===================================================================== *)
(** ** Reading traces and results *)
(* ===================================================================== *)

Definition isAttempt (e : Event) : bool :=
  match e with EvAttempt _ => true | _ => false end.

Definition isNetworkEvent (e : Event) : bool :=
  match e with EvProbe _ | EvAttempt _ | EvDirect _ => true | _ => false end.

(** Number of requests the retry loop issued. *)
Definition attempts (tr : list Event) : nat := length (filter isAttempt tr).

(** Number of [fetch] calls of any kind. *)
Definition roundTrips (tr : list Event) : nat := length (filter isNetworkEvent tr).

Fixpoint sleeps (tr : list Event) : list Z :=
  match tr with
  | [] => []
  | EvSleep ms :: rest => ms :: sleeps rest
  | _ :: rest => sleeps rest
  end.

Fixpoint classifications (tr : list Event) : list ErrorType :=
  match tr with
  | [] => []
  | EvClassified c :: rest => c :: classifications rest
  | _ :: rest => classifications rest
  end.

(** What a run of the retry loop appends to the trace, from iteration
    [attempt] on: an attempt that ends the run, or a failed attempt, the
    back-off [min(1000 * 2^(attempt-1), 10000)], and the rest of the run. *)
Inductive RetryTrace (rq : Request) : Z -> list Event -> Prop :=
| RetryLast (attempt : Z) :
    attempt <= 3 ->
    RetryTrace rq attempt [EvAttempt rq]
| RetryAgain (attempt : Z) (rest : list Event) :
    attempt < 3 ->
    RetryTrace rq (attempt + 1) rest ->
    RetryTrace rq attempt
      (EvAttempt rq :: EvSleep (Z.min (1000 * 2 ^ (attempt - 1)) 10000) :: rest).

(** The three response normalisers of the client. *)
Inductive Api : Type := Patients | Consultas | Exames.

Definition handleResponseOf (api : Api) : Response.t -> M ApiResponse.t :=
  match api with
  | Patients => PatientApi.handleResponse
  | Consultas => ConsultaApi.handleResponse
  | Exames => ExameApi.handleResponse
  end.

(** Whether [response.text()] resolves. *)
Definition readable (r : Response.t) : bool :=
  match Response.body r with BodyUnreadable _ => false | _ => true end.

(** The envelope an operation returned, if it returned. *)
Definition envelope (o : Outcome ApiResponse.t * Machine) : option ApiResponse.t :=
  match fst o with Returned env => Some env | Thrown _ => None end.

(** The events a computation appended to the trace. *)
Definition appended {A} (c : M A) (w : World) (m : Machine) (evs : list Event) : Prop :=
  trace (snd (c w m)) = (trace m ++ evs)%list.

Definition isOk (s : Z) : bool := (s =? 200) || (s =? 201).

(** What the three normalisers have in common. *)
Definition NormalisedAs (r : Response.t) (env : ApiResponse.t) : Prop :=
  ApiResponse.success env = isOk (Response.status r) && readable r
  /\ (ApiResponse.success env = true -> ApiResponse.status env = Response.status r)
  /\ (ApiResponse.success env = false ->
      ApiResponse.status env = 0
      \/ (ApiResponse.status env = Response.status r /\ isOk (Response.status r) = false)).

(** The back-off slept immediately before the [n]-th request of the retry
    loop ([n] counts from 1); [None] when no sleep precedes it or there is no
    such request. *)
Fixpoint delayBefore (prev : option Z) (n : nat) (tr : list Event) : option Z :=
  match tr with
  | [] => None
  | EvAttempt _ :: rest =>
      match n with
      | O => None
      | S O => prev
      | S n' => delayBefore None n' rest
      end
  | EvSleep ms :: rest => delayBefore (Some ms) n rest
  | _ :: rest => delayBefore None n rest
  end.

Definition delayBeforeAttempt (n : nat) (tr : list Event) : option Z :=
  delayBefore None n tr.

(** Delay number [n] of a run, numbered as the code numbers it: the back-off
    slept once the [n]-th request of the retry loop has failed, that is
    between requests [n] and [n + 1].  [None] when the run has no such
    delay. *)
Definition delayAfterAttempt (n : nat) (tr : list Event) : option Z :=
  delayBeforeAttempt (S n) tr.

Definition probeUrl : string := PatientApi.BASE_URL ++ "/main/pacientes".

(** What one call of [fetchWithRetry] appends to the trace: nothing when the
    device is offline, the probe alone when the probe is answered 5xx, and
    otherwise the probe followed by a run of the retry loop. *)
Definition ExecutorTrace (rq : Request) (evs : list Event) : Prop :=
  evs = []
  \/ evs = [EvProbe probeUrl]
  \/ exists rest, evs = EvProbe probeUrl :: rest /\ RetryTrace rq 1 rest.

(** The connectivity check of a call that starts in machine [m] lets the
    call through: the device reports online, and the probe either fails or
    is answered below 500. *)
Definition connectivityPasses (w : World) (m : Machine) : Prop :=
  onLine w (reads m) = true
  /\ match network w (sent m) with
     | Resolves p => Response.status p < 500
     | Rejects _ => True
     end.

(** The alternate-language keys that the remapping probes. *)
Definition alternateKeys : list string :=
  [ "nomeCompleto"; "nome"; "cpfNumero"; "idadePaciente"; "idade";
    "sexo"; "genero"; "planoSaude"; "plano" ].

Definition canonicalFields : list string :=
  [ "name"; "cpf"; "age"; "gender"; "plan" ].

Definition hasKey (k : string) (v : value) : bool :=
  match v with
  | VObj props => match lookup k props with Some _ => true | None => false end
  | _ => false
  end.

(** The raw object exhibits at least one alternate-language key. *)
Definition hasAlternateKey (v : value) : bool :=
  existsb (fun k => hasKey k v) alternateKeys.

(** The gate of the single-object branch. *)
Definition gateKeysTruthy (v : value) : bool :=
  truthy (field v "nome") || truthy (field v "idade")
  || truthy (field v "genero") || truthy (field v "plano").

(** A computation that leaves the machine as it found it: no reading of
    [navigator.onLine], no request, no event. *)
Definition quiet {A} (c : M A) : Prop := forall w m, snd (c w m) = m.

(** What the loop over request-body variations appends to the trace: one
    executor run per variation tried, the bare re-send that [createPatient]
    makes for its last variation, and nothing for the variations that a
    [break] or a [throw] skips. *)
Inductive VariationRuns (u meth : string) (secondChance : bool)
  : list value -> list Event -> Prop :=
| RunsEnd (variations : list value) :
    VariationRuns u meth secondChance variations []
| RunsNext (variation : value) (rest : list value) (evs tail : list Event) :
    ExecutorTrace (mkRequest u meth (Some variation)) evs ->
    VariationRuns u meth secondChance rest tail ->
    VariationRuns u meth secondChance (variation :: rest) (evs ++ tail)
| RunsSecondChance (variation : value) (evs : list Event) :
    secondChance = true ->
    ExecutorTrace (mkRequest u meth (Some variation)) evs ->
    VariationRuns u meth secondChance [variation]
      (evs ++ [EvDirect (mkRequest u meth (Some variation))]).

(** The operations the client exposes. *)
Inductive Operation : Type :=
| GetAllPatients
| CreatePatient (patient : PatientApi.PatientRequest)
| UpdatePatient (id : Z) (patient : PatientApi.PatientRequest)
| DeletePatient (id : Z)
| GetAllConsultas
| CreateConsulta (consulta : value)
| DeleteConsulta (id : Z)
| GetAllExames
| CreateExame (exame : value)
| DeleteExame (id : Z).

Definition perform (op : Operation) : M ApiResponse.t :=
  match op with
  | GetAllPatients => PatientApi.getAllPatients
  | CreatePatient patient => PatientApi.createPatient patient
  | UpdatePatient id patient => PatientApi.updatePatient id patient
  | DeletePatient id => PatientApi.deletePatient id
  | GetAllConsultas => ConsultaApi.getAllConsultas
  | CreateConsulta consulta => ConsultaApi.createConsulta consulta
  | DeleteConsulta id => ConsultaApi.deleteConsulta id
  | GetAllExames => ExameApi.getAllExames
  | CreateExame exame => ExameApi.createExame exame
  | DeleteExame id => ExameApi.deleteExame id
  end.

Definition isPatientOperation (op : Operation) : bool :=
  match op with
  | GetAllPatients | CreatePatient _ | UpdatePatient _ _ | DeletePatient _ => true
  | _ => false
  end.

(** The requests a patient operation may send through the executor: its URL
    and method, and the bodies it tries in turn ([None]: a single request
    without a body). *)
Definition patientUrl (op : Operation) : string :=
  match op with
  | CreatePatient _ => PatientApi.BASE_URL ++ "/main/paciente"
  | UpdatePatient id _ | DeletePatient id =>
      PatientApi.BASE_URL ++ "/main/paciente/" ++ string_of_Z id
  | _ => PatientApi.BASE_URL ++ "/main/pacientes"
  end.

Definition patientMethod (op : Operation) : string :=
  match op with
  | CreatePatient _ => "POST"
  | UpdatePatient _ _ => "PUT"
  | DeletePatient _ => "DELETE"
  | _ => "GET"
  end.

(** The executor runs of a patient operation. *)
Definition PatientRuns (op : Operation) (evs : list Event) : Prop :=
  match op with
  | CreatePatient patient =>
      VariationRuns (patientUrl op) "POST" true (PatientApi.createVariations patient) evs
  | UpdatePatient _ patient =>
      VariationRuns (patientUrl op) "PUT" false (PatientApi.updateVariations patient) evs
  | _ => ExecutorTrace (mkRequest (patientUrl op) (patientMethod op) None) evs
  end.

(** The one request of a consultation or exam operation. *)
Definition plainRequest (op : Operation) : Request :=
  match op with
  | GetAllConsultas => mkRequest (ConsultaApi.BASE_URL ++ "/main/consultas") "GET" None
  | CreateConsulta consulta =>
      mkRequest (ConsultaApi.BASE_URL ++ "/main/consulta") "POST" (Some consulta)
  | DeleteConsulta id =>
      mkRequest (ConsultaApi.BASE_URL ++ "/main/consultas/" ++ string_of_Z id) "DELETE" None
  | GetAllExames => mkRequest (ExameApi.BASE_URL ++ "/main/exames") "GET" None
  | CreateExame exame =>
      mkRequest (ExameApi.BASE_URL ++ "/main/exame") "POST" (Some exame)
  | DeleteExame id =>
      mkRequest (ExameApi.BASE_URL ++ "/main/exames/" ++ string_of_Z id) "DELETE" None
  | _ => mkRequest (patientUrl op) (patientMethod op) None
  end.

(** How many request bodies a patient operation may try. *)
Definition bodiesTried (op : Operation) : nat :=
  match op with
  | CreatePatient patient => length (PatientApi.createVariations patient)
  | UpdatePatient _ patient => length (PatientApi.updateVariations patient)
  | _ => 1%nat
  end.

(** [sexo] as sent in a request body. *)
Definition sexo (body : value) : value := field body "sexo".

(** The gender values that the first two variations of [createPatient]
    translate rather than replace. *)
Definition translatedGender (g : string) : bool :=
  String.eqb g "MASCULINO" || String.eqb g "FEMININO"
  || String.eqb g "M" || String.eqb g "F".

Definition createUrl : string := PatientApi.BASE_URL ++ "/main/paciente".




(** The response declares a JSON body: the guard of [parseApiError]. *)
Definition declaresJson (r : Response.t) : bool :=
  match Response.headers_get r "content-type" with
  | Some contentType =>
      negb (is_empty contentType) && includes contentType "application/json"
  | None => false
  end.

(** [parseApiError] from the point where [errorData] is known. *)
Definition interpretErrorData (response : Response.t) (errorData : value)
  : M PatientApi.ApiErrorInfo :=
  m <- prop errorData "message" ;;
  e <- prop errorData "error" ;;
  d <- prop errorData "detail" ;;
  g <- prop errorData "msg" ;;
  let msg := m ||| e ||| d ||| g ||| VStr (PatientApi.http_status_message response) in
  let serverMessage := m ||| e ||| d in
  ve <- prop errorData "validationErrors" ;;
  errs <- prop errorData "errors" ;;
  fld <- prop errorData "field" ;;
  validationErrors <-
    (if truthy ve then ret ve
     else if truthy errs then
       match errs with
       | VArr items =>
           folded <- PatientApi.forEachValidationError items [] ;;
           ret (VObj folded)
       | VObj _ => ret errs
       | _ => ret VUndefined
       end
     else if truthy fld && truthy m then
       k <- ToPropertyKey fld ;;
       ret (VObj [(k, VArr [m])])
     else ret VUndefined) ;;
  code <- prop errorData "code" ;;
  ret (PatientApi.mkInfo msg validationErrors serverMessage code fld).

(** The envelope that [handleResponse] builds from a parsed error. *)
Definition errorEnvelope (r : Response.t) (w : World) (info : PatientApi.ApiErrorInfo)
  : ApiResponse.t :=
  ApiResponse.mk false None (Some (PatientApi.infoMessage info)) (Response.status r)
    ("resp_" ++ string_of_Z (nowMs w) ++ "_" ++ randomTag w) (isoTime w)
    (Some (ApiResponse.mkDetails (PatientApi.infoValidationErrors info)
             (PatientApi.infoServerMessage info) (Some (Response.statusText r)))).

(** The envelope of its [catch]. *)
Definition caughtEnvelope (w : World) (error : JsError) : ApiResponse.t :=
  ApiResponse.mk false None
    (Some (VStr (if isError error then message error else "Unknown error occurred")))
    0 ("resp_" ++ string_of_Z (nowMs w) ++ "_" ++ randomTag w) (isoTime w) None.

(** One entry of an [errors] array. *)
Definition errorEntry (entry : string * value) : value :=
  VObj [("field", VStr (fst entry)); ("message", snd entry)].



(** The stand-in record for a 201 answer that is not JSON. *)
Definition placeholderPatient (now : Z) (text : string) : value :=
  VObj [ ("success", VBool true); ("message", VStr text); ("id", VNum now);
         ("name", VStr "Paciente criado com sucesso"); ("cpf", VStr "");
         ("age", VNum 0); ("gender", VStr ""); ("plan", VStr "") ].

(** [parseApiError] up to the point where [errorData] is known. *)
Definition readErrorData (response : Response.t) : M value :=
  try_catch
    (match Response.headers_get response "content-type" with
     | Some contentType =>
         if negb (is_empty contentType) && includes contentType "application/json"
         then Response_json response
         else (textResponse <- Response_text response ;;
               ret (PatientApi.message_object textResponse response))
     | None =>
         textResponse <- Response_text response ;;
         ret (PatientApi.message_object textResponse response)
     end)
    (fun _ =>
       try_catch
         (textResponse <- Response_text_again response ;;
          ret (PatientApi.message_object textResponse response))
         (fun _ => ret (VObj [("message", VStr (PatientApi.http_status_message response))]))).


(** The connectivity probe sent as request number [k] lets the run go on. *)
Definition probePasses (w : World) (k : nat) : Prop :=
  match network w k with
  | Resolves p => Response.status p < 500
  | Rejects _ => True
  end.

(** Request number [k] is answered by [r], with a 4xx status. *)
Definition rejected (w : World) (k : nat) (r : Response.t) : Prop :=
  network w k = Resolves r /\ 400 <= Response.status r < 500.

(** From machine [m] on, the next [n] executor runs find the device online,
    pass the probe and have their first attempt answered 4xx. *)
Definition Rejecting (w : World) (m : Machine) (n : nat) : Prop :=
  forall i, (i < n)%nat ->
    onLine w (reads m + i) = true
    /\ probePasses w (sent m + 2 * i)
    /\ exists r, rejected w (sent m + 2 * i + 1) r.

(** What executor runs that are each answered at once append to the trace. *)
Definition rejectedRuns (u meth : string) (variations : list value) : list Event :=
  flat_map (fun b => [EvProbe probeUrl; EvAttempt (mkRequest u meth (Some b))])
    variations.

(** The machine after [n] such runs. *)
Definition afterRuns (m : Machine) (n : nat) (evs : list Event) : Machine :=
  mkMachine (reads m + n) (sent m + 2 * n) (trace m ++ evs).

(** The machine once the operation has read [navigator.onLine] for its
    error context. *)
Definition contextRead (m : Machine) : Machine :=
  mkMachine (S (reads m)) (sent m) (trace m).

(** The first request body of an operation that tries several. *)
Definition firstBody (op : Operation) : option value :=
  match op with
  | CreatePatient patient => Some (nth 0 (PatientApi.createVariations patient) VUndefined)
  | UpdatePatient _ patient => Some (nth 0 (PatientApi.updateVariations patient) VUndefined)
  | _ => None
  end.


(* ---------------------------------------------------------------------- *)
(** ** The administration panel's use of the patient listing *)

Module AdminPanel.

(** What [fetchPatients] leaves in the component's state: the list given to
    [setPatients], or the text given to [setError] together with the
    classification handed to [showMessage].  An envelope whose [error] is
    not a text is outside this model. *)
Inductive View : Type :=
| Listed (patients : list value)
| Failed (errorText : string) (shown : UserFriendlyError)
| Unmodelled.

(** The object literal [{ message: response.error, status: response.status }]:
    not an [Error], no [name]. *)
Definition errorObject (msg : string) (st : Z) : JsError :=
  mkError false false EmptyString msg (Some st) None VUndefined.

(** The panel's [handleApiError]: it reads [navigator.onLine] for the context
    it builds, which carries neither request data, URL nor method. *)
Definition handleApiError (error : JsError) (operation : string)
  : M UserFriendlyError :=
  online <- read_onLine ;;
  ErrorHandler.handleApiError error (mkContext operation VUndefined online None None).

(** [validPatients] *)
Definition validPatients (data : value) : list value :=
  match data with
  | VArr items =>
      filter (fun patient =>
                truthy patient && typeof_object patient
                && truthy (field patient "name")) items
  | _ => []
  end.

Definition fetchPatients : M View :=
  try_catch
    (response <- PatientApi.getAllPatients ;;
     match ApiResponse.success response, ApiResponse.data response with
     | true, Some data =>
         if truthy data then ret (Listed (validPatients data))
         else ret Unmodelled
     | true, None => ret Unmodelled
     | false, _ =>
         match ApiResponse.error response with
         | Some (VStr msg) =>
             shown <- handleApiError (errorObject msg (ApiResponse.status response))
                        "fetch_patients" ;;
             ret (Failed (if is_empty msg then "Failed to load patients" else msg)
                    shown)
         | _ => ret Unmodelled
         end
     end)
    (fun err =>
       shown <- handleApiError err "fetch_patients" ;;
       ret (Failed "Network error. Please check your connection." shown)).

End AdminPanel.

(** An element of a listing that the panel will show: an object with a
    truthy name under one of the three keys the remapping reads. *)
Definition hasSomeName (item : value) : bool :=
  truthy item && typeof_object item
  && truthy (field item "nomeCompleto" ||| field item "nome" ||| field item "name").


(* ---------------------------------------------------------------------- *)
(** ** Form validation ([utils/validation.ts]) *)

Module Validation.

Record ValidationResult : Type := mkResult {
  isValid : bool;
  error : option string;
  warning : option string;
  suggestions : list string
}.

(** [\d]: one of the ten ASCII digits. *)
Definition isDigit (c : ascii) : bool :=
  (Nat.leb 48 (nat_of_ascii c) && Nat.leb (nat_of_ascii c) 57)%bool.

(** [s.replace(/\D/g, '')].  A string is its UTF-8 bytes here; no byte of a
    character outside ASCII is a digit, so dropping the bytes that are not
    digits is dropping the characters that are not. *)
Fixpoint removeNonDigits (s : string) : string :=
  match s with
  | EmptyString => EmptyString
  | String c rest =>
      if isDigit c then String c (removeNonDigits rest) else removeNonDigits rest
  end.

Definition allDigits (s : string) : bool :=
  forallb isDigit (list_ascii_of_string s).

(** [/^(\d)\1{10}$/.test(s)] *)
Definition sameDigitElevenTimes (s : string) : bool :=
  match s with
  | EmptyString => false
  | String c rest =>
      (isDigit c && Nat.eqb (String.length rest) 10
       && forallb (Ascii.eqb c) (list_ascii_of_string rest))%bool
  end.

Definition validateCPF (cpf : string) : ValidationResult :=
  if is_empty cpf then
    mkResult false (Some "CPF é obrigatório") None
      ["Digite um CPF válido no formato 000.000.000-00"]
  else
    let cleanCPF := removeNonDigits cpf in
    if negb (Nat.eqb (String.length cleanCPF) 11) then
      mkResult false (Some "CPF deve ter exatamente 11 dígitos") None
        ["Verifique se todos os dígitos foram digitados"]
    else if sameDigitElevenTimes cleanCPF then
      mkResult false (Some "CPF inválido - todos os dígitos não podem ser iguais") None
        ["CPF não pode ter todos os dígitos iguais (ex: 111.111.111-11)"]
    else mkResult true None None [].

(** [s.replace(/(\d{3})(\d)/, '$1.$2')]: at the first place where four digits
    follow one another, a dot goes in after the third. *)
Fixpoint insertDot (s : string) : string :=
  match s with
  | EmptyString => EmptyString
  | String a tl =>
      match tl with
      | String b (String c (String d rest)) =>
          if (isDigit a && isDigit b && isDigit c && isDigit d)%bool
          then String a (String b (String c (String "." (String d rest))))
          else String a (insertDot tl)
      | _ => s
      end
  end.

(** [s.replace(/(\d{3})(\d{1,2})$/, '$1-$2')]: the match starts at the first
    place from which exactly five, or else exactly four, digits run to the
    end of the string. *)
Fixpoint insertDash (s : string) : string :=
  match s with
  | EmptyString => EmptyString
  | String a tl =>
      if (allDigits s
          && (Nat.eqb (String.length s) 5 || Nat.eqb (String.length s) 4))%bool
      then match tl with
           | String b (String c rest) => String a (String b (String c (String "-" rest)))
           | _ => s
           end
      else String a (insertDash tl)
  end.

Definition formatCPF (value : string) : string :=
  let cleanValue := removeNonDigits value in
  if Nat.leb (String.length cleanValue) 11
  then insertDash (insertDot (insertDot cleanValue))
  else value.

Definition cleanCPF (cpf : string) : string := removeNonDigits cpf.

(** One white-space character of ECMAScript (WhiteSpace or LineTerminator)
    at the head of the UTF-8 bytes of a string: what follows it. *)
Definition afterWhiteSpace (s : string) : option string :=
  match s with
  | EmptyString => None
  | String a r1 =>
      let x := nat_of_ascii a in
      if (Nat.leb 9 x && Nat.leb x 13 || Nat.eqb x 32)%bool then Some r1
      else
        match r1 with
        | EmptyString => None
        | String b r2 =>
            let y := nat_of_ascii b in
            if (Nat.eqb x 194 && Nat.eqb y 160)%bool then Some r2      (* U+00A0 *)
            else
              match r2 with
              | EmptyString => None
              | String c r3 =>
                  let z := nat_of_ascii c in
                  if (Nat.eqb x 225 && Nat.eqb y 154 && Nat.eqb z 128      (* U+1680 *)
                      || Nat.eqb x 226 && Nat.eqb y 128
                         && (Nat.leb 128 z && Nat.leb z 138               (* U+2000..200A *)
                             || Nat.eqb z 168 || Nat.eqb z 169            (* U+2028, U+2029 *)
                             || Nat.eqb z 175)                            (* U+202F *)
                      || Nat.eqb x 226 && Nat.eqb y 129 && Nat.eqb z 159   (* U+205F *)
                      || Nat.eqb x 227 && Nat.eqb y 128 && Nat.eqb z 128   (* U+3000 *)
                      || Nat.eqb x 239 && Nat.eqb y 187 && Nat.eqb z 191   (* U+FEFF *)
                     )%bool
                  then Some r3
                  else None
              end
        end
  end.

Fixpoint trimStartWithin (fuel : nat) (s : string) : string :=
  match fuel with
  | O => s
  | S fuel' =>
      match afterWhiteSpace s with
      | Some rest => trimStartWithin fuel' rest
      | None => s
      end
  end.

Definition trimStart (s : string) : string := trimStartWithin (String.length s) s.

Fixpoint trimEnd (s : string) : string :=
  match s with
  | EmptyString => EmptyString
  | String c rest =>
      if is_empty (trimStart s) then EmptyString else String c (trimEnd rest)
  end.

(** [s.trim()] *)
Definition trim (s : string) : string := trimEnd (trimStart s).

Definition validGenders : list string :=
  ["M"; "F"; "Other"; "MASCULINO"; "FEMININO"; "Masculino"; "Feminino"].

Definition validateGender (gender : string) : ValidationResult :=
  if (is_empty gender || is_empty (trim gender))%bool then
    mkResult false (Some "Gênero é obrigatório") None
      ["Selecione uma opção de gênero"]
  else if negb (existsb (String.eqb gender) validGenders) then
    mkResult false (Some "Gênero inválido") None
      ["Selecione uma das opções disponíveis"]
  else mkResult true None None [].

End Validation.

(** The three-three-three-two grouping of an eleven-digit CPF. *)
Definition punctuated (digits : string) : string :=
  substring 0 3 digits ++ "." ++ substring 3 3 digits ++ "."
  ++ substring 6 3 digits ++ "-" ++ substring 9 2 digits.

(** The [sexo] of the first body that [createPatient] sends for a patient. *)
Definition firstSexo (patient : PatientApi.PatientRequest) : value :=
  sexo (nth 0 (PatientApi.createVariations patient) VUndefined).


(* ---------------------------------------------------------------------- *)
(** ** Authentication ([services/authService.ts], [contexts/AuthContext.tsx]) *)

Module Auth.

Inductive Role : Type := RoleAdmin | RoleUser.

Record User : Type := mkUser { username : string; role : Role }.

Record LoginCredentials : Type := mkCredentials {
  credUsername : string;
  credPassword : string
}.

Record AuthState : Type := mkAuthState {
  isAuthenticated : bool;
  isAdmin : bool;
  user : option User
}.

Inductive AuthAction : Type :=
| LOGIN_SUCCESS (payload : User)
| LOGIN_FAILURE
| LOGOUT.

Definition ADMIN_CREDENTIALS : LoginCredentials := mkCredentials "admin" "admin".

Definition initialAuthState : AuthState := mkAuthState false false None.

Definition authReducer (state : AuthState) (action : AuthAction) : AuthState :=
  match action with
  | LOGIN_SUCCESS payload =>
      mkAuthState true
        (match role payload with RoleAdmin => true | RoleUser => false end)
        (Some payload)
  | LOGIN_FAILURE => mkAuthState false false None
  | LOGOUT => mkAuthState false false None
  end.

(** The promise resolves after 100 ms, with the user or with [null]. *)
Definition validateAdminCredentials (credentials : LoginCredentials) : option User :=
  if (String.eqb (credUsername credentials) (credUsername ADMIN_CREDENTIALS)
      && String.eqb (credPassword credentials) (credPassword ADMIN_CREDENTIALS))%bool
  then Some (mkUser (credUsername credentials) RoleAdmin)
  else None.

Definition validateCredentials (credentials : LoginCredentials) : option User :=
  validateAdminCredentials credentials.

(** [login]: what it returns and the state after its [dispatch].  The
    promise of [validateCredentials] never rejects, so the [catch] of the
    source is not entered. *)
Definition login (credentials : LoginCredentials) (state : AuthState)
  : bool * AuthState :=
  match validateCredentials credentials with
  | Some u => (true, authReducer state (LOGIN_SUCCESS u))
  | None => (false, authReducer state LOGIN_FAILURE)
  end.

Definition logout (state : AuthState) : AuthState := authReducer state LOGOUT.

End Auth.

(** What a user of the application does to the session, and the state after
    a sequence of such steps. *)
Inductive SessionStep : Type :=
| DoLogin (credentials : Auth.LoginCredentials)
| DoLogout.

Definition sessionStep (state : Auth.AuthState) (step : SessionStep) : Auth.AuthState :=
  match step with
  | DoLogin credentials => snd (Auth.login credentials state)
  | DoLogout => Auth.logout state
  end.

Definition sessionAfter (steps : list SessionStep) : Auth.AuthState :=
  fold_left sessionStep steps Auth.initialAuthState.

Definition isAdminLogin (step : SessionStep) : bool :=
  match step with
  | DoLogin credentials =>
      (String.eqb (Auth.credUsername credentials) "admin"
       && String.eqb (Auth.credPassword credentials) "admin")%bool
  | DoLogout => false
  end.

(* --------------------------------------------------------------------- *)
(** *** Concrete inputs *)
(* --------------------------------------------------------------------- *)

Definition abortError : JsError :=
  mkError true false "AbortError" "The operation was aborted." None None VUndefined.

Definition failedToFetch : JsError :=
  mkError true true "TypeError" "Failed to fetch" None None VUndefined.

Definition connectionLost : JsError :=
  mkError true true "TypeError" "network error" None None VUndefined.

Definition jsonHeaders : list (string * string) :=
  [("content-type", "application/json")].

(** Status 200 whose body cannot be read to the end. *)
Definition truncated200 : Response.t :=
  Response.mk 200 "OK" jsonHeaders (BodyUnreadable connectionLost).

Definition emptyList200 : Response.t :=
  Response.mk 200 "OK" jsonHeaders (BodyJson "[]" (VArr [])).

Definition opaqueProbe : Response.t :=
  Response.mk 0 "" [] (BodyText "").

Definition serverError500 : Response.t :=
  Response.mk 500 "Internal Server Error" jsonHeaders
    (BodyJson "..." (VObj [("message", VStr "Internal Server Error")])).

Definition worldOf (online : nat -> bool) (net : nat -> FetchOutcome) : World :=
  mkWorld online net 1700000000000 "2024-01-01T00:00:00.000Z" "k3x9qa".

Definition alwaysOnline : nat -> bool := fun _ => true.
Definition alwaysOffline : nat -> bool := fun _ => false.

(** Every request is answered 200 with an empty list. *)
Definition calmWorld : World := worldOf alwaysOnline (fun _ => Resolves emptyList200).

(** The probe passes, the first request times out, the second succeeds. *)
Definition abortThenOk : World :=
  worldOf alwaysOnline
    (fun k => match k with
              | 0%nat => Resolves opaqueProbe
              | 1%nat => Rejects abortError
              | _ => Resolves emptyList200
              end).

(** The probe passes and every request is answered 500. *)
Definition always500 : World :=
  worldOf alwaysOnline
    (fun k => match k with
              | 0%nat => Resolves opaqueProbe
              | _ => Resolves serverError500
              end).

(** The probe passes and every request fails the way a blocked cross-origin
    request does. *)
Definition corsBlocked : World :=
  worldOf alwaysOnline
    (fun k => match k with
              | 0%nat => Resolves opaqueProbe
              | _ => Rejects failedToFetch
              end).

Definition offlineWorld : World :=
  worldOf alwaysOffline (fun _ => Rejects failedToFetch).

Definition listRequest : Request := mkRequest probeUrl "GET" None.

Definition anaWithExtra : value :=
  VObj [ ("id", VNum 7); ("name", VStr "Ana"); ("cpf", VStr "12345678901");
         ("age", VNum 30); ("gender", VStr "F"); ("plan", VStr "Basic");
         ("createdAt", VStr "2024-01-01") ].

Definition biaPartial : value :=
  VObj [ ("id", VNum 8); ("name", VStr "Bia") ].

(** A list answer whose elements are already in canonical naming. *)
Definition canonicalList200 : Response.t :=
  Response.mk 200 "OK" jsonHeaders (BodyJson "[...]" (VArr [anaWithExtra; biaPartial])).

(** The parsed form of [{"errors": [{"field":"cpf","message":"invalid"}]}]. *)
Definition errorsBody : value :=
  VObj [("errors", VArr [VObj [("field", VStr "cpf"); ("message", VStr "invalid")]])].

Definition dq : string := String "034"%char EmptyString.

Definition errorsText : string :=
  "{" ++ dq ++ "errors" ++ dq ++ ": [{" ++ dq ++ "field" ++ dq ++ ":" ++ dq ++ "cpf" ++ dq
  ++ "," ++ dq ++ "message" ++ dq ++ ":" ++ dq ++ "invalid" ++ dq ++ "}]}".

(** The 422 answer with that body and no [Content-Type] of JSON. *)
Definition errors422Plain : Response.t :=
  Response.mk 422 "Unprocessable Entity"
    [("content-type", "text/plain;charset=UTF-8")]
    (BodyJson errorsText errorsBody).

Definition errors422Json : Response.t :=
  Response.mk 422 "Unprocessable Entity" jsonHeaders (BodyJson errorsText errorsBody).

(** The device is online and every [fetch] runs into the abort timer. *)
Definition everythingTimesOut : World :=
  worldOf alwaysOnline (fun _ => Rejects abortError).

Definition consultasRequest : Request :=
  mkRequest (ConsultaApi.BASE_URL ++ "/main/consultas") "GET" None.

(** The form's 'Other' option. *)
Definition patientOther : PatientApi.PatientRequest :=
  PatientApi.mkPatientRequest "Ana Souza" "12345678901" 30 "Other" "Basic".

Definition patientLowerM : PatientApi.PatientRequest :=
  PatientApi.mkPatientRequest "Rui Lima" "10987654321" 41 "m" "Basic".

(** Status 201 with the plain text [Created]. *)
Definition created201 : Response.t :=
  Response.mk 201 "Created" [("content-type", "text/plain")] (BodyText "Created").

Definition badRequest400 : Response.t :=
  Response.mk 400 "Bad Request" jsonHeaders
    (BodyJson "..." (VObj [("message", VStr "Unrecognized field")])).

(** The probe passes and every request is answered 400. *)
Definition always400 : World :=
  worldOf alwaysOnline
    (fun k => match k with
              | 0%nat | 2%nat | 4%nat | 6%nat => Resolves opaqueProbe
              | _ => Resolves badRequest400
              end).

(** The partial record as a single-object answer. *)
Definition biaSingle200 : Response.t :=
  Response.mk 200 "OK" jsonHeaders (BodyJson "{...}" biaPartial).

(** A created patient echoed under the names that the first body of
    [createPatient] uses. *)
Definition echoedLongNames : value :=
  VObj [ ("id", VNum 9); ("nomeCompleto", VStr "Caio Reis");
         ("cpfNumero", VStr "11122233344"); ("idadePaciente", VNum 52);
         ("sexo", VStr "M"); ("planoSaude", VStr "Plus") ].

Definition echoed201 : Response.t :=
  Response.mk 201 "Created" jsonHeaders (BodyJson "{...}" echoedLongNames).

(** The probe is answered 503: the server is there and failing. *)
Definition unavailable503 : Response.t :=
  Response.mk 503 "Service Unavailable" [] (BodyText "").

Definition probeSees503 : World :=
  worldOf alwaysOnline (fun _ => Resolves unavailable503).

(** An error object that carries the status of a failed response. *)
Definition serviceUnavailable : JsError :=
  mkError true false "Error" "Service Unavailable" (Some 503) None VUndefined.

Definition createContext : ErrorContext :=
  mkContext "createPatient" (PatientApi.requestValue patientOther) true
    (Some createUrl) (Some "POST").

Definition null422 : Response.t :=
  Response.mk 422 "Unprocessable Entity" jsonHeaders (BodyJson "null" VNull).

Definition notFoundPlain : Response.t :=
  Response.mk 404 "Not Found" [("content-type", "text/html")] (BodyText "").




(** A listing with a nameless element and a [null] among the patients. *)
Definition mixedList200 : Response.t :=
  Response.mk 200 "OK" jsonHeaders
    (BodyJson "[...]"
       (VArr [echoedLongNames; VObj [("id", VNum 3)]; VNull; biaPartial])).

Definition mixedListing : World :=
  worldOf alwaysOnline
    (fun k => match k with
              | 0%nat => Resolves opaqueProbe
              | _ => Resolves mixedList200
              end).


Definition patientFeminino : PatientApi.PatientRequest :=
  PatientApi.mkPatientRequest "Ana Souza" "12345678901" 30 "Feminino" "Basic".

(* ===================================================================== *)
(** * Properties *)
(* ===================================================================== *)

(** ** The model at work *)

Example includes_failed_to_fetch :
  includes "TypeError: Failed to fetch" "Failed to fetch" = true
  /\ includes (toLowerCase "Blocked by CORS policy") "cors" = true
  /\ includes "timed out" "timeout" = false.
Proof. repeat split; reflexivity. Qed.

Example classification_of_signatures :
  NetworkUtils.isCorsError failedToFetch = true
  /\ NetworkUtils.isCorsError abortError = false
  /\ NetworkUtils.isCorsError connectionLost = false.
Proof. repeat split; reflexivity. Qed.

Example retry_delays :
  map PatientApi.getRetryDelay [1; 2; 3; 4; 5] = [1000; 2000; 4000; 8000; 10000].
Proof. reflexivity. Qed.

Example property_keys :
  ToString (VArr [VNum 1; VNull; VStr "a"]) = Some "1,,a"
  /\ ToString (VObj [("x", VNum 1)]) = Some "[object Object]"
  /\ ToString (VNum 422) = Some "422".
Proof. repeat split; reflexivity. Qed.

Example list_patients_in_a_calm_world :
  run PatientApi.getAllPatients calmWorld
  = (Returned (ApiResponse.mk true (Some (VArr [])) None 200
                 "resp_1700000000000_k3x9qa" "2024-01-01T00:00:00.000Z" None),
     mkMachine 2 2 [EvProbe probeUrl; EvAttempt listRequest]).
Proof. reflexivity. Qed.

(** Status 201 with a body that is not JSON: a placeholder patient. *)
Example created_with_plain_text :
  envelope (run (PatientApi.handleResponse created201) calmWorld)
  = Some (ApiResponse.mk true
            (Some (VObj [ ("success", VBool true); ("message", VStr "Created");
                          ("id", VNum 1700000000000);
                          ("name", VStr "Paciente criado com sucesso");
                          ("cpf", VStr ""); ("age", VNum 0);
                          ("gender", VStr ""); ("plan", VStr "") ]))
            None 201 "resp_1700000000000_k3x9qa" "2024-01-01T00:00:00.000Z" None).
Proof. reflexivity. Qed.

(** Every body of [createPatient] answered 400: the four bodies in turn, each
    behind its own connectivity check, and the last one once more. *)
Example create_patient_all_rejected :
  map (fun e => match e with
                | EvAttempt rq | EvDirect rq =>
                    match reqBody rq with Some b => sexo b | None => VUndefined end
                | _ => VUndefined
                end)
      (filter isNetworkEvent
         (trace (snd (run (PatientApi.createPatient patientOther) always400))))
  = [ VUndefined; VStr "M"; VUndefined; VStr "m"; VUndefined; VStr "Other";
      VUndefined; VStr "Other"; VStr "Other" ]
  /\ option_map ApiResponse.status
       (envelope (run (PatientApi.createPatient patientOther) always400)) = Some 400.
Proof. split; reflexivity. Qed.

(** ** Response normaliser: the [success] flag *)

Lemma eqb_200_201 (s : Z) :
  (s =? 200) || (s =? 201) = true <-> s = 200 \/ s = 201.
Proof.
  rewrite orb_true_iff, !Z.eqb_eq. tauto.
Qed.

Lemma patient_handleResponse_success (r : Response.t) (w : World) (m : Machine) :
  exists env m',
    PatientApi.handleResponse r w m = (Returned env, m') /\ NormalisedAs r env.
Proof.
  unfold PatientApi.handleResponse, NormalisedAs, readable, isOk.
  unfold bind at 1 2. unfold Date_now, Math_random_tag. cbv beta iota.
  destruct ((Response.status r =? 200) || (Response.status r =? 201)) eqn:Hs.
  - unfold try_catch, bind, toISOString, Response_text, ret, throw.
    destruct (Response.body r); eexists; eexists; cbn;
      (split; [reflexivity | repeat split; intros; try discriminate; auto]).
  - unfold try_catch at 1. unfold bind at 1. unfold toISOString at 1. cbv beta iota.
    unfold bind, ret.
    destruct (PatientApi.parseApiError r w m) as [[a | e] m1];
      eexists; eexists; cbn;
      (split; [reflexivity | repeat split; intros; try discriminate; auto]).
Qed.

Lemma consulta_handleResponse_success (r : Response.t) (w : World) (m : Machine) :
  exists env m',
    ConsultaApi.handleResponse r w m = (Returned env, m') /\ NormalisedAs r env.
Proof.
  unfold ConsultaApi.handleResponse, NormalisedAs, readable, isOk.
  unfold bind, try_catch, Date_now, Math_random_tag, toISOString, Response_text,
    ret, throw.
  destruct ((Response.status r =? 200) || (Response.status r =? 201)) eqn:Hs;
    destruct (Response.body r); eexists; eexists; cbn;
    (split; [reflexivity | repeat split; intros; try discriminate; auto]).
Qed.

Lemma exame_handleResponse_success (r : Response.t) (w : World) (m : Machine) :
  exists env m',
    ExameApi.handleResponse r w m = (Returned env, m') /\ NormalisedAs r env.
Proof.
  unfold ExameApi.handleResponse, NormalisedAs, readable, isOk.
  unfold bind, try_catch, Date_now, Math_random_tag, toISOString, Response_text,
    ret, throw.
  destruct ((Response.status r =? 200) || (Response.status r =? 201)) eqn:Hs;
    destruct (Response.body r); eexists; eexists; cbn;
    (split; [reflexivity | repeat split; intros; try discriminate; auto]).
Qed.

Lemma handleResponseOf_normalised (api : Api) (r : Response.t) (w : World) (m : Machine) :
  exists env m',
    handleResponseOf api r w m = (Returned env, m') /\ NormalisedAs r env.
Proof.
  destruct api; cbn [handleResponseOf].
  - apply patient_handleResponse_success.
  - apply consulta_handleResponse_success.
  - apply exame_handleResponse_success.
Qed.

(** C1, as stated, fails: a response with status 200 whose body cannot be
    read ([response.text()] rejects) is caught by the normaliser's [catch]
    and yields [success = false] with status 0. *)
Lemma truncated_200_is_failure :
  Response.status truncated200 = 200
  /\ envelope (run (PatientApi.handleResponse truncated200) calmWorld)
     = Some (ApiResponse.mk false None (Some (VStr "network error")) 0
               "resp_1700000000000_k3x9qa" "2024-01-01T00:00:00.000Z" None).
Proof.
  split; reflexivity.
Qed.

(** C1, amended.  Each of the three normalisers (patients, consultations,
    exams) always returns an envelope, and its [success] is true if and only
    if the response status is 200 or 201 and the body could be read.  Any
    other status yields [success = false].  In terms of the envelope alone:
    [success] is true if and only if the envelope's own [status] is 200 or
    201 (a body that cannot be read gives status 0). *)
Theorem success_iff_ok_status_and_readable_body
  (api : Api) (r : Response.t) (w : World) (m : Machine) :
  exists env m',
    handleResponseOf api r w m = (Returned env, m')
    /\ (ApiResponse.success env = true <->
        (Response.status r = 200 \/ Response.status r = 201) /\ readable r = true)
    /\ (Response.status r <> 200 -> Response.status r <> 201 ->
        ApiResponse.success env = false)
    /\ (ApiResponse.success env = true <->
        ApiResponse.status env = 200 \/ ApiResponse.status env = 201).
Proof.
  destruct (handleResponseOf_normalised api r w m) as (env & m' & E & S & T & F).
  exists env, m'. split; [exact E|].
  unfold isOk in *.
  assert (Hiff : ApiResponse.success env = true <->
                 (Response.status r = 200 \/ Response.status r = 201)
                 /\ readable r = true).
  { rewrite S, andb_true_iff, eqb_200_201. tauto. }
  split; [exact Hiff|]. split.
  - intros N1 N2. destruct (ApiResponse.success env) eqn:Es; [|reflexivity].
    destruct Hiff as [H _]. destruct (H eq_refl) as [[?|?] _]; contradiction.
  - split.
    + intros Ht. rewrite (T Ht). apply Hiff, Ht.
    + intros Hst. destruct (ApiResponse.success env) eqn:Es; [reflexivity|].
      destruct (F eq_refl) as [Z0 | [Eq No]].
      * rewrite Z0 in Hst. destruct Hst; discriminate.
      * rewrite Eq in Hst. apply eqb_200_201 in Hst. congruence.
Qed.

(** ** Retry executor *)

Lemma isNetworkError_quiet (e : JsError) (w : World) (m : Machine) :
  exists b,
    NetworkUtils.isNetworkError e w m
    = (Returned b, mkMachine (S (reads m)) (sent m) (trace m)).
Proof.
  unfold NetworkUtils.isNetworkError, NetworkUtils.isOnline, read_onLine, bind, ret.
  destruct (onLine w (reads m)); cbn.
  - destruct (isTypeError e && negb (is_empty (message e))
              && includes (message e) "Failed to fetch"); [eexists; reflexivity|].
    destruct (String.eqb (name e) "AbortError"); eexists; reflexivity.
  - eexists; reflexivity.
Qed.

Lemma shouldRetryRequest_quiet (e : JsError) (attempt : Z) (w : World) (m : Machine) :
  exists b m',
    PatientApi.shouldRetryRequest e attempt w m = (Returned b, m')
    /\ trace m' = trace m /\ sent m' = sent m
    /\ (b = true -> attempt < 3).
Proof.
  unfold PatientApi.shouldRetryRequest. cbn [maxAttempts PatientApi.RETRY_CONFIG].
  destruct (3 <=? attempt) eqn:Hmax.
  - exists false, m. repeat split; discriminate.
  - apply Z.leb_gt in Hmax. unfold bind.
    destruct (isNetworkError_quiet e w m) as (net & ->).
    destruct net; [|destruct (String.eqb (name e) "AbortError");
                    [|destruct (PatientApi.status_at_least e 500);
                      [|destruct (PatientApi.status_is e 429)]]];
      eexists; eexists; (split; [reflexivity | cbn; repeat split; auto]).
Qed.

Lemma retryLoop_eq (rq : Request) (remaining : nat) (attempt : Z) :
  PatientApi.retryLoop rq remaining attempt
  = try_catch (PatientApi.fetchWithTimeout rq)
      (fun error =>
         if PatientApi.detectCorsIssue error None then throw error
         else
           again <- PatientApi.shouldRetryRequest error attempt ;;
           if negb again then throw error
           else
             (if attempt <? maxAttempts PatientApi.RETRY_CONFIG
              then PatientApi.sleep (PatientApi.getRetryDelay attempt)
              else ret tt) ;;;
             match remaining with
             | O => throw error
             | S remaining' => PatientApi.retryLoop rq remaining' (attempt + 1)
             end).
Proof.
  destruct remaining; reflexivity.
Qed.

Lemma getRetryDelay_formula (attempt : Z) :
  PatientApi.getRetryDelay attempt = Z.min (1000 * 2 ^ (attempt - 1)) 10000.
Proof. reflexivity. Qed.

(** A failure the executor classifies as CORS ends the loop on the spot. *)
Lemma retryLoop_cors (rq : Request) (remaining : nat) (attempt : Z)
  (w : World) (m : Machine) (e : JsError) :
  network w (sent m) = Rejects e ->
  PatientApi.detectCorsIssue e None = true ->
  PatientApi.retryLoop rq remaining attempt w m
  = (Thrown e, mkMachine (reads m) (S (sent m)) (trace m ++ [EvAttempt rq])).
Proof.
  intros Hnet Hcors. rewrite retryLoop_eq.
  unfold try_catch, PatientApi.fetchWithTimeout, fetch.
  rewrite Hnet, Hcors. reflexivity.
Qed.

(** A response, whatever its status, ends the loop as well. *)
Lemma retryLoop_response (rq : Request) (remaining : nat) (attempt : Z)
  (w : World) (m : Machine) (r : Response.t) :
  network w (sent m) = Resolves r ->
  PatientApi.retryLoop rq remaining attempt w m
  = (Returned r, mkMachine (reads m) (S (sent m)) (trace m ++ [EvAttempt rq])).
Proof.
  intros Hnet. rewrite retryLoop_eq.
  unfold try_catch, PatientApi.fetchWithTimeout, fetch.
  rewrite Hnet. reflexivity.
Qed.

(** One iteration of the loop: either it ends the run after its request, or
    the request failed, the back-off was slept, and the loop goes on. *)
Lemma retryLoop_step (rq : Request) (remaining : nat) (attempt : Z)
  (w : World) (m : Machine) :
  (exists out m1,
      PatientApi.retryLoop rq remaining attempt w m = (out, m1)
      /\ trace m1 = (trace m ++ [EvAttempt rq])%list)
  \/ (attempt < 3
      /\ exists e m1,
          trace m1 = (trace m ++ [EvAttempt rq; EvSleep (PatientApi.getRetryDelay attempt)])%list
          /\ PatientApi.retryLoop rq remaining attempt w m
             = match remaining with
               | O => (Thrown e, m1)
               | S remaining' => PatientApi.retryLoop rq remaining' (attempt + 1) w m1
               end).
Proof.
  rewrite retryLoop_eq.
  unfold try_catch, PatientApi.fetchWithTimeout, fetch.
  destruct (network w (sent m)) as [r | e].
  { left. eexists; eexists. split; reflexivity. }
  destruct (PatientApi.detectCorsIssue e None).
  { left. eexists; eexists. split; reflexivity. }
  unfold bind.
  destruct (shouldRetryRequest_quiet e attempt w
              (mkMachine (reads m) (S (sent m)) (trace m ++ [EvAttempt rq])))
    as (again & m2 & -> & Htr & Hsent & Hlt).
  destruct again; cbn [negb].
  - right. specialize (Hlt eq_refl). split; [exact Hlt|].
    cbn [maxAttempts PatientApi.RETRY_CONFIG].
    apply Z.ltb_lt in Hlt. rewrite Hlt.
    unfold PatientApi.sleep, emit.
    exists e. eexists. split; [|destruct remaining; reflexivity].
    cbn [trace]. rewrite Htr. cbn [trace]. rewrite <- app_assoc. reflexivity.
  - left. eexists; eexists. split; [reflexivity|]. rewrite Htr. reflexivity.
Qed.

Lemma retryLoop_trace (rq : Request) (remaining : nat) :
  forall (attempt : Z) (w : World) (m : Machine),
    attempt + Z.of_nat remaining = 3 ->
    exists evs,
      appended (PatientApi.retryLoop rq remaining attempt) w m evs
      /\ RetryTrace rq attempt evs.
Proof.
  unfold appended.
  induction remaining as [|remaining IH]; intros attempt w m Hsum.
  - destruct (retryLoop_step rq 0 attempt w m)
      as [(out & m1 & -> & Htr) | (Hlt & _)]; [|lia].
    exists [EvAttempt rq]. split; [exact Htr | constructor; lia].
  - destruct (retryLoop_step rq (S remaining) attempt w m)
      as [(out & m1 & -> & Htr) | (Hlt & e & m1 & Htr & ->)].
    + exists [EvAttempt rq]. split; [exact Htr | constructor; lia].
    + destruct (IH (attempt + 1) w m1) as (rest & Happ & Hrest); [lia|].
      exists (EvAttempt rq :: EvSleep (Z.min (1000 * 2 ^ (attempt - 1)) 10000) :: rest).
      split.
      * rewrite Happ, Htr, getRetryDelay_formula, <- app_assoc. reflexivity.
      * constructor; assumption.
Qed.

Lemma fetchWithRetry_trace (rq : Request) (w : World) (m : Machine) :
  exists evs,
    appended (PatientApi.fetchWithRetry rq) w m evs /\ ExecutorTrace rq evs.
Proof.
  unfold appended, ExecutorTrace, PatientApi.fetchWithRetry,
    PatientApi.checkNetworkConnectivity, NetworkUtils.isOnline, read_onLine.
  unfold bind at 1 2.
  destruct (onLine w (reads m)); cbn [negb].
  - unfold try_catch, bind, fetch, ret. cbn [reads sent trace].
    assert (Hloop : forall m1,
               trace m1 = (trace m ++ [EvProbe probeUrl])%list ->
               exists evs,
                 trace (snd (PatientApi.retryLoop rq
                               (Z.to_nat (maxAttempts PatientApi.RETRY_CONFIG - 1)) 1 w m1))
                 = (trace m ++ evs)%list
                 /\ (evs = [] \/ evs = [EvProbe probeUrl]
                     \/ exists rest, evs = EvProbe probeUrl :: rest /\ RetryTrace rq 1 rest)).
    { intros m1 Hm1.
      destruct (retryLoop_trace rq (Z.to_nat (maxAttempts PatientApi.RETRY_CONFIG - 1))
                  1 w m1) as (rest & Happ & Hrest); [reflexivity|].
      exists (EvProbe probeUrl :: rest). split.
      - unfold appended in Happ. rewrite Happ, Hm1, <- app_assoc. reflexivity.
      - right; right. exists rest. split; [reflexivity | assumption]. }
    destruct (network w (sent m)) as [p | e].
    + destruct (Response.status p <? 500); cbn [negb].
      * apply Hloop. reflexivity.
      * exists [EvProbe probeUrl]. split; [reflexivity | right; left; reflexivity].
    + apply Hloop. reflexivity.
  - exists []. split; [cbn; now rewrite app_nil_r | left; reflexivity].
Qed.

Lemma RetryTrace_shapes (rq : Request) (evs : list Event) :
  RetryTrace rq 1 evs ->
  evs = [EvAttempt rq]
  \/ evs = [EvAttempt rq; EvSleep 1000; EvAttempt rq]
  \/ evs = [EvAttempt rq; EvSleep 1000; EvAttempt rq; EvSleep 2000; EvAttempt rq].
Proof.
  intros H1. inversion H1 as [a Ha | a rest1 Ha H2]; subst; [now left|].
  right. cbn in H2.
  inversion H2 as [a Ha2 | a rest2 Ha2 H3]; subst; [now left|].
  right. cbn in H3.
  inversion H3 as [a Ha3 | a rest3 Ha3 H4]; subst; [reflexivity | lia].
Qed.

(** C2.  One call of [fetchWithRetry] issues at most 3 requests through the
    retry loop (the HEAD probe of the connectivity check is not one of
    them).  Delays are numbered as the code numbers them, by the attempt that
    has just failed: delay [n] is slept once attempt [n] has failed, before
    attempt [n + 1], and it is [getRetryDelay n = min(1000 * 2^(n-1), 10000)]
    milliseconds.  So the back-off starts at 1000 ms and doubles: the delays
    of a run are 1000 and then 2000, one for each attempt that is followed by
    another; none exceeds the cap of 10000, and no delay precedes
    attempt 1. *)
Theorem attempts_bounded_and_backoff_after_failed_attempt
  (rq : Request) (w : World) (m : Machine) :
  exists evs,
    appended (PatientApi.fetchWithRetry rq) w m evs
    /\ (attempts evs <= 3)%nat
    /\ delayBeforeAttempt 1 evs = None
    /\ (forall n : nat,
          (1 <= n)%nat -> (n < attempts evs)%nat ->
          delayAfterAttempt n evs = Some (Z.min (1000 * 2 ^ (Z.of_nat n - 1)) 10000)
          /\ PatientApi.getRetryDelay (Z.of_nat n)
             = Z.min (1000 * 2 ^ (Z.of_nat n - 1)) 10000)
    /\ sleeps evs = firstn (attempts evs - 1) [1000; 2000]
    /\ (forall ms, In ms (sleeps evs) -> ms <= 10000).
Proof.
  destruct (fetchWithRetry_trace rq w m) as (evs & Happ & Hshape).
  exists evs. split; [exact Happ|].
  destruct Hshape as [-> | [-> | (rest & -> & Hrest)]].
  1, 2: cbn; repeat split; try lia; intros; try lia; contradiction.
  apply RetryTrace_shapes in Hrest.
  destruct Hrest as [-> | [-> | ->]]; cbn -[Z.min Z.pow Z.mul];
    (split; [lia|]); (split; [reflexivity|]); (split; [|split; [reflexivity|]]).
  all: try (intros ms Hin; cbn in Hin; intuition lia).
  - intros n H1 Hn. assert (n = 1%nat) as -> by lia. split; reflexivity.
  - intros n H1 Hn. assert (n = 1%nat \/ n = 2%nat) as [-> | ->] by lia;
      split; reflexivity.
Qed.

Lemma attempts_bounded_and_backoff_after_failed_attempt_witness :
  delayAfterAttempt 1
    (trace (snd (run (PatientApi.fetchWithRetry listRequest) everythingTimesOut)))
  = Some 1000
  /\ delayAfterAttempt 2
       (trace (snd (run (PatientApi.fetchWithRetry listRequest) everythingTimesOut)))
     = Some 2000.
Proof.
  destruct (attempts_bounded_and_backoff_after_failed_attempt
              listRequest everythingTimesOut boot)
    as (evs & Happ & _ & _ & Hdelay & _).
  unfold appended in Happ. unfold run. rewrite Happ.
  assert (Hevs : evs = [ EvProbe probeUrl;
                         EvAttempt listRequest; EvSleep 1000;
                         EvAttempt listRequest; EvSleep 2000;
                         EvAttempt listRequest ]).
  { change evs with (trace boot ++ evs)%list. rewrite <- Happ. reflexivity. }
  subst evs. cbn [trace boot app].
  split.
  - apply (Hdelay 1%nat); cbn; lia.
  - apply (Hdelay 2%nat); cbn; lia.
Defined.

(** C3: the code does not do what the claim says.  With a server that answers
    500 to every request, [getAllPatients] issues one request, sleeps no
    back-off, and returns the failure envelope built from that single
    response: a response is returned by the first [try] of the retry loop
    whatever its status, so no HTTP status ever reaches the branches of
    [shouldRetryRequest] on [error.status >= 500] and [error.status === 429]. *)
Theorem server_500_single_attempt_no_backoff :
  let out := run PatientApi.getAllPatients always500 in
  trace (snd out) = [EvProbe probeUrl; EvAttempt listRequest]
  /\ attempts (trace (snd out)) = 1%nat
  /\ sleeps (trace (snd out)) = []
  /\ option_map ApiResponse.success (envelope out) = Some false
  /\ option_map ApiResponse.status (envelope out) = Some 500
  /\ option_map ApiResponse.error (envelope out)
     = Some (Some (VStr "Internal Server Error")).
Proof.
  cbv zeta. repeat split; reflexivity.
Qed.

(** When the connectivity check of a call passes, the call is its retry
    loop, started after the probe. *)
Lemma fetchWithRetry_connected (rq : Request) (w : World) (m : Machine) :
  connectivityPasses w m ->
  PatientApi.fetchWithRetry rq w m
  = PatientApi.retryLoop rq 2 1 w
      (mkMachine (S (reads m)) (S (sent m)) (trace m ++ [EvProbe probeUrl])).
Proof.
  intros [Hon Hprobe].
  unfold PatientApi.fetchWithRetry, PatientApi.checkNetworkConnectivity,
    NetworkUtils.isOnline, read_onLine.
  unfold bind at 1 2. rewrite Hon. cbn [negb].
  unfold try_catch, bind, fetch, ret. cbn [reads sent trace].
  destruct (network w (sent m)) as [p | e0].
  - apply Z.ltb_lt in Hprobe. rewrite Hprobe. reflexivity.
  - reflexivity.
Qed.

Lemma fetchWithRetry_cors (rq : Request) (w : World) (m : Machine) (e : JsError) :
  connectivityPasses w m ->
  network w (S (sent m)) = Rejects e ->
  PatientApi.detectCorsIssue e None = true ->
  PatientApi.fetchWithRetry rq w m
  = (Thrown e,
     mkMachine (S (reads m)) (S (S (sent m)))
       (trace m ++ [EvProbe probeUrl; EvAttempt rq])).
Proof.
  intros Hpass Hnet Hcors.
  rewrite (fetchWithRetry_connected rq w m Hpass).
  rewrite (retryLoop_cors rq 2 1 w
             (mkMachine (S (reads m)) (S (sent m)) (trace m ++ [EvProbe probeUrl]))
             e Hnet Hcors).
  cbn [reads sent trace]. rewrite <- app_assoc. reflexivity.
Qed.

(** C4.  A failure that the executor classifies as CORS is never retried.
    From whatever iteration of the retry loop it occurs in, and however many
    iterations remain, the loop throws that error at once: the trace grows by
    the failed request alone (no back-off, no further request).  In
    particular, when the connectivity check passes and the first request
    fails with such an error, [fetchWithRetry] makes exactly one attempt. *)
Theorem cors_failure_is_not_retried :
  (forall (rq : Request) (remaining : nat) (attempt : Z)
          (w : World) (m : Machine) (e : JsError),
      network w (sent m) = Rejects e ->
      PatientApi.detectCorsIssue e None = true ->
      let out := PatientApi.retryLoop rq remaining attempt w m in
      fst out = Thrown e
      /\ trace (snd out) = (trace m ++ [EvAttempt rq])%list
      /\ sent (snd out) = S (sent m))
  /\ (forall (rq : Request) (w : World) (m : Machine) (e : JsError),
        connectivityPasses w m ->
        network w (S (sent m)) = Rejects e ->
        PatientApi.detectCorsIssue e None = true ->
        let out := PatientApi.fetchWithRetry rq w m in
        fst out = Thrown e
        /\ trace (snd out) = (trace m ++ [EvProbe probeUrl; EvAttempt rq])%list
        /\ attempts [EvProbe probeUrl; EvAttempt rq] = 1%nat
        /\ sleeps [EvProbe probeUrl; EvAttempt rq] = []).
Proof.
  split.
  - intros rq remaining attempt w m e Hnet Hcors. cbv zeta.
    rewrite (retryLoop_cors rq remaining attempt w m e Hnet Hcors).
    repeat split; reflexivity.
  - intros rq w m e Hpass Hnet Hcors. cbv zeta.
    rewrite (fetchWithRetry_cors rq w m e Hpass Hnet Hcors).
    repeat split; reflexivity.
Qed.

(** C4 at a concrete input: every request is blocked as a cross-origin
    request is, and the list operation stops after the first. *)
Lemma cors_failure_is_not_retried_witness :
  connectivityPasses corsBlocked boot
  /\ PatientApi.detectCorsIssue failedToFetch None = true
  /\ fst (PatientApi.fetchWithRetry listRequest corsBlocked boot) = Thrown failedToFetch
  /\ trace (snd (PatientApi.fetchWithRetry listRequest corsBlocked boot))
     = [EvProbe probeUrl; EvAttempt listRequest].
Proof.
  assert (Hp : connectivityPasses corsBlocked boot) by (split; [reflexivity | cbn; lia]).
  assert (Hc : PatientApi.detectCorsIssue failedToFetch None = true) by reflexivity.
  split; [exact Hp|]. split; [exact Hc|].
  destruct (proj2 cors_failure_is_not_retried listRequest corsBlocked boot
              failedToFetch Hp eq_refl Hc) as (Hout & Htr & _).
  split; [exact Hout | exact Htr].
Defined.

(** ** Connectivity gate and error classifier *)

(** C5.  When the device reports offline (at every reading of
    [navigator.onLine] during the call), [getAllPatients] issues no request
    at all, neither the probe nor an attempt; the failure is classified
    NETWORK, and the envelope returned has [success = false], status 0 and
    the offline message as its error. *)
Theorem offline_list_patients_makes_no_request (w : World) :
  (forall k, onLine w k = false) ->
  let out := run PatientApi.getAllPatients w in
  roundTrips (trace (snd out)) = 0%nat
  /\ sent (snd out) = 0%nat
  /\ trace (snd out) = [EvClassified NETWORK]
  /\ envelope out
     = Some (ApiResponse.mk false None
               (Some (VStr ERROR_MESSAGES.NETWORK_OFFLINE)) 0
               ("err_" ++ string_of_Z (nowMs w) ++ "_" ++ randomTag w)
               (isoTime w)
               (Some (ApiResponse.mkDetails VUndefined VUndefined None))).
Proof.
  intros Hoff.
  assert (E : run PatientApi.getAllPatients w
              = (Returned
                   (ApiResponse.mk false None
                      (Some (VStr ERROR_MESSAGES.NETWORK_OFFLINE)) 0
                      ("err_" ++ string_of_Z (nowMs w) ++ "_" ++ randomTag w)
                      (isoTime w)
                      (Some (ApiResponse.mkDetails VUndefined VUndefined None))),
                 mkMachine 3 0 [EvClassified NETWORK])).
  { unfold run, PatientApi.getAllPatients, PatientApi.fetchWithRetry,
      PatientApi.checkNetworkConnectivity, PatientApi.failureEnvelope,
      ErrorHandler.handleApiError, ErrorHandler.classified,
      NetworkUtils.getNetworkStatus, NetworkUtils.isOnline, read_onLine,
      try_catch, bind, ret, throw, emit, Date_now, Math_random_tag, toISOString, boot.
    repeat (progress (cbn -[String.append string_of_Z]; rewrite ?Hoff)).
    reflexivity. }
  cbv zeta. rewrite E. repeat split; reflexivity.
Qed.

Lemma offline_list_patients_makes_no_request_witness :
  (forall k, onLine offlineWorld k = false)
  /\ trace (snd (run PatientApi.getAllPatients offlineWorld)) = [EvClassified NETWORK]
  /\ option_map ApiResponse.success
       (envelope (run PatientApi.getAllPatients offlineWorld)) = Some false.
Proof.
  assert (Hoff : forall k, onLine offlineWorld k = false) by reflexivity.
  destruct (offline_list_patients_makes_no_request offlineWorld Hoff)
    as (_ & _ & Htr & Henv).
  split; [exact Hoff|]. split; [exact Htr|].
  rewrite Henv. reflexivity.
Defined.

(** C6: the code does not do what the claim says.  With the device online
    and no CORS signature, an error named [AbortError] is classified NETWORK
    (message NETWORK_ERROR), not TIMEOUT: [NetworkUtils.isNetworkError]
    answers true for that name, so the rule tested before the abort/timeout
    rule absorbs it, and the test [error.name === 'AbortError'] of the
    abort/timeout rule can never succeed. *)
Theorem abort_is_classified_network
  (e : JsError) (ctx : ErrorContext) (w : World) (m : Machine) :
  onLine w (reads m) = true ->
  name e = "AbortError" ->
  NetworkUtils.isCorsError e = false ->
  exists u m',
    ErrorHandler.handleApiError e ctx w m = (Returned u, m')
    /\ type u = NETWORK
    /\ type u <> TIMEOUT
    /\ ufMessage u = ERROR_MESSAGES.NETWORK_ERROR
    /\ retryable u = true.
Proof.
  intros Hon Hname Hcors.
  unfold ErrorHandler.handleApiError, NetworkUtils.getNetworkStatus, read_onLine.
  unfold bind at 1. rewrite Hon, Hcors. cbn [negb].
  unfold bind at 1.
  destruct (isNetworkError_quiet e w (mkMachine (S (reads m)) (sent m) (trace m)))
    as (net & Enet).
  assert (net = true) as ->.
  { revert Enet.
    unfold NetworkUtils.isNetworkError, NetworkUtils.isOnline, read_onLine, bind, ret.
    cbn [reads]. rewrite Hname.
    destruct (onLine w (S (reads m))); cbn [negb];
      [destruct (isTypeError e && negb (is_empty (message e))
                 && includes (message e) "Failed to fetch"); cbn|];
      intros [= <-]; reflexivity. }
  rewrite Enet.
  eexists; eexists. split; [reflexivity|]. cbn.
  repeat split; discriminate.
Qed.

Lemma abort_is_classified_network_witness :
  onLine calmWorld (reads boot) = true
  /\ name abortError = "AbortError"
  /\ NetworkUtils.isCorsError abortError = false
  /\ exists u m',
       ErrorHandler.handleApiError abortError
         (mkContext "getAllPatients" VUndefined true (Some probeUrl) (Some "GET"))
         calmWorld boot = (Returned u, m')
       /\ type u = NETWORK.
Proof.
  split; [reflexivity|]. split; [reflexivity|]. split; [reflexivity|].
  destruct (abort_is_classified_network abortError
              (mkContext "getAllPatients" VUndefined true (Some probeUrl) (Some "GET"))
              calmWorld boot eq_refl eq_refl eq_refl)
    as (u & m' & E & T & _).
  exists u, m'. split; [exact E | exact T].
Defined.

(** The other half of the abort/timeout rule does fire: an error that is not
    named [AbortError], carries no CORS or fetch-failure signature, and whose
    message contains [timeout] is classified TIMEOUT and retryable, provided
    the device is online at both readings. *)
Lemma timeout_message_is_classified_timeout
  (e : JsError) (ctx : ErrorContext) (w : World) (m : Machine) :
  onLine w (reads m) = true ->
  onLine w (S (reads m)) = true ->
  NetworkUtils.isCorsError e = false ->
  String.eqb (name e) "AbortError" = false ->
  includes (message e) "timeout" = true ->
  exists u m',
    ErrorHandler.handleApiError e ctx w m = (Returned u, m')
    /\ type u = TIMEOUT /\ retryable u = true.
Proof.
  intros Hon1 Hon2 Hcors Hname Hmsg.
  assert (Hff : isTypeError e && negb (is_empty (message e))
                && includes (message e) "Failed to fetch" = false).
  { revert Hcors. unfold NetworkUtils.isCorsError.
    destruct (isTypeError e && negb (is_empty (message e))
              && includes (message e) "Failed to fetch"); [discriminate | reflexivity]. }
  unfold ErrorHandler.handleApiError, NetworkUtils.getNetworkStatus,
    NetworkUtils.isNetworkError, NetworkUtils.isOnline, read_onLine.
  unfold bind, ret. cbn [reads]. rewrite Hon1, Hcors. cbn [negb reads].
  rewrite Hon2. cbn [negb]. rewrite Hff, Hname, Hmsg. cbn.
  eexists; eexists. repeat split.
Qed.

(** ** Response normaliser: field remapping and validation errors *)

Lemma truthy_js_or (a b : value) : truthy (a ||| b) = truthy a || truthy b.
Proof.
  unfold js_or. destruct (truthy a) eqn:Ha; [rewrite Ha|]; reflexivity.
Qed.

(** [x || default] is truthy or is the default. *)
Lemma js_or_default (a d : value) : truthy (a ||| d) = true \/ a ||| d = d.
Proof.
  unfold js_or. destruct (truthy a) eqn:Ha; [left; exact Ha | right; reflexivity].
Qed.

Lemma remap_defaults (o : value) (k : string) :
  In k canonicalFields ->
  truthy (field (PatientApi.remap o) k) = true
  \/ field (PatientApi.remap o) k = VStr ""
  \/ field (PatientApi.remap o) k = VNum 0.
Proof.
  intros Hin. cbn in Hin.
  destruct Hin as [<- | [<- | [<- | [<- | [<- | []]]]]]; cbn [PatientApi.remap field get lookup String.eqb Ascii.eqb Bool.eqb];
    match goal with
    | |- truthy (?a ||| ?d) = true \/ _ =>
        destruct (js_or_default a d) as [H | H]; [left; exact H | right; rewrite H; auto]
    end.
Qed.

Lemma no_alternate_key_gate_closed (props : list (string * value)) :
  hasAlternateKey (VObj props) = false -> gateKeysTruthy (VObj props) = false.
Proof.
  unfold hasAlternateKey, gateKeysTruthy, alternateKeys, hasKey, field, get.
  cbn [existsb]. intros H. rewrite !orb_false_iff in H.
  destruct H as (_ & Hnome & _ & _ & Hidade & _ & Hgenero & _ & Hplano & _).
  destruct (lookup "nome" props); [discriminate|].
  destruct (lookup "idade" props); [discriminate|].
  destruct (lookup "genero" props); [discriminate|].
  destruct (lookup "plano" props); [discriminate|].
  reflexivity.
Qed.

Lemma handleResponse_json_ok (r : Response.t) (text : string) (raw : value)
  (w : World) (m : Machine) :
  isOk (Response.status r) = true ->
  Response.body r = BodyJson text raw ->
  PatientApi.handleResponse r w m
  = (Returned (ApiResponse.mk true (Some (PatientApi.normalize raw)) None
                 (Response.status r)
                 ("resp_" ++ string_of_Z (nowMs w) ++ "_" ++ randomTag w)
                 (isoTime w) None),
     m).
Proof.
  unfold isOk. intros Hs Hb.
  unfold PatientApi.handleResponse, PatientApi.rawDataOf, Response_text,
    try_catch, bind, ret, Date_now, Math_random_tag, toISOString.
  rewrite Hs, Hb. reflexivity.
Qed.

(** C7, as stated, fails for array elements.  Neither element of this list
    answer has an alternate-language key, and both are rewritten: the first
    loses a property, the second is filled up with defaults.  The same
    partial record sent as a single object passes through as it is. *)
Lemma canonical_array_elements_are_rewritten :
  hasAlternateKey anaWithExtra = false
  /\ hasAlternateKey biaPartial = false
  /\ option_map ApiResponse.data
       (envelope (run (PatientApi.handleResponse canonicalList200) calmWorld))
     = Some (Some (VArr
          [ VObj [ ("id", VNum 7); ("name", VStr "Ana"); ("cpf", VStr "12345678901");
                   ("age", VNum 30); ("gender", VStr "F"); ("plan", VStr "Basic") ];
            VObj [ ("id", VNum 8); ("name", VStr "Bia"); ("cpf", VStr "");
                   ("age", VNum 0); ("gender", VStr ""); ("plan", VStr "") ] ]))
  /\ PatientApi.remapElement anaWithExtra <> anaWithExtra
  /\ PatientApi.remapElement biaPartial <> biaPartial
  /\ option_map ApiResponse.data
       (envelope (run (PatientApi.handleResponse biaSingle200) calmWorld))
     = Some (Some biaPartial).
Proof.
  repeat split; try reflexivity; discriminate.
Qed.

(** The gate of the single-object branch looks at [nome], [idade], [genero]
    and [plano] only.  An object that carries its data under [nomeCompleto],
    [cpfNumero], [idadePaciente], [sexo] and [planoSaude], the names of the
    first request body of [createPatient], has alternate-language keys and is
    nevertheless returned as it came, with no canonical field. *)
Example long_names_alone_do_not_open_the_gate :
  hasAlternateKey echoedLongNames = true
  /\ gateKeysTruthy echoedLongNames = false
  /\ option_map ApiResponse.data
       (envelope (run (PatientApi.handleResponse echoed201) calmWorld))
     = Some (Some echoedLongNames)
  /\ field echoedLongNames "name" = VUndefined.
Proof.
  repeat split; reflexivity.
Qed.

(** C7, amended.  For a 200/201 response whose body parses to [raw], the
    envelope carries [normalize raw], where
    - every element of an array that is an object (or an array) is remapped,
      whether or not it has an alternate-language key; other elements are
      kept;
    - a single object one of whose [nome], [idade], [genero], [plano] is
      truthy is remapped;
    - a single object with none of the alternate-language keys is passed
      through unmodified;
    - a remapped object never has [undefined] for [name], [cpf], [age],
      [gender] or [plan]: each is truthy, or the default [''] or [0]. *)
Theorem remapping_applies_to_all_array_elements_and_gated_single_objects
  (r : Response.t) (text : string) (raw : value) (w : World) (m : Machine) :
  Response.status r = 200 \/ Response.status r = 201 ->
  Response.body r = BodyJson text raw ->
  exists env m' d,
    PatientApi.handleResponse r w m = (Returned env, m')
    /\ ApiResponse.success env = true
    /\ ApiResponse.data env = Some d
    /\ (forall items, raw = VArr items ->
        d = VArr (map (fun o => match o with
                                | VObj _ | VArr _ => PatientApi.remap o
                                | _ => o
                                end) items))
    /\ (forall props, raw = VObj props ->
        gateKeysTruthy raw = true -> d = PatientApi.remap raw)
    /\ (forall props, raw = VObj props ->
        hasAlternateKey raw = false -> d = raw)
    /\ (forall o k, In k canonicalFields ->
        truthy (field (PatientApi.remap o) k) = true
        \/ field (PatientApi.remap o) k = VStr ""
        \/ field (PatientApi.remap o) k = VNum 0).
Proof.
  intros Hs Hb. apply eqb_200_201 in Hs.
  exists (ApiResponse.mk true (Some (PatientApi.normalize raw)) None
            (Response.status r)
            ("resp_" ++ string_of_Z (nowMs w) ++ "_" ++ randomTag w)
            (isoTime w) None), m, (PatientApi.normalize raw).
  split; [apply (handleResponse_json_ok r text raw w m Hs Hb)|].
  split; [reflexivity|]. split; [reflexivity|].
  split; [|split; [|split]].
  - intros items ->. cbn. f_equal. apply map_ext.
    intros [ | | b | n | s | l | l]; try reflexivity.
    + destruct b; reflexivity.
    + unfold PatientApi.remapElement. cbn.
      destruct (negb (n =? 0)); reflexivity.
    + unfold PatientApi.remapElement. cbn.
      destruct (negb (is_empty s)); reflexivity.
  - intros props -> Hgate. unfold gateKeysTruthy in Hgate.
    unfold PatientApi.normalize. cbn [truthy typeof_object andb].
    rewrite !truthy_js_or, Hgate. reflexivity.
  - intros props -> Hno. apply no_alternate_key_gate_closed in Hno.
    unfold gateKeysTruthy in Hno.
    unfold PatientApi.normalize. cbn [truthy typeof_object andb].
    rewrite !truthy_js_or, Hno. reflexivity.
  - intros o k. apply remap_defaults.
Qed.

Lemma remapping_gate_witness :
  Response.status canonicalList200 = 200
  /\ exists env m',
       PatientApi.handleResponse canonicalList200 calmWorld boot = (Returned env, m')
       /\ ApiResponse.data env
          = Some (VArr [PatientApi.remap anaWithExtra; PatientApi.remap biaPartial]).
Proof.
  split; [reflexivity|].
  destruct (remapping_applies_to_all_array_elements_and_gated_single_objects
              canonicalList200 "[...]" (VArr [anaWithExtra; biaPartial]) calmWorld boot
              (or_introl eq_refl) eq_refl)
    as (env & m' & d & E & _ & D & Harr & _).
  exists env, m'. split; [exact E|].
  rewrite D, (Harr _ eq_refl). reflexivity.
Defined.

Lemma includes_nonempty (s needle : string) :
  includes s needle = true -> is_empty needle = false -> is_empty s = false.
Proof.
  destruct s; [|reflexivity].
  destruct needle; [discriminate|]. cbn. discriminate.
Qed.

(** C8, as stated, fails when the 422 answer does not declare a JSON content
    type: [parseApiError] then takes the body as plain text, the whole text
    becomes the error message, and no validation errors are extracted. *)
Lemma errors_body_without_json_content_type :
  Response.status errors422Plain = 422
  /\ Response.body errors422Plain = BodyJson errorsText errorsBody
  /\ envelope (run (PatientApi.handleResponse errors422Plain) calmWorld)
     = Some (ApiResponse.mk false None (Some (VStr errorsText)) 422
               "resp_1700000000000_k3x9qa" "2024-01-01T00:00:00.000Z"
               (Some (ApiResponse.mkDetails VUndefined (VStr errorsText)
                        (Some "Unprocessable Entity")))).
Proof.
  repeat split; reflexivity.
Qed.

(** C8, amended.  Given an HTTP 422 response whose [Content-Type] header
    contains [application/json] and whose body parses to
    [{"errors": [{"field":"cpf","message":"invalid"}]}], the envelope has
    [success = false], status 422, and [details.validationErrors] equal to
    [{"cpf": ["invalid"]}]. *)
Theorem errors_array_folded_into_validation_errors
  (r : Response.t) (text contentType : string) (w : World) (m : Machine) :
  Response.status r = 422 ->
  Response.headers_get r "content-type" = Some contentType ->
  includes contentType "application/json" = true ->
  Response.body r = BodyJson text errorsBody ->
  exists env m',
    PatientApi.handleResponse r w m = (Returned env, m')
    /\ ApiResponse.success env = false
    /\ ApiResponse.status env = 422
    /\ option_map ApiResponse.validationErrors (ApiResponse.details env)
       = Some (VObj [("cpf", VArr [VStr "invalid"])]).
Proof.
  intros Hs Hct Hjson Hb.
  pose proof (includes_nonempty _ _ Hjson eq_refl) as Hne.
  unfold PatientApi.handleResponse, PatientApi.parseApiError, Response_json,
    Date_now, Math_random_tag, toISOString, try_catch, bind, ret.
  rewrite Hs, Hct, Hne, Hjson, Hb.
  eexists; eexists. split; [reflexivity|].
  repeat split.
Qed.

Lemma errors_array_folded_witness :
  Response.status errors422Json = 422
  /\ Response.headers_get errors422Json "content-type" = Some "application/json"
  /\ exists env m',
       PatientApi.handleResponse errors422Json calmWorld boot = (Returned env, m')
       /\ ApiResponse.success env = false
       /\ option_map ApiResponse.validationErrors (ApiResponse.details env)
          = Some (VObj [("cpf", VArr [VStr "invalid"])]).
Proof.
  split; [reflexivity|]. split; [reflexivity|].
  destruct (errors_array_folded_into_validation_errors errors422Json errorsText
              "application/json" calmWorld boot eq_refl eq_refl eq_refl eq_refl)
    as (env & m' & E & S & _ & V).
  exists env, m'. repeat split; assumption.
Defined.

(** ** Which operations go through the executor *)

Lemma quiet_ret {A} (a : A) : quiet (ret a).
Proof. intros w m. reflexivity. Qed.

Lemma quiet_throw {A} (e : JsError) : quiet (@throw A e).
Proof. intros w m. reflexivity. Qed.

Lemma quiet_bind {A B} (c : M A) (k : A -> M B) :
  quiet c -> (forall a, quiet (k a)) -> quiet (bind c k).
Proof.
  intros Hc Hk w m. unfold bind. specialize (Hc w m).
  destruct (c w m) as [[a | e] m1]; cbn in Hc; subst m1; [apply Hk | reflexivity].
Qed.

Lemma quiet_try_catch {A} (c : M A) (h : JsError -> M A) :
  quiet c -> (forall e, quiet (h e)) -> quiet (try_catch c h).
Proof.
  intros Hc Hh w m. unfold try_catch. specialize (Hc w m).
  destruct (c w m) as [[a | e] m1]; cbn in Hc; subst m1; [reflexivity | apply Hh].
Qed.

Lemma quiet_Date_now : quiet Date_now.
Proof. intros w m. reflexivity. Qed.

Lemma quiet_Math_random_tag : quiet Math_random_tag.
Proof. intros w m. reflexivity. Qed.

Lemma quiet_toISOString : quiet toISOString.
Proof. intros w m. reflexivity. Qed.

Lemma quiet_Response_text (r : Response.t) : quiet (Response_text r).
Proof. intros w m. unfold Response_text. destruct (Response.body r); reflexivity. Qed.

Lemma quiet_Response_json (r : Response.t) : quiet (Response_json r).
Proof. intros w m. unfold Response_json. destruct (Response.body r); reflexivity. Qed.

Lemma quiet_Response_text_again (r : Response.t) : quiet (Response_text_again r).
Proof. intros w m. reflexivity. Qed.

Lemma quiet_prop (v : value) (k : string) : quiet (prop v k).
Proof. intros w m. unfold prop. destruct (get v k); reflexivity. Qed.

Lemma quiet_ToPropertyKey (v : value) : quiet (ToPropertyKey v).
Proof. intros w m. unfold ToPropertyKey. destruct (ToString v); reflexivity. Qed.

Create HintDb quiet.
#[local] Hint Resolve quiet_ret quiet_throw quiet_Date_now quiet_Math_random_tag
  quiet_toISOString quiet_Response_text quiet_Response_json
  quiet_Response_text_again quiet_prop quiet_ToPropertyKey : quiet.

Ltac quiet_step :=
  match goal with
  | |- quiet (bind _ _) => apply quiet_bind; [|intros]
  | |- quiet (try_catch _ _) => apply quiet_try_catch; [|intros]
  | |- quiet (if ?b then _ else _) => destruct b
  | |- quiet (match ?x with _ => _ end) => destruct x
  | |- quiet _ => solve [auto with quiet]
  end.

Lemma quiet_foldValidationError (acc : list (string * value)) (err : value) :
  quiet (PatientApi.foldValidationError acc err).
Proof.
  unfold PatientApi.foldValidationError. repeat quiet_step.
Qed.

Lemma quiet_forEachValidationError (errs : list value) :
  forall acc, quiet (PatientApi.forEachValidationError errs acc).
Proof.
  induction errs as [|err rest IH]; intros acc; cbn [PatientApi.forEachValidationError].
  - apply quiet_ret.
  - apply quiet_bind; [apply quiet_foldValidationError | intros; apply IH].
Qed.

#[local] Hint Resolve quiet_forEachValidationError : quiet.

Lemma quiet_parseApiError (r : Response.t) : quiet (PatientApi.parseApiError r).
Proof.
  unfold PatientApi.parseApiError. repeat quiet_step.
Qed.

#[local] Hint Resolve quiet_parseApiError : quiet.

Lemma quiet_patient_handleResponse (r : Response.t) : quiet (PatientApi.handleResponse r).
Proof.
  unfold PatientApi.handleResponse. repeat quiet_step.
Qed.

Lemma quiet_consulta_handleResponse (r : Response.t) : quiet (ConsultaApi.handleResponse r).
Proof.
  unfold ConsultaApi.handleResponse. repeat quiet_step.
Qed.

Lemma quiet_exame_handleResponse (r : Response.t) : quiet (ExameApi.handleResponse r).
Proof.
  unfold ExameApi.handleResponse. repeat quiet_step.
Qed.

(** Each normaliser returns an envelope and leaves the machine alone. *)
Lemma handleResponseOf_returns (api : Api) (r : Response.t) (w : World) (m : Machine) :
  exists env, handleResponseOf api r w m = (Returned env, m) /\ NormalisedAs r env.
Proof.
  destruct (handleResponseOf_normalised api r w m) as (env & m' & E & N).
  exists env. split; [|exact N].
  assert (Hq : snd (handleResponseOf api r w m) = m).
  { destruct api; cbn [handleResponseOf];
      [apply quiet_patient_handleResponse | apply quiet_consulta_handleResponse
      | apply quiet_exame_handleResponse]. }
  rewrite E in Hq. cbn in Hq. subst m'. exact E.
Qed.

Lemma classified_eq (u : UserFriendlyError) (w : World) (m : Machine) :
  ErrorHandler.classified u w m
  = (Returned u, mkMachine (reads m) (sent m) (trace m ++ [EvClassified (type u)])).
Proof. reflexivity. Qed.

(** The classifier always answers, sends nothing, and records one category. *)
Lemma handleApiError_classifies (e : JsError) (ctx : ErrorContext)
  (w : World) (m : Machine) :
  exists u m',
    ErrorHandler.handleApiError e ctx w m = (Returned u, m')
    /\ trace m' = (trace m ++ [EvClassified (type u)])%list
    /\ sent m' = sent m.
Proof.
  unfold ErrorHandler.handleApiError, NetworkUtils.getNetworkStatus, read_onLine.
  unfold bind at 1.
  destruct (onLine w (reads m)); cbn [negb];
    [|rewrite classified_eq; eexists; eexists; repeat split].
  destruct (NetworkUtils.isCorsError e);
    [rewrite classified_eq; eexists; eexists; repeat split|].
  unfold bind.
  destruct (isNetworkError_quiet e w (mkMachine (S (reads m)) (sent m) (trace m)))
    as (net & ->).
  destruct net; [rewrite classified_eq; eexists; eexists; repeat split|].
  destruct (String.eqb (name e) "AbortError" || includes (message e) "timeout");
    [rewrite classified_eq; eexists; eexists; repeat split|].
  destruct (errStatus e) as [st|]; [destruct (st =? 0)|];
    rewrite classified_eq; eexists; eexists; repeat split.
Qed.

Lemma failureEnvelope_returns (e : JsError) (ctx : ErrorContext) (b : bool)
  (w : World) (m : Machine) :
  exists env m' c,
    PatientApi.failureEnvelope e ctx b w m = (Returned env, m')
    /\ ApiResponse.success env = false
    /\ trace m' = (trace m ++ [EvClassified c])%list
    /\ sent m' = sent m.
Proof.
  unfold PatientApi.failureEnvelope. unfold bind at 1.
  destruct (handleApiError_classifies e ctx w m) as (u & m1 & -> & Htr & Hsent).
  unfold bind, Date_now, Math_random_tag, toISOString, ret.
  eexists; eexists; exists (type u). repeat split; assumption.
Qed.

(** A consultation or exam operation: one [fetch], whatever the device says
    about connectivity, and the envelope of its own normaliser or, when the
    [fetch] rejects, a failure envelope with status 0. *)
Lemma consulta_operation_once (rq : Request) (fallback : string)
  (w : World) (m : Machine) :
  exists env,
    ConsultaApi.operation rq fallback w m
    = (Returned env, mkMachine (reads m) (S (sent m)) (trace m ++ [EvAttempt rq]))
    /\ match network w (sent m) with
       | Resolves r => NormalisedAs r env
       | Rejects _ => ApiResponse.success env = false /\ ApiResponse.status env = 0
       end.
Proof.
  unfold ConsultaApi.operation, ConsultaApi.fetchWithTimeout, try_catch, bind, fetch.
  destruct (network w (sent m)) as [r | e].
  - destruct (handleResponseOf_returns Consultas r w
                (mkMachine (reads m) (S (sent m)) (trace m ++ [EvAttempt rq])))
      as (env & E & N).
    cbn [handleResponseOf] in E. rewrite E. exists env. split; [reflexivity | exact N].
  - eexists. split; [reflexivity | split; reflexivity].
Qed.

Lemma exame_operation_once (rq : Request) (fallback : string)
  (w : World) (m : Machine) :
  exists env,
    ExameApi.operation rq fallback w m
    = (Returned env, mkMachine (reads m) (S (sent m)) (trace m ++ [EvAttempt rq]))
    /\ match network w (sent m) with
       | Resolves r => NormalisedAs r env
       | Rejects _ => ApiResponse.success env = false /\ ApiResponse.status env = 0
       end.
Proof.
  unfold ExameApi.operation, ExameApi.fetchWithTimeout, try_catch, bind, fetch.
  destruct (network w (sent m)) as [r | e].
  - destruct (handleResponseOf_returns Exames r w
                (mkMachine (reads m) (S (sent m)) (trace m ++ [EvAttempt rq])))
      as (env & E & N).
    cbn [handleResponseOf] in E. rewrite E. exists env. split; [reflexivity | exact N].
  - eexists. split; [reflexivity | split; reflexivity].
Qed.

Lemma plain_operation_once (op : Operation) (w : World) (m : Machine) :
  isPatientOperation op = false ->
  exists env,
    perform op w m
    = (Returned env,
       mkMachine (reads m) (S (sent m)) (trace m ++ [EvAttempt (plainRequest op)]))
    /\ match network w (sent m) with
       | Resolves r => NormalisedAs r env
       | Rejects _ => ApiResponse.success env = false /\ ApiResponse.status env = 0
       end.
Proof.
  destruct op; cbn [isPatientOperation]; try discriminate; intros _;
    cbn [perform plainRequest];
    first [ apply consulta_operation_once | apply exame_operation_once ].
Qed.

(** The single-request patient operations: the executor, then the normaliser
    on a response or the classifier on a thrown error. *)
Lemma single_request_pipeline (rq : Request) (ctx : ErrorContext)
  (w : World) (m : Machine) :
  exists env m' evs tail,
    try_catch (response <- PatientApi.fetchWithRetry rq ;;
               PatientApi.handleResponse response)
      (fun error => PatientApi.failureEnvelope error ctx false) w m
    = (Returned env, m')
    /\ trace m' = (trace m ++ evs ++ tail)%list
    /\ ExecutorTrace rq evs
    /\ (tail = [] \/ exists c, tail = [EvClassified c])
    /\ (forall r m1, PatientApi.fetchWithRetry rq w m = (Returned r, m1) ->
        PatientApi.handleResponse r w m1 = (Returned env, m')).
Proof.
  destruct (fetchWithRetry_trace rq w m) as (evs & Happ & Hshape).
  unfold appended in Happ. unfold try_catch, bind.
  destruct (PatientApi.fetchWithRetry rq w m) as [[r | e] m1]; cbn [snd] in Happ.
  - destruct (handleResponseOf_returns Patients r w m1) as (env & E & _).
    cbn [handleResponseOf] in E. rewrite E.
    exists env, m1, evs, []. rewrite app_nil_r.
    repeat split; auto. intros r0 m0 [= <- <-]. exact E.
  - destruct (failureEnvelope_returns e ctx false w m1)
      as (env & m2 & c & -> & _ & Htr & _).
    exists env, m2, evs, [EvClassified c].
    rewrite Htr, Happ, <- app_assoc.
    repeat split; eauto. intros r0 m0 [=].
Qed.

Lemma RunsOne (u meth : string) (sc : bool) (variation : value) (rest : list value)
  (evs : list Event) :
  ExecutorTrace (mkRequest u meth (Some variation)) evs ->
  VariationRuns u meth sc (variation :: rest) evs.
Proof.
  intros H. rewrite <- (app_nil_r evs). apply RunsNext; [exact H | constructor].
Qed.

Lemma tryVariations_runs (u meth : string) (sc : bool) (variations : list value) :
  forall (response : option Response.t) (lastError : option JsError)
         (w : World) (m : Machine),
  exists evs,
    appended (PatientApi.tryVariations u meth sc variations response lastError) w m evs
    /\ VariationRuns u meth sc variations evs.
Proof.
  unfold appended.
  induction variations as [|variation rest IH]; intros response lastError w m.
  - exists []. split; [cbn; now rewrite app_nil_r | constructor].
  - cbn [PatientApi.tryVariations].
    destruct (fetchWithRetry_trace (mkRequest u meth (Some variation)) w m)
      as (evs1 & Happ & Hshape).
    unfold appended in Happ.
    destruct (PatientApi.fetchWithRetry (mkRequest u meth (Some variation)) w m)
      as [[r1 | e1] m1]; cbn [snd] in Happ.
    + destruct (sc && (Response.status r1 =? 400) && PatientApi.isLast rest) eqn:Hsecond.
      * apply andb_true_iff in Hsecond as [Hsc Hlast].
        apply andb_true_iff in Hsc as [Hsc _].
        destruct rest as [|? ?]; [|discriminate].
        assert (Hdone :
                  VariationRuns u meth sc [variation]
                    (evs1 ++ [EvDirect (mkRequest u meth (Some variation))])%list).
        { apply RunsSecondChance; assumption. }
        unfold fetch.
        destruct (network w (sent m1)) as [r2 | e2]; cbn [PatientApi.isLast].
        -- destruct ((Response.status r2 <? 400) || (500 <=? Response.status r2));
             cbn [PatientApi.tryVariations ret snd trace];
             exists (evs1 ++ [EvDirect (mkRequest u meth (Some variation))])%list;
             (split; [rewrite Happ, <- app_assoc; reflexivity | exact Hdone]).
        -- exists (evs1 ++ [EvDirect (mkRequest u meth (Some variation))])%list.
           cbn [snd trace].
           split; [rewrite Happ, <- app_assoc; reflexivity | exact Hdone].
      * destruct ((Response.status r1 <? 400) || (500 <=? Response.status r1)).
        -- exists evs1. split; [exact Happ | apply RunsOne, Hshape].
        -- destruct (IH (Some r1) lastError w m1) as (tail & Htail & Hruns).
           exists (evs1 ++ tail)%list. split.
           ++ rewrite Htail, Happ, <- app_assoc. reflexivity.
           ++ apply RunsNext; assumption.
    + destruct (PatientApi.isLast rest).
      * exists evs1. split; [exact Happ | apply RunsOne, Hshape].
      * destruct (IH response (Some e1) w m1) as (tail & Htail & Hruns).
        exists (evs1 ++ tail)%list. split.
        -- rewrite Htail, Happ, <- app_assoc. reflexivity.
        -- apply RunsNext; assumption.
Qed.

Lemma variations_pipeline (u meth : string) (sc : bool) (variations : list value)
  (fallback : string) (ctx : ErrorContext) (w : World) (m : Machine) :
  exists env m' evs tail,
    try_catch (PatientApi.sendVariations u meth sc variations fallback)
      (fun error => PatientApi.failureEnvelope error ctx true) w m
    = (Returned env, m')
    /\ trace m' = (trace m ++ evs ++ tail)%list
    /\ VariationRuns u meth sc variations evs
    /\ (tail = [] \/ exists c, tail = [EvClassified c])
    /\ appended (PatientApi.tryVariations u meth sc variations None None) w m evs.
Proof.
  destruct (tryVariations_runs u meth sc variations None None w m)
    as (evs & Happ & Hruns).
  pose proof Happ as Happ0.
  unfold appended in Happ.
  unfold try_catch, PatientApi.sendVariations, bind.
  destruct (PatientApi.tryVariations u meth sc variations None None w m)
    as [[[response lastError] | e] m1]; cbn [snd] in Happ.
  - destruct response as [r|].
    + destruct (handleResponseOf_returns Patients r w m1) as (env & E & _).
      cbn [handleResponseOf] in E. rewrite E.
      exists env, m1, evs, []. rewrite app_nil_r. repeat split; auto.
    + destruct lastError as [e|]; unfold throw.
      * destruct (failureEnvelope_returns e ctx true w m1)
          as (env & m2 & c & -> & _ & Htr & _).
        exists env, m2, evs, [EvClassified c].
        rewrite Htr, Happ, <- app_assoc. repeat split; eauto.
      * destruct (failureEnvelope_returns (new_Error fallback) ctx true w m1)
          as (env & m2 & c & -> & _ & Htr & _).
        exists env, m2, evs, [EvClassified c].
        rewrite Htr, Happ, <- app_assoc. repeat split; eauto.
  - destruct (failureEnvelope_returns e ctx true w m1)
      as (env & m2 & c & -> & _ & Htr & _).
    exists env, m2, evs, [EvClassified c].
    rewrite Htr, Happ, <- app_assoc. repeat split; eauto.
Qed.

(** Every patient operation returns an envelope, and its trace is made of
    executor runs followed by at most one classification. *)
Lemma patient_operation_pipeline (op : Operation) (w : World) (m : Machine) :
  isPatientOperation op = true ->
  exists env m' evs tail,
    perform op w m = (Returned env, m')
    /\ trace m' = (trace m ++ evs ++ tail)%list
    /\ PatientRuns op evs
    /\ (tail = [] \/ exists c, tail = [EvClassified c]).
Proof.
  destruct op; cbn [isPatientOperation]; try discriminate; intros _;
    cbn [perform PatientRuns patientUrl patientMethod].
  - unfold PatientApi.getAllPatients, NetworkUtils.isOnline, read_onLine.
    unfold bind at 1. cbv zeta.
    match goal with
    | |- context [try_catch (bind (PatientApi.fetchWithRetry ?rq) _)
                    (fun error => PatientApi.failureEnvelope error ?ctx false)] =>
        destruct (single_request_pipeline rq ctx w
                    (mkMachine (S (reads m)) (sent m) (trace m)))
          as (env & m' & evs & tail & E & Htr & Hx & Ht & _)
    end.
    exists env, m', evs, tail. repeat split; assumption.
  - unfold PatientApi.createPatient, NetworkUtils.isOnline, read_onLine.
    unfold bind at 1. cbv zeta.
    match goal with
    | |- context [try_catch (PatientApi.sendVariations ?u ?me ?sc ?vs ?fb)
                    (fun error => PatientApi.failureEnvelope error ?ctx true)] =>
        destruct (variations_pipeline u me sc vs fb ctx w
                    (mkMachine (S (reads m)) (sent m) (trace m)))
          as (env & m' & evs & tail & E & Htr & Hx & Ht & _)
    end.
    exists env, m', evs, tail. repeat split; assumption.
  - unfold PatientApi.updatePatient, NetworkUtils.isOnline, read_onLine.
    unfold bind at 1. cbv zeta.
    match goal with
    | |- context [try_catch (PatientApi.sendVariations ?u ?me ?sc ?vs ?fb)
                    (fun error => PatientApi.failureEnvelope error ?ctx true)] =>
        destruct (variations_pipeline u me sc vs fb ctx w
                    (mkMachine (S (reads m)) (sent m) (trace m)))
          as (env & m' & evs & tail & E & Htr & Hx & Ht & _)
    end.
    exists env, m', evs, tail. repeat split; assumption.
  - unfold PatientApi.deletePatient, NetworkUtils.isOnline, read_onLine.
    unfold bind at 1. cbv zeta.
    match goal with
    | |- context [try_catch (bind (PatientApi.fetchWithRetry ?rq) _)
                    (fun error => PatientApi.failureEnvelope error ?ctx false)] =>
        destruct (single_request_pipeline rq ctx w
                    (mkMachine (S (reads m)) (sent m) (trace m)))
          as (env & m' & evs & tail & E & Htr & Hx & Ht & _)
    end.
    exists env, m', evs, tail. repeat split; assumption.
Qed.

Lemma attempts_app (a b : list Event) : attempts (a ++ b) = (attempts a + attempts b)%nat.
Proof. unfold attempts. now rewrite filter_app, length_app. Qed.

Lemma roundTrips_app (a b : list Event) :
  roundTrips (a ++ b) = (roundTrips a + roundTrips b)%nat.
Proof. unfold roundTrips. now rewrite filter_app, length_app. Qed.

Lemma ExecutorTrace_bounds (rq : Request) (evs : list Event) :
  ExecutorTrace rq evs -> (attempts evs <= 3)%nat /\ (roundTrips evs <= 4)%nat.
Proof.
  intros [-> | [-> | (rest & -> & Hrest)]]; [cbn; lia | cbn; lia |].
  apply RetryTrace_shapes in Hrest.
  destruct Hrest as [-> | [-> | ->]]; cbn; lia.
Qed.

Lemma VariationRuns_bounds (u meth : string) (sc : bool)
  (variations : list value) (evs : list Event) :
  VariationRuns u meth sc variations evs ->
  (attempts evs <= 3 * length variations)%nat
  /\ (roundTrips evs <= 4 * length variations + 1)%nat.
Proof.
  induction 1 as [vs | v rest evs tail Hexec Hruns IH | v evs Hsc Hexec].
  - cbn. lia.
  - apply ExecutorTrace_bounds in Hexec.
    rewrite attempts_app, roundTrips_app. cbn [length]. lia.
  - apply ExecutorTrace_bounds in Hexec.
    rewrite attempts_app, roundTrips_app. cbn. lia.
Qed.

(** Offline, the executor throws before any request. *)
Lemma fetchWithRetry_offline (rq : Request) (w : World) (m : Machine) :
  onLine w (reads m) = false ->
  PatientApi.fetchWithRetry rq w m
  = (Thrown (new_Error "No network connectivity"),
     mkMachine (S (reads m)) (sent m) (trace m)).
Proof.
  intros Hoff.
  unfold PatientApi.fetchWithRetry, PatientApi.checkNetworkConnectivity,
    NetworkUtils.isOnline, read_onLine, bind, ret, throw.
  rewrite Hoff. reflexivity.
Qed.

Lemma patient_operation_offline (op : Operation) (w : World) :
  isPatientOperation op = true ->
  (forall k, onLine w k = false) ->
  exists env m',
    run (perform op) w = (Returned env, m')
    /\ ApiResponse.success env = false
    /\ ApiResponse.status env = 0
    /\ trace m' = [EvClassified NETWORK]
    /\ sent m' = 0%nat.
Proof.
  intros Hp Hoff.
  destruct op; cbn [isPatientOperation] in Hp; try discriminate;
    unfold run, perform, PatientApi.getAllPatients, PatientApi.createPatient,
      PatientApi.updatePatient, PatientApi.deletePatient,
      PatientApi.sendVariations, PatientApi.failureEnvelope,
      ErrorHandler.handleApiError, ErrorHandler.classified,
      NetworkUtils.getNetworkStatus, NetworkUtils.isOnline, read_onLine,
      try_catch, bind, ret, throw, emit, Date_now, Math_random_tag, toISOString, boot;
    cbn [PatientApi.createVariations PatientApi.updateVariations
         PatientApi.tryVariations PatientApi.isLast];
    repeat (rewrite fetchWithRetry_offline by apply Hoff; cbn [reads sent trace]);
    rewrite ?Hoff; cbn [negb reads sent trace];
    eexists; eexists; (split; [reflexivity|]); repeat split.
Qed.

(** C9, as stated, fails for consultations and exams.  With the device
    offline, [getAllConsultas] still issues its request (there is no
    connectivity pre-check), where [getAllPatients] issues none; and when
    every request times out, [getAllConsultas] stops after one request
    (there is no retry and no back-off), where [getAllPatients] makes three. *)
Lemma consultations_bypass_the_executor :
  trace (snd (run (perform GetAllConsultas) offlineWorld)) = [EvAttempt consultasRequest]
  /\ trace (snd (run (perform GetAllPatients) offlineWorld)) = [EvClassified NETWORK]
  /\ trace (snd (run (perform GetAllConsultas) everythingTimesOut))
     = [EvAttempt consultasRequest]
  /\ trace (snd (run (perform GetAllPatients) everythingTimesOut))
     = [ EvProbe probeUrl;
         EvAttempt listRequest; EvSleep 1000;
         EvAttempt listRequest; EvSleep 2000;
         EvAttempt listRequest;
         EvClassified NETWORK ].
Proof.
  repeat split; reflexivity.
Qed.

(** C9, amended.  The four patient operations are executed through the
    executor: each returns an envelope, and its trace consists of executor
    runs (connectivity check, then at most three attempts with back-off), one
    per request body tried, followed by at most one classification of a
    thrown error; [createPatient] may in addition re-send its last body once
    by a bare [fetch].  Offline they issue no request.  The response that
    the executor (or the loop over request bodies) ends with is handed to
    the patient normaliser, whose envelope is the operation's result.  The
    consultation and exam operations do not use the executor: whatever the
    connectivity, each issues exactly one request, never sleeps, and returns
    the envelope of its own normaliser, or a failure envelope with status 0
    when the request fails. *)
Theorem patient_operations_use_executor_others_fetch_once :
  (forall op w m,
      isPatientOperation op = true ->
      exists env m' evs tail,
        perform op w m = (Returned env, m')
        /\ trace m' = (trace m ++ evs ++ tail)%list
        /\ PatientRuns op evs
        /\ (attempts evs <= 3 * bodiesTried op)%nat
        /\ (tail = [] \/ exists c, tail = [EvClassified c]))
  /\ (forall op w,
        isPatientOperation op = true ->
        (forall k, onLine w k = false) ->
        roundTrips (trace (snd (run (perform op) w))) = 0%nat
        /\ option_map ApiResponse.success (envelope (run (perform op) w)) = Some false)
  /\ (forall op w m r m1,
        op = GetAllPatients \/ (exists id, op = DeletePatient id) ->
        PatientApi.fetchWithRetry (plainRequest op) w
          (mkMachine (S (reads m)) (sent m) (trace m)) = (Returned r, m1) ->
        perform op w m = PatientApi.handleResponse r w m1)
  /\ (forall op u meth sc bodies w m r lastError m1,
        (exists patient,
            op = CreatePatient patient /\ meth = "POST" /\ sc = true
            /\ bodies = PatientApi.createVariations patient)
        \/ (exists id patient,
               op = UpdatePatient id patient /\ meth = "PUT" /\ sc = false
               /\ bodies = PatientApi.updateVariations patient) ->
        u = patientUrl op ->
        PatientApi.tryVariations u meth sc bodies None None w
          (mkMachine (S (reads m)) (sent m) (trace m))
        = (Returned (Some r, lastError), m1) ->
        perform op w m = PatientApi.handleResponse r w m1)
  /\ (forall op w m,
        isPatientOperation op = false ->
        exists env,
          perform op w m
          = (Returned env,
             mkMachine (reads m) (S (sent m))
               (trace m ++ [EvAttempt (plainRequest op)]))
          /\ match network w (sent m) with
             | Resolves r => NormalisedAs r env
             | Rejects _ =>
                 ApiResponse.success env = false /\ ApiResponse.status env = 0
             end).
Proof.
  split; [|split; [|split; [|split]]].
  - intros op w m Hp.
    destruct (patient_operation_pipeline op w m Hp)
      as (env & m' & evs & tail & E & Htr & Hruns & Htail).
    exists env, m', evs, tail. repeat split; try assumption.
    destruct op; cbn [isPatientOperation] in Hp; try discriminate;
      cbn [PatientRuns bodiesTried] in *.
    + apply ExecutorTrace_bounds in Hruns. lia.
    + apply VariationRuns_bounds in Hruns. lia.
    + apply VariationRuns_bounds in Hruns. lia.
    + apply ExecutorTrace_bounds in Hruns. lia.
  - intros op w Hp Hoff.
    destruct (patient_operation_offline op w Hp Hoff)
      as (env & m' & E & S & _ & Htr & _).
    unfold envelope. rewrite E. cbn. rewrite Htr, S. split; reflexivity.
  - intros op w m r m1 Hop Hfetch.
    destruct (handleResponseOf_returns Patients r w m1) as (env & E & _).
    cbn [handleResponseOf] in E.
    destruct Hop as [-> | [id ->]]; cbn [perform plainRequest patientUrl patientMethod] in *.
    + unfold PatientApi.getAllPatients, NetworkUtils.isOnline, read_onLine.
      unfold bind at 1. cbv zeta. unfold try_catch, bind.
      rewrite Hfetch, E. reflexivity.
    + unfold PatientApi.deletePatient, NetworkUtils.isOnline, read_onLine.
      unfold bind at 1. cbv zeta. unfold try_catch, bind.
      rewrite Hfetch, E. reflexivity.
  - intros op u meth sc bodies w m r lastError m1 Hop -> Hloop.
    destruct (handleResponseOf_returns Patients r w m1) as (env & E & _).
    cbn [handleResponseOf] in E.
    destruct Hop as [(patient & -> & -> & -> & ->) | (id & patient & -> & -> & -> & ->)];
      cbn [perform patientUrl] in *.
    + unfold PatientApi.createPatient, NetworkUtils.isOnline, read_onLine.
      unfold bind at 1. cbv zeta.
      unfold try_catch, PatientApi.sendVariations, bind.
      rewrite Hloop, E. reflexivity.
    + unfold PatientApi.updatePatient, NetworkUtils.isOnline, read_onLine.
      unfold bind at 1. cbv zeta.
      unfold try_catch, PatientApi.sendVariations, bind.
      rewrite Hloop, E. reflexivity.
  - intros op w m Hp. apply plain_operation_once, Hp.
Qed.

(** ** Request-body variations of [createPatient] *)

Lemma appended_inj {A} (c : M A) (w : World) (m : Machine) (evs evs' : list Event) :
  appended c w m evs -> appended c w m evs' -> evs = evs'.
Proof.
  unfold appended. intros H H'. rewrite H in H'. now apply app_inv_head in H'.
Qed.

Lemma RetryTrace_head (rq : Request) (attempt : Z) (evs : list Event) :
  RetryTrace rq attempt evs -> exists more, evs = EvAttempt rq :: more.
Proof.
  intros [a Ha | a rest Ha Hrest]; eexists; reflexivity.
Qed.

(** The loop sends its first variation first: what the executor appends for
    it is a prefix of what the loop appends. *)
Lemma tryVariations_first (u meth : string) (sc : bool) (variation : value)
  (rest : list value) (response : option Response.t) (lastError : option JsError)
  (w : World) (m : Machine) (evs1 : list Event) :
  appended (PatientApi.fetchWithRetry (mkRequest u meth (Some variation))) w m evs1 ->
  exists tail,
    appended (PatientApi.tryVariations u meth sc (variation :: rest) response lastError)
      w m (evs1 ++ tail)%list.
Proof.
  unfold appended. intros Happ. cbn [PatientApi.tryVariations].
  destruct (PatientApi.fetchWithRetry (mkRequest u meth (Some variation)) w m)
    as [[r1 | e1] m1]; cbn [snd] in Happ.
  - destruct (sc && (Response.status r1 =? 400) && PatientApi.isLast rest) eqn:Hsecond.
    + apply andb_true_iff in Hsecond as [_ Hlast].
      destruct rest as [|? ?]; [|discriminate].
      exists [EvDirect (mkRequest u meth (Some variation))].
      unfold fetch.
      destruct (network w (sent m1)) as [r2 | e2]; cbn [PatientApi.isLast].
      * destruct ((Response.status r2 <? 400) || (500 <=? Response.status r2));
          cbn [PatientApi.tryVariations ret snd trace];
          rewrite Happ, <- app_assoc; reflexivity.
      * cbn [snd trace]. rewrite Happ, <- app_assoc. reflexivity.
    + destruct ((Response.status r1 <? 400) || (500 <=? Response.status r1)).
      * exists []. cbn [snd]. now rewrite app_nil_r.
      * destruct (tryVariations_runs u meth sc rest (Some r1) lastError w m1)
          as (tail & Htail & _).
        exists tail. unfold appended in Htail.
        rewrite Htail, Happ, <- app_assoc. reflexivity.
  - destruct (PatientApi.isLast rest).
    + exists []. cbn [snd]. now rewrite app_nil_r.
    + destruct (tryVariations_runs u meth sc rest response (Some e1) w m1)
        as (tail & Htail & _).
      exists tail. unfold appended in Htail.
      rewrite Htail, Happ, <- app_assoc. reflexivity.
Qed.

Lemma createPatient_first_request (patient : PatientApi.PatientRequest)
  (w : World) (m : Machine) :
  connectivityPasses w (mkMachine (S (reads m)) (sent m) (trace m)) ->
  exists later,
    trace (snd (PatientApi.createPatient patient w m))
    = (trace m
       ++ EvProbe probeUrl
       :: EvAttempt (mkRequest createUrl "POST"
                       (Some (nth 0 (PatientApi.createVariations patient) VUndefined)))
       :: later)%list.
Proof.
  intros Hpass.
  set (m0 := mkMachine (S (reads m)) (sent m) (trace m)) in *.
  set (v1 := nth 0 (PatientApi.createVariations patient) VUndefined).
  set (rq := mkRequest createUrl "POST" (Some v1)).
  pose proof (fetchWithRetry_connected rq w m0 Hpass) as Hconn.
  destruct (retryLoop_trace rq 2 1 w
              (mkMachine (S (reads m0)) (S (sent m0)) (trace m0 ++ [EvProbe probeUrl])))
    as (loop & Hloop & Hshape); [reflexivity|].
  destruct (RetryTrace_head _ _ _ Hshape) as (more & ->).
  assert (Hfirst : appended (PatientApi.fetchWithRetry rq) w m0
                     (EvProbe probeUrl :: EvAttempt rq :: more)).
  { unfold appended in *. rewrite Hconn, Hloop. cbn [trace].
    rewrite <- app_assoc. reflexivity. }
  unfold PatientApi.createPatient, NetworkUtils.isOnline, read_onLine.
  unfold bind at 1. cbv zeta. fold m0.
  match goal with
  | |- context [try_catch (PatientApi.sendVariations ?u ?me ?sc ?vs ?fb)
                  (fun error => PatientApi.failureEnvelope error ?ctx true)] =>
      destruct (variations_pipeline u me sc vs fb ctx w m0)
        as (env & m' & evs & tail & E & Htr & _ & _ & Happ)
  end.
  rewrite E. cbn [snd]. rewrite Htr.
  destruct (tryVariations_first createUrl "POST" true v1
              (tl (PatientApi.createVariations patient)) None None w m0 _ Hfirst)
    as (tail1 & Happ1).
  change (v1 :: tl (PatientApi.createVariations patient))
    with (PatientApi.createVariations patient) in Happ1.
  rewrite (appended_inj _ _ _ _ _ Happ Happ1).
  exists (more ++ tail1 ++ tail)%list.
  subst m0. cbn [trace]. rewrite <- !app_assoc. reflexivity.
Qed.

(** C10, as stated, fails on its last clause for the gender ['m']: it is not
    one of the four listed values, the second variation sends [sexo = 'm'],
    and that is the original value, so the third and fourth variations are
    not the only ones that carry it. *)
Lemma lowercase_m_is_carried_by_second_variation :
  translatedGender (PatientApi.pgender patientLowerM) = false
  /\ map sexo (PatientApi.createVariations patientLowerM)
     = [VStr "M"; VStr "m"; VStr "m"; VStr "m"]
  /\ sexo (nth 1 (PatientApi.createVariations patientLowerM) VUndefined)
     = VStr (PatientApi.pgender patientLowerM).
Proof.
  repeat split; reflexivity.
Qed.

(** C10, amended.  For every PatientRequest whose gender is not one of
    'MASCULINO', 'FEMININO', 'M', 'F', the four request bodies that
    [createPatient] tries in turn send [sexo] = 'M', 'm', the original gender
    and the original gender.  The first never carries the original value; the
    second carries it only when the gender is 'm' itself.  The first request
    issued, when the connectivity check passes, carries the first body. *)
Theorem unlisted_gender_is_sent_as_M_then_m
  (patient : PatientApi.PatientRequest) :
  translatedGender (PatientApi.pgender patient) = false ->
  let g := PatientApi.pgender patient in
  let bodies := PatientApi.createVariations patient in
  map sexo bodies = [VStr "M"; VStr "m"; VStr g; VStr g]
  /\ sexo (nth 0 bodies VUndefined) <> VStr g
  /\ (g <> "m" -> sexo (nth 1 bodies VUndefined) <> VStr g)
  /\ (forall w m,
        connectivityPasses w (mkMachine (S (reads m)) (sent m) (trace m)) ->
        exists later,
          trace (snd (PatientApi.createPatient patient w m))
          = (trace m
             ++ EvProbe probeUrl
             :: EvAttempt (mkRequest createUrl "POST" (Some (nth 0 bodies VUndefined)))
             :: later)%list).
Proof.
  intros Hg. cbv zeta.
  unfold translatedGender in Hg. rewrite !orb_false_iff in Hg.
  destruct Hg as [[[Hmasc Hfem] HM] HF].
  split; [|split; [|split]].
  - cbn. rewrite Hmasc, Hfem, HM, HF. reflexivity.
  - cbn. rewrite Hmasc, Hfem, HM, HF.
    intros [= E]. rewrite <- E in HM. discriminate.
  - intros Hm. cbn. rewrite Hmasc, Hfem, HM, HF.
    intros [= E]. apply Hm. symmetry. exact E.
  - intros w m. apply createPatient_first_request.
Qed.

Lemma unlisted_gender_witness :
  translatedGender (PatientApi.pgender patientOther) = false
  /\ map sexo (PatientApi.createVariations patientOther)
     = [VStr "M"; VStr "m"; VStr "Other"; VStr "Other"].
Proof.
  split; [reflexivity|].
  exact (proj1 (unlisted_gender_is_sent_as_M_then_m patientOther eq_refl)).
Defined.

(* ===================================================================== *)
(** * Further properties of the code *)
(* ===================================================================== *)

(** ** Back-off schedule *)

(** X1.  From attempt 1 on, the executor's back-off delay stays between the
    base delay (1000 ms) and the cap (10000 ms), never decreases with the
    attempt number, and is the cap exactly from attempt 5 on. *)
Theorem retry_delay_bounded_and_monotone (a b : Z) :
  1 <= a -> a <= b ->
  1000 <= PatientApi.getRetryDelay a <= 10000
  /\ PatientApi.getRetryDelay a <= PatientApi.getRetryDelay b
  /\ (PatientApi.getRetryDelay a = 10000 <-> 5 <= a).
Proof.
  intros Ha Hab. rewrite !getRetryDelay_formula.
  assert (Hpa : 0 < 2 ^ (a - 1)) by (apply Z.pow_pos_nonneg; lia).
  assert (Hmono : 2 ^ (a - 1) <= 2 ^ (b - 1)) by (apply Z.pow_le_mono_r; lia).
  split; [lia|]. split; [lia|]. split.
  - intros Hcap.
    destruct (Z_lt_le_dec a 5) as [Hlt | Hge]; [|exact Hge].
    exfalso.
    assert (Hcase : a = 1 \/ a = 2 \/ a = 3 \/ a = 4) by lia.
    destruct Hcase as [-> | [-> | [-> | ->]]]; cbn in Hcap; discriminate.
  - intros Hge.
    assert (H16 : 2 ^ 4 <= 2 ^ (a - 1)) by (apply Z.pow_le_mono_r; lia).
    change (2 ^ 4) with 16 in H16. lia.
Qed.

Lemma retry_delay_bounded_and_monotone_witness :
  1 <= 2 /\ 2 <= 6
  /\ 1000 <= PatientApi.getRetryDelay 2 <= 10000
  /\ PatientApi.getRetryDelay 2 <= PatientApi.getRetryDelay 6.
Proof.
  assert (H1 : 1 <= 2) by lia. assert (H2 : 2 <= 6) by lia.
  destruct (retry_delay_bounded_and_monotone 2 6 H1 H2) as (Hb & Hm & _).
  split; [exact H1|]. split; [exact H2|]. split; [exact Hb | exact Hm].
Defined.

(** X2.  The back-off helper of the error handler runs one step ahead of the
    executor's: at attempt [a] it gives what the executor gives at attempt
    [a + 1], hence twice the executor's delay at attempts 1 to 3. *)
Theorem handler_delay_is_one_step_ahead (a : Z) :
  0 <= a ->
  ErrorHandler.getRetryDelay a = PatientApi.getRetryDelay (a + 1)
  /\ (1 <= a <= 3 -> ErrorHandler.getRetryDelay a = 2 * PatientApi.getRetryDelay a).
Proof.
  intros Ha. split.
  - rewrite getRetryDelay_formula. unfold ErrorHandler.getRetryDelay.
    replace (a + 1 - 1) with a by lia. reflexivity.
  - intros Hr.
    assert (Hcase : a = 1 \/ a = 2 \/ a = 3) by lia.
    destruct Hcase as [-> | [-> | ->]]; reflexivity.
Qed.

Lemma handler_delay_is_one_step_ahead_witness :
  0 <= 1
  /\ ErrorHandler.getRetryDelay 1 = PatientApi.getRetryDelay 2
  /\ ErrorHandler.getRetryDelay 1 = 2000.
Proof.
  assert (H0 : 0 <= 1) by lia.
  destruct (handler_delay_is_one_step_ahead 1 H0) as (Hshift & _).
  split; [exact H0|]. split; [exact Hshift | reflexivity].
Defined.

(** ** What the executor retries *)

Lemma shouldRetryRequest_eq (e : JsError) (attempt : Z) (w : World) (m : Machine) :
  PatientApi.shouldRetryRequest e attempt w m
  = if 3 <=? attempt then (Returned false, m)
    else (Returned (negb (onLine w (reads m))
                    || (isTypeError e && negb (is_empty (message e))
                        && includes (message e) "Failed to fetch")
                    || String.eqb (name e) "AbortError"
                    || PatientApi.status_at_least e 500
                    || PatientApi.status_is e 429),
          mkMachine (S (reads m)) (sent m) (trace m)).
Proof.
  unfold PatientApi.shouldRetryRequest. cbn [maxAttempts PatientApi.RETRY_CONFIG].
  destruct (3 <=? attempt); [reflexivity|].
  unfold NetworkUtils.isNetworkError, NetworkUtils.isOnline, read_onLine, bind, ret.
  destruct (onLine w (reads m)); cbn [negb orb]; [|reflexivity].
  destruct (isTypeError e && negb (is_empty (message e))
            && includes (message e) "Failed to fetch"); cbn [orb]; [reflexivity|].
  destruct (String.eqb (name e) "AbortError"); cbn [orb]; [reflexivity|].
  destruct (PatientApi.status_at_least e 500); cbn [orb]; [reflexivity|].
  destruct (PatientApi.status_is e 429); reflexivity.
Qed.

Lemma is_empty_false (s : string) : is_empty s = false <-> s <> "".
Proof. destruct s; cbn; split; intros; congruence. Qed.

Lemma status_retryable (e : JsError) :
  PatientApi.status_at_least e 500 || PatientApi.status_is e 429 = true
  <-> exists st, errStatus e = Some st /\ (500 <= st \/ st = 429).
Proof.
  unfold PatientApi.status_at_least, PatientApi.status_is.
  destruct (errStatus e) as [st|].
  - rewrite orb_true_iff, Z.leb_le, Z.eqb_eq. split.
    + intros H. exists st. split; [reflexivity | exact H].
    + intros (st' & [= <-] & H). exact H.
  - split; [discriminate | intros (st & [=] & _)].
Qed.

(** X3.  [shouldRetryRequest] always answers, sends nothing, and answers true
    exactly when the attempt number is below 3 and the device reports
    offline at that moment, or the error is a [TypeError] whose message
    contains [Failed to fetch], or it is named [AbortError], or it carries a
    status of at least 500 or equal to 429.  From attempt 3 on it answers
    false without reading [navigator.onLine]. *)
Theorem shouldRetryRequest_decides (e : JsError) (attempt : Z) (w : World) (m : Machine) :
  exists b m',
    PatientApi.shouldRetryRequest e attempt w m = (Returned b, m')
    /\ trace m' = trace m /\ sent m' = sent m
    /\ (3 <= attempt -> m' = m)
    /\ (b = true <->
        attempt < 3
        /\ (onLine w (reads m) = false
            \/ (isTypeError e = true /\ message e <> ""
                /\ includes (message e) "Failed to fetch" = true)
            \/ name e = "AbortError"
            \/ (exists st, errStatus e = Some st /\ (500 <= st \/ st = 429)))).
Proof.
  rewrite shouldRetryRequest_eq.
  destruct (Z.leb_spec 3 attempt) as [Hge | Hlt].
  - exists false, m. repeat split; auto; try discriminate. intros [H _]. lia.
  - eexists; eexists. split; [reflexivity|]. cbn [trace sent].
    split; [reflexivity|]. split; [reflexivity|]. split; [intros; lia|].
    rewrite <- !orb_assoc, (orb_true_iff (negb _)), (orb_true_iff (_ && _)),
      (orb_true_iff (String.eqb _ _)).
    rewrite negb_true_iff, !andb_true_iff, negb_true_iff, is_empty_false,
      String.eqb_eq, status_retryable.
    split.
    + intros H. split; [exact Hlt|]. tauto.
    + intros [_ H]. tauto.
Qed.

(** X4.  Only a thrown error is ever retried: when the connectivity check
    passes and the first request is answered, the executor returns that very
    response after the single attempt, whatever its status (429 and 5xx
    included), without sleeping. *)
Theorem any_response_ends_the_retry_loop
  (rq : Request) (w : World) (m : Machine) (r : Response.t) :
  connectivityPasses w m ->
  network w (S (sent m)) = Resolves r ->
  PatientApi.fetchWithRetry rq w m
  = (Returned r,
     mkMachine (S (reads m)) (S (S (sent m)))
       (trace m ++ [EvProbe probeUrl; EvAttempt rq])).
Proof.
  intros Hpass Hnet.
  rewrite (fetchWithRetry_connected rq w m Hpass).
  rewrite (retryLoop_response rq 2 1 w
             (mkMachine (S (reads m)) (S (sent m)) (trace m ++ [EvProbe probeUrl]))
             r Hnet).
  cbn [reads sent trace]. rewrite <- app_assoc. reflexivity.
Qed.

Lemma any_response_ends_the_retry_loop_witness :
  connectivityPasses always500 boot
  /\ Response.status serverError500 = 500
  /\ PatientApi.fetchWithRetry listRequest always500 boot
     = (Returned serverError500,
        mkMachine 1 2 [EvProbe probeUrl; EvAttempt listRequest]).
Proof.
  assert (Hp : connectivityPasses always500 boot) by (split; [reflexivity | cbn; lia]).
  split; [exact Hp|]. split; [reflexivity|].
  exact (any_response_ends_the_retry_loop listRequest always500 boot serverError500
           Hp eq_refl).
Defined.

Lemma shouldRetryRequest_abort (e : JsError) (attempt : Z) (w : World) (m : Machine) :
  name e = "AbortError" -> attempt < 3 ->
  PatientApi.shouldRetryRequest e attempt w m
  = (Returned true, mkMachine (S (reads m)) (sent m) (trace m)).
Proof.
  intros Hname Hlt.
  rewrite shouldRetryRequest_eq.
  apply Z.leb_gt in Hlt. rewrite Hlt, Hname.
  change (String.eqb "AbortError" "AbortError") with true.
  rewrite orb_true_r. reflexivity.
Qed.

(** One iteration of the loop whose request runs into the abort timer. *)
Lemma retryLoop_abort_step (rq : Request) (remaining : nat) (attempt : Z)
  (w : World) (m : Machine) (e : JsError) :
  network w (sent m) = Rejects e ->
  PatientApi.detectCorsIssue e None = false ->
  name e = "AbortError" ->
  attempt < 3 ->
  PatientApi.retryLoop rq (S remaining) attempt w m
  = PatientApi.retryLoop rq remaining (attempt + 1) w
      (mkMachine (S (reads m)) (S (sent m))
         (trace m ++ [EvAttempt rq; EvSleep (PatientApi.getRetryDelay attempt)])).
Proof.
  intros Hnet Hcors Hname Hlt. rewrite retryLoop_eq.
  unfold try_catch, PatientApi.fetchWithTimeout, fetch.
  rewrite Hnet, Hcors. unfold bind at 1.
  rewrite (shouldRetryRequest_abort e attempt w _ Hname Hlt). cbn [negb].
  cbn [maxAttempts PatientApi.RETRY_CONFIG].
  apply Z.ltb_lt in Hlt. rewrite Hlt.
  unfold bind, PatientApi.sleep, emit. cbn [reads sent trace].
  rewrite <- app_assoc. reflexivity.
Qed.

Lemma retryLoop_abort_last (rq : Request) (w : World) (m : Machine) (e : JsError) :
  network w (sent m) = Rejects e ->
  PatientApi.detectCorsIssue e None = false ->
  PatientApi.retryLoop rq 0 3 w m
  = (Thrown e, mkMachine (reads m) (S (sent m)) (trace m ++ [EvAttempt rq])).
Proof.
  intros Hnet Hcors. rewrite retryLoop_eq.
  unfold try_catch, PatientApi.fetchWithTimeout, fetch.
  rewrite Hnet, Hcors. reflexivity.
Qed.

(** X5.  Three requests in a row that run into the abort timer: the executor
    makes exactly three attempts, sleeps 1000 ms and then 2000 ms between
    them, and throws the error of the third. *)
Theorem three_timeouts_exhaust_the_retries
  (rq : Request) (w : World) (m : Machine) (e1 e2 e3 : JsError) :
  connectivityPasses w m ->
  network w (S (sent m)) = Rejects e1 ->
  network w (S (S (sent m))) = Rejects e2 ->
  network w (S (S (S (sent m)))) = Rejects e3 ->
  name e1 = "AbortError" -> name e2 = "AbortError" ->
  PatientApi.detectCorsIssue e1 None = false ->
  PatientApi.detectCorsIssue e2 None = false ->
  PatientApi.detectCorsIssue e3 None = false ->
  PatientApi.fetchWithRetry rq w m
  = (Thrown e3,
     mkMachine (S (S (S (reads m)))) (S (S (S (S (sent m)))))
       (trace m ++ [ EvProbe probeUrl;
                     EvAttempt rq; EvSleep 1000;
                     EvAttempt rq; EvSleep 2000;
                     EvAttempt rq ])).
Proof.
  intros Hpass H1 H2 H3 Hn1 Hn2 Hc1 Hc2 Hc3.
  rewrite (fetchWithRetry_connected rq w m Hpass).
  set (m1 := mkMachine (S (reads m)) (S (sent m)) (trace m ++ [EvProbe probeUrl])).
  rewrite (retryLoop_abort_step rq 1 1 w m1 e1 H1 Hc1 Hn1 ltac:(lia)).
  set (m2 := mkMachine (S (reads m1)) (S (sent m1))
               (trace m1 ++ [EvAttempt rq; EvSleep (PatientApi.getRetryDelay 1)])).
  rewrite (retryLoop_abort_step rq 0 (1 + 1) w m2 e2 H2 Hc2 Hn2 ltac:(lia)).
  set (m3 := mkMachine (S (reads m2)) (S (sent m2))
               (trace m2 ++ [EvAttempt rq; EvSleep (PatientApi.getRetryDelay (1 + 1))])).
  change (1 + 1 + 1) with 3.
  rewrite (retryLoop_abort_last rq w m3 e3 H3 Hc3).
  subst m3 m2 m1. cbn [reads sent trace]. rewrite <- !app_assoc. reflexivity.
Qed.

Lemma three_timeouts_exhaust_the_retries_witness :
  connectivityPasses everythingTimesOut boot
  /\ PatientApi.fetchWithRetry listRequest everythingTimesOut boot
     = (Thrown abortError,
        mkMachine 3 4 [ EvProbe probeUrl;
                        EvAttempt listRequest; EvSleep 1000;
                        EvAttempt listRequest; EvSleep 2000;
                        EvAttempt listRequest ]).
Proof.
  assert (Hp : connectivityPasses everythingTimesOut boot) by (split; [reflexivity | exact I]).
  split; [exact Hp|].
  exact (three_timeouts_exhaust_the_retries listRequest everythingTimesOut boot
           abortError abortError abortError Hp
           eq_refl eq_refl eq_refl eq_refl eq_refl eq_refl eq_refl eq_refl).
Defined.

(** ** Connectivity check *)

(** X6.  [checkNetworkConnectivity] always answers.  It answers false exactly
    when the device reports offline, in which case no probe is sent, or when
    the probe is answered with a status of 500 or more; a probe that fails
    (is rejected or aborted) counts as connected. *)
Theorem connectivity_check_decides (w : World) (m : Machine) :
  exists b m',
    PatientApi.checkNetworkConnectivity w m = (Returned b, m')
    /\ (b = false <->
        onLine w (reads m) = false
        \/ exists p, network w (sent m) = Resolves p /\ 500 <= Response.status p)
    /\ (onLine w (reads m) = false -> sent m' = sent m /\ trace m' = trace m)
    /\ (onLine w (reads m) = true ->
        sent m' = S (sent m) /\ trace m' = (trace m ++ [EvProbe probeUrl])%list).
Proof.
  unfold PatientApi.checkNetworkConnectivity, NetworkUtils.isOnline, read_onLine.
  unfold bind at 1.
  destruct (onLine w (reads m)) eqn:Hon; cbn [negb].
  - unfold try_catch, bind, fetch, ret. cbn [reads sent trace].
    destruct (network w (sent m)) as [p | e] eqn:Hnet.
    + destruct (Z.ltb_spec (Response.status p) 500) as [Hlt | Hge];
        eexists; eexists; (split; [reflexivity|]); cbn [sent trace];
        (split; [|split; [discriminate | intros _; split; reflexivity]]).
      * split; [discriminate|].
        intros [Hoff | (p' & [= <-] & Hp)]; [discriminate | lia].
      * split; [|reflexivity]. intros _. right. exists p. split; [reflexivity | exact Hge].
    + eexists; eexists. split; [reflexivity|]. cbn [sent trace].
      split; [|split; [discriminate | intros _; split; reflexivity]].
      split; [discriminate|].
      intros [Hoff | (p' & Hp & _)]; discriminate.
  - eexists; eexists. split; [reflexivity|]. cbn [sent trace].
    split; [|split; [intros _; split; reflexivity | discriminate]].
    split; [intros _; left; reflexivity | reflexivity].
Qed.

(** X7.  A probe answered 5xx stops the operation before its request: with
    the device online, [getAllPatients] sends the probe and nothing else,
    and the resulting [No network connectivity] error, which has no network
    signature, is classified UNKNOWN; the envelope has [success = false] and
    status 0. *)
Theorem failing_probe_is_reported_as_unknown (w : World) (p : Response.t) :
  (forall k, onLine w k = true) ->
  network w 0%nat = Resolves p ->
  500 <= Response.status p ->
  let out := run PatientApi.getAllPatients w in
  trace (snd out) = [EvProbe probeUrl; EvClassified UNKNOWN]
  /\ attempts (trace (snd out)) = 0%nat
  /\ envelope out
     = Some (ApiResponse.mk false None
               (Some (VStr ERROR_MESSAGES.UNKNOWN_ERROR)) 0
               ("err_" ++ string_of_Z (nowMs w) ++ "_" ++ randomTag w)
               (isoTime w)
               (Some (ApiResponse.mkDetails VUndefined
                        (VStr "No network connectivity") None))).
Proof.
  intros Hon Hnet Hst.
  assert (E : run PatientApi.getAllPatients w
              = (Returned
                   (ApiResponse.mk false None
                      (Some (VStr ERROR_MESSAGES.UNKNOWN_ERROR)) 0
                      ("err_" ++ string_of_Z (nowMs w) ++ "_" ++ randomTag w)
                      (isoTime w)
                      (Some (ApiResponse.mkDetails VUndefined
                               (VStr "No network connectivity") None))),
                 mkMachine 4 1 [EvProbe probeUrl; EvClassified UNKNOWN])).
  { apply Z.ltb_ge in Hst.
    unfold run, PatientApi.getAllPatients, PatientApi.fetchWithRetry,
      PatientApi.checkNetworkConnectivity, PatientApi.failureEnvelope,
      ErrorHandler.handleApiError, ErrorHandler.classified,
      NetworkUtils.getNetworkStatus, NetworkUtils.isNetworkError,
      NetworkUtils.isOnline, read_onLine, fetch,
      try_catch, bind, ret, throw, emit, Date_now, Math_random_tag, toISOString, boot.
    repeat (progress (cbn -[String.append string_of_Z Z.ltb]; rewrite ?Hon, ?Hnet, ?Hst)).
    reflexivity. }
  cbv zeta. rewrite E. repeat split; reflexivity.
Qed.

Lemma failing_probe_is_reported_as_unknown_witness :
  (forall k, onLine probeSees503 k = true)
  /\ trace (snd (run PatientApi.getAllPatients probeSees503))
     = [EvProbe probeUrl; EvClassified UNKNOWN].
Proof.
  assert (Hon : forall k, onLine probeSees503 k = true) by reflexivity.
  assert (Hst : 500 <= Response.status unavailable503) by (cbn; lia).
  destruct (failing_probe_is_reported_as_unknown probeSees503 unavailable503
              Hon eq_refl Hst) as (Htr & _).
  split; [exact Hon | exact Htr].
Defined.

(** ** Error classifier *)

Lemma handleHttpError_retryable (st : Z) (msg : string) (ctx : ErrorContext) :
  retryable (ErrorHandler.handleHttpError st msg ctx) = (st =? 429) || (500 <=? st).
Proof.
  unfold ErrorHandler.handleHttpError.
  destruct (Z.eqb_spec st 400); [subst; reflexivity|].
  destruct (Z.eqb_spec st 401); [subst; reflexivity|].
  destruct (Z.eqb_spec st 403); [subst; reflexivity|].
  destruct (Z.eqb_spec st 404); [subst; reflexivity|].
  destruct (Z.eqb_spec st 409); [subst; reflexivity|].
  destruct (Z.eqb_spec st 422); [subst; reflexivity|].
  destruct (Z.eqb_spec st 429); [subst; reflexivity|].
  destruct (Z.eqb_spec st 500); [subst; reflexivity|].
  destruct (Z.eqb_spec st 502); [subst; reflexivity|].
  destruct (Z.eqb_spec st 503); [subst; reflexivity|].
  destruct (Z.eqb_spec st 504); [subst; reflexivity|].
  reflexivity.
Qed.

Lemma handleHttpError_type (st : Z) (msg : string) (ctx : ErrorContext) :
  type (ErrorHandler.handleHttpError st msg ctx)
  = if (st =? 400) || (st =? 409) || (st =? 422) then VALIDATION
    else if st =? 401 then AUTHENTICATION
    else if st =? 403 then AUTHORIZATION
    else API.
Proof.
  unfold ErrorHandler.handleHttpError.
  destruct (Z.eqb_spec st 400); [subst; reflexivity|].
  destruct (Z.eqb_spec st 401); [subst; reflexivity|].
  destruct (Z.eqb_spec st 403); [subst; reflexivity|].
  destruct (Z.eqb_spec st 404); [subst; reflexivity|].
  destruct (Z.eqb_spec st 409); [subst; reflexivity|].
  destruct (Z.eqb_spec st 422); [subst; reflexivity|].
  destruct (Z.eqb_spec st 429); [subst; reflexivity|].
  cbn [orb].
  destruct ((st =? 500) || (st =? 502) || (st =? 503) || (st =? 504)); reflexivity.
Qed.

(** X8.  [handleHttpError] by status: the error is retryable exactly for 429
    and for every status of 500 or more (not only the four listed 5xx
    codes); it is VALIDATION exactly for 400, 409 and 422, AUTHENTICATION
    exactly for 401, AUTHORIZATION exactly for 403, and API for every other
    status; the context is handed back unchanged. *)
Theorem http_status_decides_category_and_retry (st : Z) (msg : string) (ctx : ErrorContext) :
  let u := ErrorHandler.handleHttpError st msg ctx in
  (retryable u = true <-> st = 429 \/ 500 <= st)
  /\ (type u = VALIDATION <-> st = 400 \/ st = 409 \/ st = 422)
  /\ (type u = AUTHENTICATION <-> st = 401)
  /\ (type u = AUTHORIZATION <-> st = 403)
  /\ (type u = API <-> st <> 400 /\ st <> 401 /\ st <> 403 /\ st <> 409 /\ st <> 422)
  /\ context u = ctx.
Proof.
  cbv zeta. rewrite handleHttpError_retryable, handleHttpError_type.
  split; [rewrite orb_true_iff, Z.eqb_eq, Z.leb_le; tauto|].
  assert (Hctx : context (ErrorHandler.handleHttpError st msg ctx) = ctx).
  { unfold ErrorHandler.handleHttpError.
    repeat match goal with
           | |- context [if ?b then _ else _] => destruct b
           end; reflexivity. }
  destruct (Z.eqb_spec st 400); destruct (Z.eqb_spec st 409);
    destruct (Z.eqb_spec st 422); destruct (Z.eqb_spec st 401);
    destruct (Z.eqb_spec st 403); cbn [orb];
    repeat split; intros; try discriminate; try lia; try assumption;
    try (exfalso; lia);
    try match goal with
        | H : _ /\ _ |- _ => exfalso; lia
        end.
Qed.

Lemma failed_to_fetch_is_cors (e : JsError) :
  isTypeError e = true ->
  includes (message e) "Failed to fetch" = true ->
  NetworkUtils.isCorsError e = true.
Proof.
  intros Hty Hff. unfold NetworkUtils.isCorsError.
  rewrite Hty, Hff, (includes_nonempty _ _ Hff eq_refl). reflexivity.
Qed.

(** X9.  With the device online, a [TypeError] whose message contains
    [Failed to fetch], which is how the browser reports any failed request,
    is classified CORS and not retryable, with the configuration-error
    message: the CORS rule comes first, so the network rule's own test for
    that signature never decides. *)
Theorem failed_fetch_is_classified_cors
  (e : JsError) (ctx : ErrorContext) (w : World) (m : Machine) :
  onLine w (reads m) = true ->
  isTypeError e = true ->
  includes (message e) "Failed to fetch" = true ->
  exists u m',
    ErrorHandler.handleApiError e ctx w m = (Returned u, m')
    /\ type u = CORS
    /\ retryable u = false
    /\ ufMessage u = ERROR_MESSAGES.CORS_ERROR
    /\ technicalMessage u = Some (message e).
Proof.
  intros Hon Hty Hff.
  unfold ErrorHandler.handleApiError, NetworkUtils.getNetworkStatus, read_onLine.
  unfold bind at 1. rewrite Hon, (failed_to_fetch_is_cors e Hty Hff). cbn [negb].
  rewrite classified_eq. eexists; eexists. repeat split.
Qed.

Lemma failed_fetch_is_classified_cors_witness :
  onLine calmWorld (reads boot) = true
  /\ exists u m',
       ErrorHandler.handleApiError failedToFetch
         (mkContext "getAllPatients" VUndefined true (Some probeUrl) (Some "GET"))
         calmWorld boot = (Returned u, m')
       /\ type u = CORS.
Proof.
  split; [reflexivity|].
  destruct (failed_fetch_is_classified_cors failedToFetch
              (mkContext "getAllPatients" VUndefined true (Some probeUrl) (Some "GET"))
              calmWorld boot eq_refl eq_refl eq_refl)
    as (u & m' & E & T & _).
  exists u, m'. split; [exact E | exact T].
Defined.

(** X10.  For every error that is an object whose [message] is a text or
    absent, which is what a [JsError] is and what the API layer hands over
    (rejections of [fetch] and [new Error(...)]), and for every context and
    connectivity, the classifier answers, and its answer ties the retry flag
    to the category: NETWORK, TIMEOUT and UNKNOWN are always retryable; CORS,
    VALIDATION, AUTHENTICATION and AUTHORIZATION never are; an API error is
    retryable exactly when the error's status is 429 or at least 500.
    Nothing is said about [null], nor about an error whose [message] is
    neither a text nor absent: on those the source can throw a [TypeError]
    when it reads [error.name] or calls [error.message.includes]. *)
Theorem category_fixes_the_retry_flag
  (e : JsError) (ctx : ErrorContext) (w : World) (m : Machine) :
  exists u m',
    ErrorHandler.handleApiError e ctx w m = (Returned u, m')
    /\ match type u with
       | NETWORK | TIMEOUT | UNKNOWN => retryable u = true
       | CORS | VALIDATION | AUTHENTICATION | AUTHORIZATION => retryable u = false
       | API =>
           exists st, errStatus e = Some st
                      /\ (retryable u = true <-> st = 429 \/ 500 <= st)
       end.
Proof.
  unfold ErrorHandler.handleApiError, NetworkUtils.getNetworkStatus, read_onLine.
  unfold bind at 1.
  destruct (onLine w (reads m)); cbn [negb];
    [|rewrite classified_eq; eexists; eexists; split; reflexivity].
  destruct (NetworkUtils.isCorsError e);
    [rewrite classified_eq; eexists; eexists; split; reflexivity|].
  unfold bind.
  destruct (isNetworkError_quiet e w (mkMachine (S (reads m)) (sent m) (trace m)))
    as (net & ->).
  destruct net; [rewrite classified_eq; eexists; eexists; split; reflexivity|].
  destruct (String.eqb (name e) "AbortError" || includes (message e) "timeout");
    [rewrite classified_eq; eexists; eexists; split; reflexivity|].
  destruct (errStatus e) as [st|];
    [|rewrite classified_eq; eexists; eexists; split; reflexivity].
  destruct (st =? 0);
    [rewrite classified_eq; eexists; eexists; split; reflexivity|].
  rewrite classified_eq. eexists; eexists. split; [reflexivity|].
  pose proof (handleHttpError_retryable st (message e)
                (mkContext (operation ctx) (requestData ctx) true (ctxUrl ctx) (ctxMethod ctx)))
    as Hr.
  pose proof (handleHttpError_type st (message e)
                (mkContext (operation ctx) (requestData ctx) true (ctxUrl ctx) (ctxMethod ctx)))
    as Ht.
  rewrite Ht.
  destruct (Z.eqb_spec st 400); [subst; cbn in *; exact Hr|].
  destruct (Z.eqb_spec st 409); [subst; cbn in *; exact Hr|].
  destruct (Z.eqb_spec st 422); [subst; cbn in *; exact Hr|].
  cbn [orb].
  destruct (Z.eqb_spec st 401); [subst; cbn in *; exact Hr|].
  destruct (Z.eqb_spec st 403); [subst; cbn in *; exact Hr|].
  exists st. split; [reflexivity|].
  rewrite Hr, orb_true_iff, Z.eqb_eq, Z.leb_le. tauto.
Qed.

(** The classifier keeps the request data of the context it is given, and
    its NETWORK and TIMEOUT answers are retryable while its CORS, VALIDATION,
    AUTHENTICATION, AUTHORIZATION and UNKNOWN answers need no status. *)
Lemma category_fixes_the_retry_flag_aux
  (e : JsError) (ctx : ErrorContext) (w : World) (m : Machine) :
  exists u m',
    ErrorHandler.handleApiError e ctx w m = (Returned u, m')
    /\ requestData (context u) = requestData ctx
    /\ match type u with
       | NETWORK | TIMEOUT | UNKNOWN => retryable u = true
       | CORS | VALIDATION | AUTHENTICATION | AUTHORIZATION => retryable u = false
       | API => True
       end.
Proof.
  unfold ErrorHandler.handleApiError, NetworkUtils.getNetworkStatus, read_onLine.
  unfold bind at 1.
  destruct (onLine w (reads m)); cbn [negb];
    [|rewrite classified_eq; eexists; eexists; repeat split].
  destruct (NetworkUtils.isCorsError e);
    [rewrite classified_eq; eexists; eexists; repeat split|].
  unfold bind.
  destruct (isNetworkError_quiet e w (mkMachine (S (reads m)) (sent m) (trace m)))
    as (net & ->).
  destruct net; [rewrite classified_eq; eexists; eexists; repeat split|].
  destruct (String.eqb (name e) "AbortError" || includes (message e) "timeout");
    [rewrite classified_eq; eexists; eexists; repeat split|].
  destruct (errStatus e) as [st|];
    [|rewrite classified_eq; eexists; eexists; repeat split].
  destruct (st =? 0);
    [rewrite classified_eq; eexists; eexists; repeat split|].
  rewrite classified_eq. eexists; eexists. split; [reflexivity|].
  set (ctx' := mkContext (operation ctx) (requestData ctx) true (ctxUrl ctx) (ctxMethod ctx)).
  assert (Hc : context (ErrorHandler.handleHttpError st (message e) ctx') = ctx').
  { unfold ErrorHandler.handleHttpError.
    repeat match goal with
           | |- context [if ?b then _ else _] => destruct b
           end; reflexivity. }
  split; [rewrite Hc; reflexivity|].
  pose proof (handleHttpError_retryable st (message e) ctx') as Hr.
  rewrite (handleHttpError_type st (message e) ctx').
  destruct (Z.eqb_spec st 400); [subst; cbn in *; exact Hr|].
  destruct (Z.eqb_spec st 409); [subst; cbn in *; exact Hr|].
  destruct (Z.eqb_spec st 422); [subst; cbn in *; exact Hr|].
  cbn [orb].
  destruct (Z.eqb_spec st 401); [subst; cbn in *; exact Hr|].
  destruct (Z.eqb_spec st 403); [subst; cbn in *; exact Hr|].
  exact I.
Qed.

(** X11.  [ErrorHandler.shouldRetry] looks for the status of an API error in
    the request data of its context, which is what was sent, not what came
    back.  So for every classification made under a context whose request
    data has no [status] property, as is the case for the contexts of all
    four patient operations, it answers true exactly for NETWORK and TIMEOUT
    errors, and false for every API error, retryable 5xx and 429 included. *)
Theorem shouldRetry_ignores_server_errors
  (e : JsError) (ctx : ErrorContext) (w : World) (m : Machine) :
  ErrorHandler.requestStatus (requestData ctx) = VUndefined ->
  exists u m',
    ErrorHandler.handleApiError e ctx w m = (Returned u, m')
    /\ ErrorHandler.shouldRetry u
       = Some match type u with NETWORK | TIMEOUT => true | _ => false end.
Proof.
  intros Hdata.
  destruct (category_fixes_the_retry_flag_aux e ctx w m) as (u & m' & E & Hctx & Hflag).
  exists u, m'. split; [exact E|].
  unfold ErrorHandler.shouldRetry. rewrite Hctx, Hdata.
  destruct (type u); try (rewrite Hflag; reflexivity).
  destruct (retryable u); reflexivity.
Qed.

Lemma shouldRetry_ignores_server_errors_witness :
  ErrorHandler.requestStatus (requestData createContext) = VUndefined
  /\ exists u m',
       ErrorHandler.handleApiError serviceUnavailable createContext calmWorld boot
       = (Returned u, m')
       /\ type u = API /\ retryable u = true
       /\ ErrorHandler.shouldRetry u = Some false.
Proof.
  split; [reflexivity|].
  destruct (shouldRetry_ignores_server_errors serviceUnavailable createContext
              calmWorld boot eq_refl) as (u & m' & E & S).
  exists u, m'. split; [exact E|].
  assert (Hu : ErrorHandler.handleApiError serviceUnavailable createContext calmWorld boot
               = (Returned (ErrorHandler.handleHttpError 503 "Service Unavailable"
                              createContext),
                  mkMachine 2 0 [EvClassified API])) by reflexivity.
  rewrite Hu in E. injection E as <- _.
  repeat split; reflexivity.
Defined.

(** ** What every operation returns *)














(** ** Response normaliser: bodies that are not the expected JSON *)

(** X13.  A 200 or 201 answer whose body is not JSON is still a success.  For
    status 201 and a non-empty text the data is a placeholder patient holding
    the text as [message], the current time as [id], a fixed [name] and
    default values elsewhere; otherwise it is [{message: text}].  Neither is
    touched by the field remapping. *)
Theorem success_with_plain_text_body
  (r : Response.t) (text : string) (w : World) (m : Machine) :
  Response.status r = 200 \/ Response.status r = 201 ->
  Response.body r = BodyText text ->
  PatientApi.handleResponse r w m
  = (Returned
       (ApiResponse.mk true
          (Some (if (Response.status r =? 201) && negb (is_empty text)
                 then placeholderPatient (nowMs w) text
                 else VObj [("message", VStr text)]))
          None (Response.status r)
          ("resp_" ++ string_of_Z (nowMs w) ++ "_" ++ randomTag w) (isoTime w) None),
     m).
Proof.
  intros Hs Hb. apply eqb_200_201 in Hs.
  unfold PatientApi.handleResponse, PatientApi.rawDataOf, Response_text,
    try_catch, bind, ret, Date_now, Math_random_tag, toISOString.
  rewrite Hs, Hb.
  destruct ((Response.status r =? 201) && negb (is_empty text)); reflexivity.
Qed.

Lemma success_with_plain_text_body_witness :
  Response.status created201 = 201
  /\ option_map ApiResponse.data
       (envelope (run (PatientApi.handleResponse created201) calmWorld))
     = Some (Some (placeholderPatient 1700000000000 "Created")).
Proof.
  split; [reflexivity|].
  unfold run, envelope.
  rewrite (success_with_plain_text_body created201 "Created" calmWorld boot
             (or_intror eq_refl) eq_refl).
  reflexivity.
Defined.

Lemma js_or_absorb (a d : value) : (a ||| d) ||| d = a ||| d.
Proof.
  unfold js_or. destruct (truthy a) eqn:Ha; [rewrite Ha; reflexivity|].
  destruct (truthy d); reflexivity.
Qed.

Lemma js_or_undefined_l (x : value) : VUndefined ||| x = x.
Proof. reflexivity. Qed.

Lemma remap_remap (o : value) :
  PatientApi.remap (PatientApi.remap o) = PatientApi.remap o.
Proof.
  unfold PatientApi.remap at 1.
  change (field (PatientApi.remap o) "id") with (field o "id").
  change (field (PatientApi.remap o) "nomeCompleto") with VUndefined.
  change (field (PatientApi.remap o) "nome") with VUndefined.
  change (field (PatientApi.remap o) "cpfNumero") with VUndefined.
  change (field (PatientApi.remap o) "idadePaciente") with VUndefined.
  change (field (PatientApi.remap o) "idade") with VUndefined.
  change (field (PatientApi.remap o) "sexo") with VUndefined.
  change (field (PatientApi.remap o) "genero") with VUndefined.
  change (field (PatientApi.remap o) "planoSaude") with VUndefined.
  change (field (PatientApi.remap o) "plano") with VUndefined.
  change (field (PatientApi.remap o) "name")
    with (field o "nomeCompleto" ||| field o "nome" ||| field o "name" ||| VStr "").
  change (field (PatientApi.remap o) "cpf")
    with (field o "cpfNumero" ||| field o "cpf" ||| VStr "").
  change (field (PatientApi.remap o) "age")
    with (field o "idadePaciente" ||| field o "idade" ||| field o "age" ||| VNum 0).
  change (field (PatientApi.remap o) "gender")
    with (field o "sexo" ||| field o "genero" ||| field o "gender" ||| VStr "").
  change (field (PatientApi.remap o) "plan")
    with (field o "planoSaude" ||| field o "plano" ||| field o "plan" ||| VStr "").
  rewrite !js_or_undefined_l, !js_or_absorb. reflexivity.
Qed.

Lemma remapElement_remapElement (x : value) :
  PatientApi.remapElement (PatientApi.remapElement x) = PatientApi.remapElement x.
Proof.
  unfold PatientApi.remapElement.
  destruct (negb (truthy x) || negb (typeof_object x)) eqn:Hx.
  - rewrite Hx. reflexivity.
  - change (negb (truthy (PatientApi.remap x)) || negb (typeof_object (PatientApi.remap x)))
      with false.
    cbv iota. apply remap_remap.
Qed.

(** X14.  Normalising twice is normalising once: what [handleResponse] puts
    into [data] is left as it is by another pass of the same remapping,
    whether the body is a list, a single object or anything else. *)
Theorem normalize_is_idempotent (raw : value) :
  PatientApi.normalize (PatientApi.normalize raw) = PatientApi.normalize raw.
Proof.
  destruct raw as [ | | b | n | s | items | props]; try reflexivity.
  - destruct b; reflexivity.
  - unfold PatientApi.normalize at 2. cbn. destruct (negb (n =? 0)); reflexivity.
  - unfold PatientApi.normalize at 2. cbn. destruct (negb (is_empty s)); reflexivity.
  - cbn. f_equal. rewrite map_map. apply map_ext. intros x.
    apply remapElement_remapElement.
  - assert (Hn : PatientApi.normalize (VObj props)
                 = if truthy (field (VObj props) "nome" ||| field (VObj props) "idade"
                              ||| field (VObj props) "genero"
                              ||| field (VObj props) "plano")
                   then PatientApi.remap (VObj props) else VObj props) by reflexivity.
    destruct (truthy (field (VObj props) "nome" ||| field (VObj props) "idade"
                      ||| field (VObj props) "genero" ||| field (VObj props) "plano")).
    + rewrite Hn. reflexivity.
    + rewrite !Hn. reflexivity.
Qed.

Lemma parseApiError_json (r : Response.t) (text : string) (data : value)
  (w : World) (m : Machine) :
  declaresJson r = true ->
  Response.body r = BodyJson text data ->
  PatientApi.parseApiError r w m = interpretErrorData r data w m.
Proof.
  unfold declaresJson. intros Hj Hb.
  unfold PatientApi.parseApiError, interpretErrorData.
  unfold bind at 1. unfold try_catch at 1.
  destruct (Response.headers_get r "content-type") as [ct|]; [|discriminate].
  rewrite Hj. unfold Response_json. rewrite Hb. reflexivity.
Qed.

Lemma handleResponse_error (r : Response.t) (w : World) (m : Machine) :
  isOk (Response.status r) = false ->
  PatientApi.handleResponse r w m
  = match PatientApi.parseApiError r w m with
    | (Returned info, _) => (Returned (errorEnvelope r w info), m)
    | (Thrown e, _) => (Returned (caughtEnvelope w e), m)
    end.
Proof.
  unfold isOk. intros Hs.
  pose proof (quiet_parseApiError r w m) as Hq.
  unfold PatientApi.handleResponse.
  unfold bind at 1 2. unfold Date_now, Math_random_tag. cbv beta iota.
  unfold try_catch at 1. unfold bind at 1. unfold toISOString at 1. cbv beta iota.
  rewrite Hs. unfold bind, ret, toISOString.
  destruct (PatientApi.parseApiError r w m) as [[info | e] m1];
    cbn [snd] in Hq; subst m1; reflexivity.
Qed.

Lemma interpret_message_object (r : Response.t) (shown : string)
  (w : World) (m : Machine) :
  is_empty shown = false ->
  interpretErrorData r (VObj [("message", VStr shown)]) w m
  = (Returned (PatientApi.mkInfo (VStr shown) VUndefined (VStr shown)
                 VUndefined VUndefined), m).
Proof.
  intros Hne. destruct shown as [|c rest]; [discriminate|]. reflexivity.
Qed.

Lemma parseApiError_split (r : Response.t) :
  PatientApi.parseApiError r = bind (readErrorData r) (interpretErrorData r).
Proof. reflexivity. Qed.

(** The text that an unusable error body is replaced by. *)
Lemma parseApiError_degraded (r : Response.t) (w : World) (m : Machine) :
  (declaresJson r = true -> forall text data, Response.body r <> BodyJson text data) ->
  exists shown,
    is_empty shown = false
    /\ shown
       = (if declaresJson r then PatientApi.http_status_message r
          else match Response.body r with
               | BodyJson text _ | BodyText text =>
                   if is_empty text then PatientApi.http_status_message r else text
               | BodyUnreadable _ => PatientApi.http_status_message r
               end)
    /\ PatientApi.parseApiError r w m
       = interpretErrorData r (VObj [("message", VStr shown)]) w m.
Proof.
  intros Hnot. rewrite parseApiError_split. unfold bind at 1.
  unfold declaresJson in *.
  unfold readErrorData, Response_json, Response_text, Response_text_again,
    try_catch, PatientApi.message_object, bind, ret, throw.
  destruct (Response.headers_get r "content-type") as [ct|];
    [destruct (negb (is_empty ct) && includes ct "application/json")|];
    destruct (Response.body r) as [t d | t | why] eqn:Hb;
    try (exfalso; apply (Hnot eq_refl t d); reflexivity);
    try destruct (is_empty t) eqn:Ht;
    eexists; (split; [|split; [reflexivity|reflexivity]]);
    try reflexivity; exact Ht.
Qed.

(** X15.  An error response whose body is not usable JSON degrades to the
    text or to [HTTP <status>], with no validation errors.  If the response
    does not declare JSON, the error and the server message are the body
    text, or [HTTP <status>] when the text is empty or cannot be read.  If it
    declares JSON and the body does not parse or cannot be read, they are
    [HTTP <status>].  The envelope keeps the response's status. *)
Theorem unusable_error_body_degrades (r : Response.t) (w : World) (m : Machine) :
  isOk (Response.status r) = false ->
  (declaresJson r = true -> forall text data, Response.body r <> BodyJson text data) ->
  let shown :=
    if declaresJson r then PatientApi.http_status_message r
    else match Response.body r with
         | BodyJson text _ | BodyText text =>
             if is_empty text then PatientApi.http_status_message r else text
         | BodyUnreadable _ => PatientApi.http_status_message r
         end in
  PatientApi.handleResponse r w m
  = (Returned
       (ApiResponse.mk false None (Some (VStr shown)) (Response.status r)
          ("resp_" ++ string_of_Z (nowMs w) ++ "_" ++ randomTag w) (isoTime w)
          (Some (ApiResponse.mkDetails VUndefined (VStr shown)
                   (Some (Response.statusText r))))),
     m).
Proof.
  intros Hs Hnot. cbv zeta.
  rewrite (handleResponse_error r w m Hs).
  destruct (parseApiError_degraded r w m Hnot) as (shown & Hne & <- & ->).
  rewrite (interpret_message_object r shown w m Hne). reflexivity.
Qed.

Lemma unusable_error_body_degrades_witness :
  isOk (Response.status notFoundPlain) = false
  /\ option_map ApiResponse.error
       (envelope (run (PatientApi.handleResponse notFoundPlain) calmWorld))
     = Some (Some (VStr "HTTP 404")).
Proof.
  assert (Hs : isOk (Response.status notFoundPlain) = false) by reflexivity.
  assert (Hn : declaresJson notFoundPlain = true ->
               forall text data, Response.body notFoundPlain <> BodyJson text data)
    by (intros _ text data; discriminate).
  split; [exact Hs|].
  unfold run, envelope.
  rewrite (unusable_error_body_degrades notFoundPlain calmWorld boot Hs Hn).
  reflexivity.
Defined.

(** ** Response normaliser: validation errors *)







(** X17.  An error response can lose its status.  When the response declares
    JSON and its body is the JSON value [null], or an [errors] array whose
    first entry names a field that every object inherits (such as
    [constructor] or [toString]) with a truthy message, reading the body
    throws inside [parseApiError]; the [catch] of [handleResponse] then
    returns a failure envelope with status 0 and no details, whatever the
    status of the response was. *)
Theorem malformed_error_body_loses_the_status
  (r : Response.t) (text : string) (w : World) (m : Machine) :
  isOk (Response.status r) = false ->
  declaresJson r = true ->
  Response.body r = BodyJson text VNull
  \/ (exists k msg rest,
        is_inherited k = true /\ truthy msg = true
        /\ Response.body r
           = BodyJson text (VObj [("errors", VArr (errorEntry (k, msg) :: rest))])) ->
  exists env,
    PatientApi.handleResponse r w m = (Returned env, m)
    /\ ApiResponse.success env = false
    /\ ApiResponse.status env = 0
    /\ ApiResponse.details env = None.
Proof.
  intros Hs Hj [Hb | (k & msg & rest & Hinh & Hmsg & Hb)];
    rewrite (handleResponse_error r w m Hs), (parseApiError_json r text _ w m Hj Hb).
  - eexists. split; [reflexivity|]. repeat split.
  - assert (Hk : is_empty k = false).
    { destruct k; [discriminate Hinh | reflexivity]. }
    unfold interpretErrorData, bind, prop, ret.
    cbn [get lookup String.eqb Ascii.eqb Bool.eqb truthy
         PatientApi.forEachValidationError].
    unfold bind, PatientApi.foldValidationError, errorEntry, prop, ToPropertyKey, ret,
      bind, throw.
    cbn [fst snd get lookup String.eqb Ascii.eqb Bool.eqb ToString truthy].
    rewrite Hk, Hmsg, Hinh. cbn [negb andb].
    eexists. split; [reflexivity|]. repeat split.
Qed.

Lemma malformed_error_body_loses_the_status_witness :
  isOk (Response.status null422) = false
  /\ Response.status null422 = 422
  /\ exists env,
       PatientApi.handleResponse null422 calmWorld boot = (Returned env, boot)
       /\ ApiResponse.status env = 0.
Proof.
  assert (Hs : isOk (Response.status null422) = false) by reflexivity.
  split; [exact Hs|]. split; [reflexivity|].
  destruct (malformed_error_body_loses_the_status null422 "null" calmWorld boot
              Hs eq_refl (or_introl eq_refl)) as (env & E & _ & S0 & _).
  exists env. split; [exact E | exact S0].
Defined.


(** ** Request-body variations *)

Lemma fetchWithRetry_answered (rq : Request) (w : World) (m : Machine) (r : Response.t) :
  onLine w (reads m) = true ->
  probePasses w (sent m) ->
  network w (S (sent m)) = Resolves r ->
  PatientApi.fetchWithRetry rq w m
  = (Returned r,
     mkMachine (S (reads m)) (S (S (sent m)))
       ((trace m ++ [EvProbe probeUrl]) ++ [EvAttempt rq])).
Proof.
  intros Hon Hprobe Hnet.
  rewrite (fetchWithRetry_connected rq w m (conj Hon Hprobe)).
  apply retryLoop_response. exact Hnet.
Qed.

Lemma Rejecting_head (w : World) (m : Machine) (n : nat) :
  Rejecting w m (S n) ->
  onLine w (reads m) = true /\ probePasses w (sent m)
  /\ exists r, rejected w (S (sent m)) r.
Proof.
  intros H. destruct (H 0%nat) as (Hon & Hp & r & Hr); [lia|].
  rewrite Nat.add_0_r in Hon.
  replace (sent m + 2 * 0)%nat with (sent m) in * by lia.
  replace (sent m + 1)%nat with (S (sent m)) in Hr by lia.
  eauto.
Qed.

Lemma Rejecting_tail (w : World) (m : Machine) (n : nat) (evs : list Event) :
  Rejecting w m (S n) ->
  Rejecting w (mkMachine (S (reads m)) (S (S (sent m))) evs) n.
Proof.
  intros H i Hi. destruct (H (S i)) as (Hon & Hp & r & Hr); [lia|].
  cbn [reads sent].
  replace (S (reads m) + i)%nat with (reads m + S i)%nat by lia.
  replace (S (S (sent m)) + 2 * i)%nat with (sent m + 2 * S i)%nat by lia.
  eauto.
Qed.

Lemma rejected_not_final (w : World) (k : nat) (r : Response.t) :
  rejected w k r ->
  (Response.status r <? 400) || (500 <=? Response.status r) = false.
Proof.
  intros [_ [Hlo Hhi]]. apply orb_false_iff. split; [apply Z.ltb_ge | apply Z.leb_gt]; lia.
Qed.

(** Bodies answered 4xx are passed over as long as another body is left. *)
Lemma tryVariations_skip_rejected (u meth : string) (sc : bool) (vs : list value) :
  forall (rest : list value) (response : option Response.t)
         (lastError : option JsError) (w : World) (m : Machine),
    rest <> [] ->
    Rejecting w m (length vs) ->
    exists response',
      PatientApi.tryVariations u meth sc (vs ++ rest)%list response lastError w m
      = PatientApi.tryVariations u meth sc rest response' lastError w
          (afterRuns m (length vs) (rejectedRuns u meth vs)).
Proof.
  induction vs as [|v vs IH]; intros rest response lastError w m Hrest Hrej.
  - exists response. unfold afterRuns. cbn [length rejectedRuns flat_map app].
    rewrite app_nil_r, Nat.add_0_r, Nat.add_0_r. destruct m; reflexivity.
  - destruct (Rejecting_head w m _ Hrej) as (Hon & Hp & r & Hr).
    cbn [app PatientApi.tryVariations].
    rewrite (fetchWithRetry_answered _ w m r Hon Hp (proj1 Hr)).
    assert (Hlast : PatientApi.isLast (vs ++ rest)%list = false).
    { destruct vs; [destruct rest; [congruence | reflexivity] | reflexivity]. }
    rewrite Hlast, andb_false_r, (rejected_not_final w _ r Hr).
    destruct (IH rest (Some r) lastError w _ Hrest
                (Rejecting_tail w m _ ((trace m ++ [EvProbe probeUrl])
                                       ++ [EvAttempt (mkRequest u meth (Some v))]) Hrej))
      as (response' & E).
    exists response'. rewrite E. f_equal. unfold afterRuns.
    cbn [reads sent trace length rejectedRuns flat_map app].
    f_equal; [lia | lia |].
    rewrite <- !app_assoc. reflexivity.
Qed.

Lemma try_catch_returned {A} (c : M A) (h : JsError -> M A) (w : World) (m : Machine)
  (a : A) (m' : Machine) :
  c w m = (Returned a, m') -> try_catch c h w m = (Returned a, m').
Proof. intros E. unfold try_catch. rewrite E. reflexivity. Qed.

(** Once the loop has settled on a response, the operation returns what the
    normaliser makes of it. *)
Lemma sendVariations_settled (u meth : string) (sc : bool) (variations : list value)
  (fallback : string) (ctx : ErrorContext) (w : World) (m m1 : Machine)
  (r : Response.t) (lastError : option JsError) :
  PatientApi.tryVariations u meth sc variations None None w m
  = (Returned (Some r, lastError), m1) ->
  try_catch (PatientApi.sendVariations u meth sc variations fallback)
    (fun error => PatientApi.failureEnvelope error ctx true) w m
  = PatientApi.handleResponse r w m1.
Proof.
  intros E.
  destruct (handleResponseOf_returns Patients r w m1) as (env & Henv & _).
  cbn [handleResponseOf] in Henv. rewrite Henv.
  apply try_catch_returned.
  unfold PatientApi.sendVariations, bind. rewrite E. exact Henv.
Qed.


Lemma Rejecting_fewer (w : World) (m : Machine) (n k : nat) :
  (k <= n)%nat -> Rejecting w m n -> Rejecting w m k.
Proof. intros Hk H i Hi. apply H. lia. Qed.

Lemma Rejecting_at (w : World) (m : Machine) (n k : nat) (evs : list Event) :
  Rejecting w m (S n) -> (k <= n)%nat ->
  Rejecting w (afterRuns m k evs) (S (n - k)).
Proof.
  intros H Hk i Hi. destruct (H (k + i)%nat) as (Hon & Hp & r & Hr); [lia|].
  unfold afterRuns. cbn [reads sent].
  replace (reads m + k + i)%nat with (reads m + (k + i))%nat by lia.
  replace (sent m + 2 * k + 2 * i)%nat with (sent m + 2 * (k + i))%nat by lia.
  eauto.
Qed.

(** [updatePatient]'s loop when every body is answered 4xx: all of them are
    sent, and the last answer is kept. *)
Lemma tryVariations_all_rejected (u meth : string) (vs : list value) (v : value)
  (w : World) (m : Machine) :
  Rejecting w m (S (length vs)) ->
  exists r,
    rejected w (sent m + 2 * length vs + 1) r
    /\ PatientApi.tryVariations u meth false (vs ++ [v])%list None None w m
       = (Returned (Some r, None),
          afterRuns m (S (length vs)) (rejectedRuns u meth (vs ++ [v]))).
Proof.
  intros Hrej.
  destruct (tryVariations_skip_rejected u meth false vs [v] None None w m)
    as (response' & E); [discriminate | |].
  { apply (Rejecting_fewer w m (S (length vs))); [lia | exact Hrej]. }
  pose proof (Rejecting_at w m (length vs) (length vs) (rejectedRuns u meth vs)
                Hrej (le_n _)) as Hlast.
  rewrite Nat.sub_diag in Hlast.
  destruct (Rejecting_head _ _ _ Hlast) as (Hon & Hp & r & Hr).
  exists r. split.
  - unfold afterRuns in Hr. cbn [sent] in Hr.
    replace (sent m + 2 * length vs + 1)%nat with (S (sent m + 2 * length vs)) by lia.
    exact Hr.
  - rewrite E. cbn [PatientApi.tryVariations].
    rewrite (fetchWithRetry_answered _ w _ r Hon Hp (proj1 Hr)).
    cbn [andb]. rewrite (rejected_not_final w _ r Hr).
    unfold ret, afterRuns, rejectedRuns. cbn [reads sent trace].
    rewrite flat_map_app. cbn [flat_map app].
    f_equal. f_equal; [lia | lia |].
    rewrite <- !app_assoc. reflexivity.
Qed.

(** X18.  [updatePatient] moves on to its next request body after any 4xx
    answer, not only after 400.  When the device is online, the probes pass
    and each of the three bodies is answered 4xx, all three are sent in the
    order of the source, each behind its own probe and with no retry, and
    the operation returns what the normaliser makes of the third answer. *)
Theorem update_sends_every_body_when_rejected
  (id : Z) (patient : PatientApi.PatientRequest) (w : World) (m : Machine) :
  Rejecting w (contextRead m) 3 ->
  exists r,
    rejected w (sent m + 5) r
    /\ PatientApi.updatePatient id patient w m
       = PatientApi.handleResponse r w
           (afterRuns (contextRead m) 3
              (rejectedRuns (patientUrl (UpdatePatient id patient)) "PUT"
                 (PatientApi.updateVariations patient))).
Proof.
  intros Hrej.
  set (u := patientUrl (UpdatePatient id patient)).
  destruct (tryVariations_all_rejected u "PUT"
              (firstn 2 (PatientApi.updateVariations patient))
              (nth 2 (PatientApi.updateVariations patient) VUndefined)
              w (contextRead m) Hrej) as (r & Hr & E).
  exists r. split.
  { cbn [PatientApi.updateVariations firstn length contextRead sent] in Hr.
    replace (sent m + 5)%nat with (sent m + 2 * 2 + 1)%nat by lia. exact Hr. }
  unfold PatientApi.updatePatient, NetworkUtils.isOnline, read_onLine.
  unfold bind at 1. cbv zeta.
  apply (sendVariations_settled u "PUT" false (PatientApi.updateVariations patient)
           _ _ w (contextRead m) _ r None).
  exact E.
Qed.

Lemma update_sends_every_body_when_rejected_witness :
  Rejecting always400 (contextRead boot) 3
  /\ exists r,
       Response.status r = 400
       /\ PatientApi.updatePatient 7 patientOther always400 boot
          = PatientApi.handleResponse r always400
              (afterRuns (contextRead boot) 3
                 (rejectedRuns (patientUrl (UpdatePatient 7 patientOther)) "PUT"
                    (PatientApi.updateVariations patientOther))).
Proof.
  assert (Hrej : Rejecting always400 (contextRead boot) 3).
  { intros i Hi. destruct i as [|[|[|i]]]; [| | | lia];
      (split; [reflexivity|]); (split; [vm_compute; reflexivity|]);
      exists badRequest400; (split; [reflexivity | cbn; lia]). }
  split; [exact Hrej|].
  destruct (update_sends_every_body_when_rejected 7 patientOther always400 boot Hrej)
    as (r & [Hnet _] & E).
  exists r. split; [|exact E].
  cbn in Hnet. injection Hnet as <-. reflexivity.
Defined.


(** X19.  [createPatient] sends its last body twice when every body is
    refused.  When the device is online, the probes pass, the four bodies
    are answered 4xx, the fourth with status 400, and the bare re-send of the
    fourth body is answered 4xx as well, the trace is the four executor runs
    followed by one direct request with the fourth body, nine requests in
    all, and the operation returns what the normaliser makes of the answer to
    the re-send. *)
Theorem create_resends_the_last_body_when_rejected
  (patient : PatientApi.PatientRequest) (w : World) (m : Machine)
  (r1 r2 : Response.t) :
  Rejecting w (contextRead m) 4 ->
  network w (sent m + 7) = Resolves r1 ->
  Response.status r1 = 400 ->
  rejected w (sent m + 8) r2 ->
  PatientApi.createPatient patient w m
  = PatientApi.handleResponse r2 w
      (mkMachine (reads m + 5) (sent m + 9)
         (trace m
          ++ rejectedRuns createUrl "POST" (PatientApi.createVariations patient)
          ++ [EvDirect (mkRequest createUrl "POST"
                          (Some (nth 3 (PatientApi.createVariations patient)
                                   VUndefined)))])).
Proof.
  intros Hrej Hnet1 H400 Hr2.
  set (vs := firstn 3 (PatientApi.createVariations patient)).
  set (v := nth 3 (PatientApi.createVariations patient) VUndefined).
  destruct (tryVariations_skip_rejected createUrl "POST" true vs [v] None None w
              (contextRead m)) as (response' & E); [discriminate | |].
  { apply (Rejecting_fewer w _ 4); [cbn; lia | exact Hrej]. }
  pose proof (Rejecting_at w (contextRead m) 3 3 (rejectedRuns createUrl "POST" vs)
                Hrej (le_n _)) as Hlast.
  destruct (Rejecting_head _ _ _ Hlast) as (Hon & Hp & r & Hr).
  assert (r = r1) as ->.
  { destruct Hr as [Hnet _]. unfold afterRuns, contextRead in Hnet. cbn [sent] in Hnet.
    replace (S (sent m + 2 * 3)) with (sent m + 7)%nat in Hnet by lia.
    congruence. }
  unfold PatientApi.createPatient, NetworkUtils.isOnline, read_onLine.
  unfold bind at 1. cbv zeta.
  apply (sendVariations_settled createUrl "POST" true
           (PatientApi.createVariations patient) _ _ w (contextRead m) _ r2 None).
  change (PatientApi.createVariations patient) with (vs ++ [v])%list.
  rewrite E. cbn [PatientApi.tryVariations].
  rewrite (fetchWithRetry_answered _ w _ r1 Hon Hp (proj1 Hr)).
  rewrite H400. cbn [andb Z.eqb Pos.eqb PatientApi.isLast].
  unfold fetch. cbn [reads sent trace afterRuns contextRead length].
  replace (S (S (sent m + 2 * 3))) with (sent m + 8)%nat by lia.
  rewrite (proj1 Hr2), (rejected_not_final w _ r2 Hr2).
  unfold ret. f_equal. f_equal; [lia | lia |].
  unfold rejectedRuns. rewrite flat_map_app. cbn [flat_map app].
  rewrite <- !app_assoc. reflexivity.
Qed.

Lemma create_resends_the_last_body_when_rejected_witness :
  Rejecting always400 (contextRead boot) 4
  /\ length (filter isNetworkEvent
               (trace (snd (PatientApi.createPatient patientOther always400 boot))))
     = 9%nat.
Proof.
  assert (Hrej : Rejecting always400 (contextRead boot) 4).
  { intros i Hi. destruct i as [|[|[|[|i]]]]; [| | | | lia];
      (split; [reflexivity|]); (split; [vm_compute; reflexivity|]);
      exists badRequest400; (split; [reflexivity | cbn; lia]). }
  assert (Hr2 : rejected always400 (sent boot + 8) badRequest400)
    by (split; [reflexivity | cbn; lia]).
  split; [exact Hrej|].
  rewrite (create_resends_the_last_body_when_rejected patientOther always400 boot
             badRequest400 badRequest400 Hrej eq_refl eq_refl Hr2).
  reflexivity.
Defined.

(** X20.  The first answer outside 4xx ends the variations.  When the
    executor returns a response to the first body of [createPatient] or
    [updatePatient] whose status is below 400 or at least 500, no other body
    is sent: the operation returns what the normaliser makes of that
    response, on the machine the executor left. *)
Theorem first_answer_outside_4xx_is_final
  (op : Operation) (body : value) (w : World) (m m1 : Machine) (r : Response.t) :
  firstBody op = Some body ->
  PatientApi.fetchWithRetry (mkRequest (patientUrl op) (patientMethod op) (Some body))
    w (contextRead m) = (Returned r, m1) ->
  Response.status r < 400 \/ 500 <= Response.status r ->
  perform op w m = PatientApi.handleResponse r w m1.
Proof.
  intros Hbody Hrun Hstatus.
  assert (Hbreak : (Response.status r <? 400) || (500 <=? Response.status r) = true).
  { apply orb_true_iff.
    destruct Hstatus; [left; apply Z.ltb_lt | right; apply Z.leb_le]; assumption. }
  assert (H400 : (Response.status r =? 400) = false).
  { apply Z.eqb_neq. lia. }
  destruct op; try discriminate Hbody; injection Hbody as <-;
    cbn [perform patientUrl patientMethod] in *.
  - unfold PatientApi.createPatient, NetworkUtils.isOnline, read_onLine.
    unfold bind at 1. cbv zeta.
    apply (sendVariations_settled _ "POST" true (PatientApi.createVariations patient)
             _ _ w (contextRead m) m1 r None).
    unfold PatientApi.createVariations at 1. cbv zeta.
    cbn [PatientApi.tryVariations].
    cbn [PatientApi.createVariations nth] in Hrun. rewrite Hrun.
    rewrite H400. cbn [andb]. rewrite Hbreak. reflexivity.
  - unfold PatientApi.updatePatient, NetworkUtils.isOnline, read_onLine.
    unfold bind at 1. cbv zeta.
    apply (sendVariations_settled _ "PUT" false (PatientApi.updateVariations patient)
             _ _ w (contextRead m) m1 r None).
    unfold PatientApi.updateVariations at 1.
    cbn [PatientApi.tryVariations].
    cbn [PatientApi.updateVariations nth] in Hrun. rewrite Hrun.
    cbn [andb]. rewrite Hbreak. reflexivity.
Qed.

Lemma first_answer_outside_4xx_is_final_witness :
  firstBody (CreatePatient patientOther)
  = Some (nth 0 (PatientApi.createVariations patientOther) VUndefined)
  /\ length (filter isNetworkEvent
               (trace (snd (perform (CreatePatient patientOther) always500 boot))))
     = 2%nat.
Proof.
  assert (Hst : Response.status serverError500 < 400
                \/ 500 <= Response.status serverError500) by (right; cbn; lia).
  split; [reflexivity|].
  rewrite (first_answer_outside_4xx_is_final (CreatePatient patientOther)
             (nth 0 (PatientApi.createVariations patientOther) VUndefined)
             always500 boot
             (mkMachine 2 2
                [EvProbe probeUrl;
                 EvAttempt (mkRequest createUrl "POST"
                              (Some (nth 0 (PatientApi.createVariations patientOther)
                                       VUndefined)))])
             serverError500 eq_refl eq_refl Hst).
  reflexivity.
Defined.


(** ** The administration panel *)

Lemma handleApiError_cors_eq (e : JsError) (ctx : ErrorContext) (w : World) (m : Machine) :
  onLine w (reads m) = true ->
  NetworkUtils.isCorsError e = true ->
  ErrorHandler.handleApiError e ctx w m
  = (Returned (mkFriendly CORS ERROR_MESSAGES.CORS_ERROR (Some (message e))
                 [ERROR_MESSAGES.CONTACT_SUPPORT] false
                 (mkContext (operation ctx) (requestData ctx) true
                    (ctxUrl ctx) (ctxMethod ctx))),
     mkMachine (S (reads m)) (sent m) (trace m ++ [EvClassified CORS])).
Proof.
  intros Hon Hcors.
  unfold ErrorHandler.handleApiError, NetworkUtils.getNetworkStatus, read_onLine.
  unfold bind at 1. rewrite Hon. cbn [negb]. rewrite Hcors.
  reflexivity.
Qed.

(** The classifier on the panel's object literal when the envelope had
    status 0: nothing of the first classification is left. *)
Lemma handleApiError_status_0 (msg : string) (ctx : ErrorContext) (w : World) (m : Machine) :
  onLine w (reads m) = true ->
  onLine w (S (reads m)) = true ->
  includes msg "timeout" = false ->
  ErrorHandler.handleApiError (AdminPanel.errorObject msg 0) ctx w m
  = (Returned (mkFriendly UNKNOWN ERROR_MESSAGES.UNKNOWN_ERROR
                 (Some (if is_empty msg then "[object Object]" else msg))
                 [ERROR_MESSAGES.TRY_AGAIN_LATER; ERROR_MESSAGES.CONTACT_SUPPORT] true
                 (mkContext (operation ctx) (requestData ctx) true
                    (ctxUrl ctx) (ctxMethod ctx))),
     mkMachine (S (S (reads m))) (sent m) (trace m ++ [EvClassified UNKNOWN])).
Proof.
  intros Hon1 Hon2 Hto.
  unfold ErrorHandler.handleApiError, NetworkUtils.getNetworkStatus, read_onLine.
  unfold bind at 1. rewrite Hon1. cbn [negb].
  unfold NetworkUtils.isCorsError, AdminPanel.errorObject.
  cbn [isTypeError name message errStatus andb String.eqb].
  unfold NetworkUtils.isNetworkError, NetworkUtils.isOnline, read_onLine, bind, ret.
  cbn [reads sent trace]. rewrite Hon2.
  cbn [negb andb String.eqb orb]. rewrite Hto.
  reflexivity.
Qed.

(** X21.  The panel classifies a failed listing a second time, from the
    envelope alone, and the first classification is lost.  With the device
    online and the probe passing, a listing request that fails as a
    [TypeError] whose message contains [Failed to fetch] is classified CORS,
    not retryable, by [getAllPatients]; the panel then shows the outcome of
    classifying [{message, status: 0}], which is UNKNOWN and retryable, with
    the CORS text as technical message.  One request was attempted. *)
Theorem panel_shows_cors_failure_as_unknown (w : World) (e : JsError) :
  (forall k, onLine w k = true) ->
  probePasses w 0 ->
  network w 1%nat = Rejects e ->
  isTypeError e = true ->
  includes (message e) "Failed to fetch" = true ->
  errStatus e = None ->
  exists shown m',
    run AdminPanel.fetchPatients w
    = (Returned (AdminPanel.Failed ERROR_MESSAGES.CORS_ERROR shown), m')
    /\ type shown = UNKNOWN
    /\ retryable shown = true
    /\ technicalMessage shown = Some ERROR_MESSAGES.CORS_ERROR
    /\ classifications (trace m') = [CORS; UNKNOWN]
    /\ attempts (trace m') = 1%nat.
Proof.
  intros Hon Hprobe Hnet Htype Hmsg Hstatus.
  pose proof (failed_to_fetch_is_cors e Htype Hmsg) as Hcors.
  assert (Hdetect : PatientApi.detectCorsIssue e None = true).
  { unfold PatientApi.detectCorsIssue. rewrite Hcors. reflexivity. }
  assert (Hlist :
            PatientApi.getAllPatients w boot
            = (Returned (ApiResponse.mk false None
                           (Some (VStr ERROR_MESSAGES.CORS_ERROR)) 0
                           ("err_" ++ string_of_Z (nowMs w) ++ "_" ++ randomTag w)
                           (isoTime w)
                           (Some (ApiResponse.mkDetails VUndefined
                                    (VStr (message e)) (errStatusText e)))),
               mkMachine 3 2
                 [EvProbe probeUrl; EvAttempt listRequest; EvClassified CORS])).
  { unfold PatientApi.getAllPatients, NetworkUtils.isOnline, read_onLine.
    unfold bind at 1. cbv zeta. unfold try_catch, bind at 1.
    rewrite (fetchWithRetry_cors _ w (mkMachine 1 0 []) e
               (conj (Hon _) Hprobe) Hnet Hdetect).
    unfold PatientApi.failureEnvelope. unfold bind at 1.
    rewrite (handleApiError_cors_eq e _ w _ (Hon _) Hcors).
    rewrite Hstatus. reflexivity. }
  unfold run, AdminPanel.fetchPatients, try_catch. unfold bind at 1.
  rewrite Hlist. cbn [ApiResponse.success ApiResponse.error ApiResponse.status].
  unfold bind at 1, AdminPanel.handleApiError, read_onLine. unfold bind at 1.
  rewrite (handleApiError_status_0 ERROR_MESSAGES.CORS_ERROR _ w _ (Hon _) (Hon _)
             eq_refl).
  eexists; eexists. split; [reflexivity|]. repeat split.
Qed.

Lemma panel_shows_cors_failure_as_unknown_witness :
  (forall k, onLine corsBlocked k = true)
  /\ exists shown m',
       run AdminPanel.fetchPatients corsBlocked
       = (Returned (AdminPanel.Failed ERROR_MESSAGES.CORS_ERROR shown), m')
       /\ type shown = UNKNOWN /\ retryable shown = true.
Proof.
  assert (Hon : forall k, onLine corsBlocked k = true) by (intros k; reflexivity).
  split; [exact Hon|].
  destruct (panel_shows_cors_failure_as_unknown corsBlocked failedToFetch Hon)
    as (shown & m' & E & Ht & Hr & _); try reflexivity.
  exists shown, m'. auto.
Defined.


Lemma validPatients_normalize (items : list value) :
  AdminPanel.validPatients (PatientApi.normalize (VArr items))
  = map PatientApi.remap (filter hasSomeName items).
Proof.
  change (PatientApi.normalize (VArr items))
    with (VArr (map PatientApi.remapElement items)).
  cbn [AdminPanel.validPatients].
  induction items as [|item rest IH]; [reflexivity|].
  cbn [map filter]. rewrite IH.
  assert (Hh : hasSomeName item
               = truthy item && typeof_object item
                 && truthy (field item "nomeCompleto" ||| field item "nome"
                            ||| field item "name")) by reflexivity.
  rewrite Hh. clear Hh.
  unfold PatientApi.remapElement.
  destruct (truthy item) eqn:Ht; cbn [negb orb andb].
  - destruct (typeof_object item) eqn:Ho; cbn [negb andb].
    + change (truthy (PatientApi.remap item) && typeof_object (PatientApi.remap item))
        with true.
      change (field (PatientApi.remap item) "name")
        with (field item "nomeCompleto" ||| field item "nome" ||| field item "name"
              ||| VStr "").
      rewrite (truthy_js_or _ (VStr "")). cbn [truthy is_empty negb]. rewrite orb_false_r.
      cbn [andb].
      destruct (truthy (field item "nomeCompleto" ||| field item "nome"
                        ||| field item "name")); reflexivity.
    + rewrite Ht, Ho. reflexivity.
  - rewrite Ht. reflexivity.
Qed.

(** X22.  What the panel lists.  When the listing request is answered 200 or
    201 with a JSON array, the panel shows, in order, the remapped form of
    exactly those elements that are objects with a truthy name under
    [nomeCompleto], [nome] or [name]; elements without a name, and elements
    that are not objects, are dropped without a message. *)
Theorem panel_lists_the_named_patients
  (w : World) (r : Response.t) (text : string) (items : list value) :
  onLine w 1%nat = true ->
  probePasses w 0 ->
  network w 1%nat = Resolves r ->
  isOk (Response.status r) = true ->
  Response.body r = BodyJson text (VArr items) ->
  run AdminPanel.fetchPatients w
  = (Returned (AdminPanel.Listed (map PatientApi.remap (filter hasSomeName items))),
     mkMachine 2 2 [EvProbe probeUrl; EvAttempt listRequest]).
Proof.
  intros Hon Hprobe Hnet Hok Hbody.
  assert (Hlist :
            PatientApi.getAllPatients w boot
            = (Returned (ApiResponse.mk true (Some (PatientApi.normalize (VArr items)))
                           None (Response.status r)
                           ("resp_" ++ string_of_Z (nowMs w) ++ "_" ++ randomTag w)
                           (isoTime w) None),
               mkMachine 2 2 [EvProbe probeUrl; EvAttempt listRequest])).
  { unfold PatientApi.getAllPatients, NetworkUtils.isOnline, read_onLine.
    unfold bind at 1. cbv zeta. unfold try_catch, bind at 1.
    rewrite (fetchWithRetry_answered _ w (mkMachine 1 0 []) r Hon Hprobe Hnet).
    rewrite (handleResponse_json_ok r text (VArr items) w _ Hok Hbody).
    reflexivity. }
  unfold run, AdminPanel.fetchPatients, try_catch. unfold bind at 1.
  rewrite Hlist. cbn [ApiResponse.success ApiResponse.data].
  change (truthy (PatientApi.normalize (VArr items))) with true. cbv iota.
  rewrite validPatients_normalize. reflexivity.
Qed.

Lemma panel_lists_the_named_patients_witness :
  isOk (Response.status mixedList200) = true
  /\ fst (run AdminPanel.fetchPatients mixedListing)
     = Returned (AdminPanel.Listed [ PatientApi.remap echoedLongNames;
                                     PatientApi.remap biaPartial ]).
Proof.
  assert (Hp : probePasses mixedListing 0) by (vm_compute; reflexivity).
  split; [reflexivity|].
  rewrite (panel_lists_the_named_patients mixedListing mixedList200 "[...]"
             [echoedLongNames; VObj [("id", VNum 3)]; VNull; biaPartial]
             eq_refl Hp eq_refl eq_refl eq_refl).
  reflexivity.
Defined.


(** ** Form validation *)

Lemma removeNonDigits_allDigits (s : string) :
  Validation.allDigits (Validation.removeNonDigits s) = true.
Proof.
  unfold Validation.allDigits.
  induction s as [|c rest IH]; [reflexivity|].
  cbn [Validation.removeNonDigits].
  destruct (Validation.isDigit c) eqn:Hc; [|exact IH].
  cbn [list_ascii_of_string forallb]. rewrite Hc, IH. reflexivity.
Qed.

Lemma removeNonDigits_idem (s : string) :
  Validation.removeNonDigits (Validation.removeNonDigits s)
  = Validation.removeNonDigits s.
Proof.
  induction s as [|c rest IH]; [reflexivity|].
  cbn [Validation.removeNonDigits].
  destruct (Validation.isDigit c) eqn:Hc; [|exact IH].
  cbn [Validation.removeNonDigits]. rewrite Hc, IH. reflexivity.
Qed.

Lemma removeNonDigits_insertDot (s : string) :
  Validation.removeNonDigits (Validation.insertDot s) = Validation.removeNonDigits s.
Proof.
  induction s as [|a tl IH]; [reflexivity|].
  cbn [Validation.insertDot].
  destruct tl as [|b [|c [|d rest]]]; try reflexivity.
  destruct (Validation.isDigit a && Validation.isDigit b && Validation.isDigit c
            && Validation.isDigit d)%bool eqn:Hd.
  - apply andb_true_iff in Hd as [Hd Hd4]. apply andb_true_iff in Hd as [Hd Hd3].
    apply andb_true_iff in Hd as [Hd1 Hd2].
    cbn [Validation.removeNonDigits]. rewrite Hd1, Hd2, Hd3.
    change (Validation.isDigit ".") with false. cbv iota.
    reflexivity.
  - cbn [Validation.removeNonDigits] in *. rewrite IH. reflexivity.
Qed.

Lemma removeNonDigits_insertDash (s : string) :
  Validation.removeNonDigits (Validation.insertDash s) = Validation.removeNonDigits s.
Proof.
  induction s as [|a tl IH]; [reflexivity|].
  cbn [Validation.insertDash].
  destruct (Validation.allDigits (String a tl)
            && (Nat.eqb (String.length (String a tl)) 5
                || Nat.eqb (String.length (String a tl)) 4))%bool.
  - destruct tl as [|b [|c rest]]; reflexivity.
  - cbn [Validation.removeNonDigits]. rewrite IH. reflexivity.
Qed.

Lemma cleanCPF_formatCPF (value : string) :
  Validation.cleanCPF (Validation.formatCPF value) = Validation.cleanCPF value.
Proof.
  unfold Validation.cleanCPF, Validation.formatCPF. cbv zeta.
  destruct (Nat.leb (String.length (Validation.removeNonDigits value)) 11);
    [|reflexivity].
  rewrite removeNonDigits_insertDash, !removeNonDigits_insertDot.
  apply removeNonDigits_idem.
Qed.

Lemma validateCPF_isValid (cpf : string) :
  Validation.isValid (Validation.validateCPF cpf)
  = (Nat.eqb (String.length (Validation.cleanCPF cpf)) 11
     && negb (Validation.sameDigitElevenTimes (Validation.cleanCPF cpf)))%bool.
Proof.
  unfold Validation.validateCPF, Validation.cleanCPF. cbv zeta.
  destruct cpf as [|c rest]; [reflexivity|]. cbn [is_empty].
  destruct (Nat.eqb (String.length (Validation.removeNonDigits (String c rest))) 11);
    [|reflexivity].
  cbn [negb andb].
  destruct (Validation.sameDigitElevenTimes (Validation.removeNonDigits (String c rest)));
    reflexivity.
Qed.

(** X23.  Formatting a CPF never changes its digits.  Whatever was typed,
    [cleanCPF] gives the same digits before and after [formatCPF], cleaning
    twice is cleaning once, and [validateCPF] accepts the formatted text
    exactly when it accepts the typed one: its verdict depends on the digits
    alone, which must be eleven and not all equal. *)
Theorem formatting_keeps_the_digits (value : string) :
  Validation.cleanCPF (Validation.formatCPF value) = Validation.cleanCPF value
  /\ Validation.cleanCPF (Validation.cleanCPF value) = Validation.cleanCPF value
  /\ Validation.isValid (Validation.validateCPF (Validation.formatCPF value))
     = Validation.isValid (Validation.validateCPF value)
  /\ (Validation.isValid (Validation.validateCPF value) = true <->
      String.length (Validation.cleanCPF value) = 11%nat
      /\ Validation.sameDigitElevenTimes (Validation.cleanCPF value) = false).
Proof.
  split; [apply cleanCPF_formatCPF|].
  split; [apply removeNonDigits_idem|].
  split.
  - rewrite !validateCPF_isValid, cleanCPF_formatCPF. reflexivity.
  - rewrite validateCPF_isValid, andb_true_iff, Nat.eqb_eq, negb_true_iff. tauto.
Qed.


Lemma isDigit_dot : Validation.isDigit "." = false.
Proof. reflexivity. Qed.

Lemma isDigit_dash : Validation.isDigit "-" = false.
Proof. reflexivity. Qed.

Lemma eleven_digits_punctuated (digits : string) :
  Validation.allDigits digits = true ->
  String.length digits = 11%nat ->
  Validation.insertDash (Validation.insertDot (Validation.insertDot digits))
  = punctuated digits.
Proof.
  intros Hall Hlen.
  destruct digits as [|d0 [|d1 [|d2 [|d3 [|d4 [|d5 [|d6 [|d7 [|d8 [|d9 [|d10 [|d11 rest]]]]]]]]]]]];
    try discriminate Hlen.
  unfold Validation.allDigits in Hall. cbn [list_ascii_of_string forallb] in Hall.
  repeat match type of Hall with
         | (_ && _)%bool = true => apply andb_true_iff in Hall as [? Hall]
         end.
  unfold punctuated. cbn [substring String.append].
  repeat (progress (cbn [Validation.insertDot Validation.insertDash Validation.allDigits
                         list_ascii_of_string forallb String.length Nat.eqb andb orb];
                    repeat match goal with
                           | H : Validation.isDigit _ = true |- _ => rewrite H
                           end;
                    rewrite ?isDigit_dot, ?isDigit_dash)).
  reflexivity.
Qed.

(** X24.  Eleven digits are shown as [000.000.000-00].  Whatever else the
    typed text contains, when it holds exactly eleven digits [formatCPF]
    returns them grouped three, three, three and two, with dots and a dash
    between the groups, and [cleanCPF] gives back the eleven digits. *)
Theorem eleven_digits_are_punctuated (value : string) :
  String.length (Validation.cleanCPF value) = 11%nat ->
  Validation.formatCPF value = punctuated (Validation.cleanCPF value)
  /\ Validation.cleanCPF (punctuated (Validation.cleanCPF value))
     = Validation.cleanCPF value.
Proof.
  intros Hlen.
  assert (Hfmt : Validation.formatCPF value = punctuated (Validation.cleanCPF value)).
  { unfold Validation.formatCPF, Validation.cleanCPF in *. cbv zeta.
    rewrite Hlen. cbn [Nat.leb].
    apply eleven_digits_punctuated; [apply removeNonDigits_allDigits | exact Hlen]. }
  split; [exact Hfmt|].
  rewrite <- Hfmt. apply cleanCPF_formatCPF.
Qed.

Lemma eleven_digits_are_punctuated_witness :
  String.length (Validation.cleanCPF "123 456 789 01") = 11%nat
  /\ Validation.formatCPF "123 456 789 01" = "123.456.789-01".
Proof.
  assert (Hlen : String.length (Validation.cleanCPF "123 456 789 01") = 11%nat)
    by reflexivity.
  split; [exact Hlen|].
  rewrite (proj1 (eleven_digits_are_punctuated "123 456 789 01" Hlen)).
  reflexivity.
Defined.

(** X25.  Every gender that the form accepts is sent as [M] or [F] in the
    first request body, and as [F] only for [F] and [FEMININO].  The
    validator accepts seven spellings; [createPatient] translates four, so
    [Other], [Masculino] and [Feminino] pass validation and all go out as
    [M]. *)
Theorem accepted_gender_is_sent_as_M_or_F (patient : PatientApi.PatientRequest) :
  Validation.isValid (Validation.validateGender (PatientApi.pgender patient)) = true ->
  In (PatientApi.pgender patient) Validation.validGenders
  /\ firstSexo patient
     = VStr (if (String.eqb (PatientApi.pgender patient) "F"
                 || String.eqb (PatientApi.pgender patient) "FEMININO")%bool
             then "F" else "M").
Proof.
  destruct patient as [n c a g p]. cbn [PatientApi.pgender].
  unfold Validation.validateGender.
  destruct (is_empty g || is_empty (Validation.trim g))%bool; [discriminate|].
  destruct (existsb (String.eqb g) Validation.validGenders) eqn:Hin; [|discriminate].
  intros _.
  apply existsb_exists in Hin as (x & Hx & Heq).
  apply String.eqb_eq in Heq. subst x.
  split; [exact Hx|].
  cbn in Hx.
  destruct Hx as [<- | [<- | [<- | [<- | [<- | [<- | [<- | []]]]]]]]; reflexivity.
Qed.

Lemma accepted_gender_is_sent_as_M_or_F_witness :
  Validation.isValid (Validation.validateGender (PatientApi.pgender patientFeminino))
  = true
  /\ firstSexo patientFeminino = VStr "M".
Proof.
  assert (Hv : Validation.isValid
                 (Validation.validateGender (PatientApi.pgender patientFeminino))
               = true) by reflexivity.
  split; [exact Hv|].
  rewrite (proj2 (accepted_gender_is_sent_as_M_or_F patientFeminino Hv)).
  reflexivity.
Defined.


(** ** Authentication *)

Lemma sessionStep_last (state : Auth.AuthState) (step : SessionStep) :
  sessionStep state step
  = if isAdminLogin step
    then Auth.mkAuthState true true (Some (Auth.mkUser "admin" Auth.RoleAdmin))
    else Auth.initialAuthState.
Proof.
  destruct step as [[u p]|]; [|reflexivity].
  cbn [sessionStep isAdminLogin Auth.credUsername Auth.credPassword].
  unfold Auth.login, Auth.validateCredentials, Auth.validateAdminCredentials.
  cbn [Auth.credUsername Auth.credPassword Auth.ADMIN_CREDENTIALS].
  destruct (String.eqb_spec u "admin") as [-> | Hu]; [|reflexivity].
  cbn [andb]. destruct (String.eqb p "admin"); reflexivity.
Qed.

(** X26.  The session depends on the last step alone.  After any sequence
    of logins and logouts, the state is authenticated exactly when the last
    step was a login with the user name and password [admin]; a failed login
    signs out whoever was signed in.  In every reachable state [isAdmin]
    equals [isAuthenticated], and the user, present exactly when
    authenticated, is [admin] with the admin role. *)
Theorem session_depends_on_the_last_step (steps : list SessionStep) :
  let state := sessionAfter steps in
  Auth.isAdmin state = Auth.isAuthenticated state
  /\ Auth.user state
     = (if Auth.isAuthenticated state
        then Some (Auth.mkUser "admin" Auth.RoleAdmin) else None)
  /\ (Auth.isAuthenticated state = true <->
      exists earlier step,
        steps = (earlier ++ [step])%list /\ isAdminLogin step = true).
Proof.
  cbv zeta. unfold sessionAfter.
  induction steps as [|s0 before _] using rev_ind.
  - cbn. repeat split; try discriminate.
    intros (earlier & step & H & _). destruct earlier; discriminate H.
  - rewrite fold_left_app. cbn [fold_left]. rewrite sessionStep_last.
    destruct (isAdminLogin s0) eqn:Hlast; cbn.
    + repeat split. intros _. exists before, s0. auto.
    + repeat split; try discriminate.
      intros (earlier & step & H & Hstep).
      apply app_inj_tail in H as [_ <-]. congruence.
Qed.


(** ** Retry executor: when a second attempt is made *)

Lemma not_cors_not_failed_to_fetch (e : JsError) :
  NetworkUtils.isCorsError e = false ->
  (isTypeError e && negb (is_empty (message e))
   && includes (message e) "Failed to fetch")%bool = false.
Proof.
  unfold NetworkUtils.isCorsError.
  destruct (isTypeError e && negb (is_empty (message e))
            && includes (message e) "Failed to fetch")%bool;
    [discriminate | reflexivity].
Qed.

Lemma detectCorsIssue_None (e : JsError) :
  PatientApi.detectCorsIssue e None = NetworkUtils.isCorsError e.
Proof.
  unfold PatientApi.detectCorsIssue. destruct (NetworkUtils.isCorsError e); reflexivity.
Qed.

(** The first iteration of the loop on a failed request that is not a CORS
    failure. *)
Lemma retryLoop_first_failure (rq : Request) (w : World) (m : Machine) (e : JsError) :
  network w (sent m) = Rejects e ->
  NetworkUtils.isCorsError e = false ->
  PatientApi.retryLoop rq 2 1 w m
  = if (negb (onLine w (reads m)) || String.eqb (name e) "AbortError"
        || PatientApi.status_at_least e 500 || PatientApi.status_is e 429)%bool
    then PatientApi.retryLoop rq 1 2 w
           (mkMachine (S (reads m)) (S (sent m))
              (trace m ++ [EvAttempt rq; EvSleep 1000]))
    else (Thrown e,
          mkMachine (S (reads m)) (S (sent m)) (trace m ++ [EvAttempt rq])).
Proof.
  intros Hnet Hcors. rewrite retryLoop_eq.
  unfold try_catch, PatientApi.fetchWithTimeout, fetch.
  rewrite Hnet, detectCorsIssue_None, Hcors. unfold bind at 1.
  rewrite shouldRetryRequest_eq. change (3 <=? 1) with false. cbv iota.
  cbn [reads sent trace].
  rewrite (not_cors_not_failed_to_fetch e Hcors), orb_false_r.
  destruct (negb (onLine w (reads m)) || String.eqb (name e) "AbortError"
            || PatientApi.status_at_least e 500 || PatientApi.status_is e 429)%bool.
  - cbn [negb]. change (1 <? maxAttempts PatientApi.RETRY_CONFIG) with true. cbv iota.
    unfold bind, PatientApi.sleep, emit. cbn [reads sent trace].
    rewrite <- app_assoc. reflexivity.
  - reflexivity.
Qed.

(** X27.  When the executor makes a second attempt.  After a passed
    connectivity check, a second request is sent exactly when the first one
    fails with an error that is not a CORS failure and, at that moment, the
    device reports offline, or the error is named [AbortError], or it
    carries a status of at least 500 or equal to 429.  A [TypeError] with
    [Failed to fetch] counts as CORS, so it is never retried. *)
Theorem second_attempt_iff (rq : Request) (w : World) (m : Machine) :
  connectivityPasses w m ->
  (attempts (trace m) + 2 <= attempts (trace (snd (PatientApi.fetchWithRetry rq w m))))%nat
  <-> exists e,
        network w (S (sent m)) = Rejects e
        /\ NetworkUtils.isCorsError e = false
        /\ (onLine w (S (reads m)) = false
            \/ name e = "AbortError"
            \/ exists st, errStatus e = Some st /\ (500 <= st \/ st = 429)).
Proof.
  intros Hpass. rewrite (fetchWithRetry_connected rq w m Hpass).
  set (m0 := mkMachine (S (reads m)) (S (sent m)) (trace m ++ [EvProbe probeUrl])).
  assert (Hone : forall (out : Outcome Response.t) (k : nat),
             (attempts (trace m) + 2
              <= attempts (trace (snd (out, mkMachine k (S (sent m0))
                                              (trace m0 ++ [EvAttempt rq])))))%nat
             -> False).
  { intros out k. cbn [snd trace m0]. rewrite !attempts_app. cbn. lia. }
  destruct (network w (S (sent m))) as [r | e] eqn:Hnet.
  - rewrite (retryLoop_response rq 2 1 w m0 r Hnet). split.
    + intros H. destruct (Hone _ _ H).
    + intros (e & [=] & _).
  - destruct (NetworkUtils.isCorsError e) eqn:Hcors.
    + rewrite (retryLoop_cors rq 2 1 w m0 e Hnet);
        [|rewrite detectCorsIssue_None; exact Hcors].
      split.
      * intros H. destruct (Hone _ _ H).
      * intros (e' & [= <-] & Hc & _). congruence.
    + rewrite (retryLoop_first_failure rq w m0 e Hnet Hcors). cbn [reads m0].
      destruct (negb (onLine w (S (reads m))) || String.eqb (name e) "AbortError"
                || PatientApi.status_at_least e 500 || PatientApi.status_is e 429)%bool
        eqn:Hagain.
      * split.
        -- intros _. exists e. split; [reflexivity|]. split; [exact Hcors|].
           rewrite <- !orb_assoc in Hagain.
           apply orb_true_iff in Hagain as [Hoff | Hagain].
           { left. apply negb_true_iff. exact Hoff. }
           apply orb_true_iff in Hagain as [Hab | Hst].
           { right. left. apply String.eqb_eq. exact Hab. }
           right. right. apply status_retryable. exact Hst.
        -- intros _.
           destruct (retryLoop_trace rq 1 2 w
                       (mkMachine (S (reads m0)) (S (sent m0))
                          (trace m0 ++ [EvAttempt rq; EvSleep 1000])))
             as (evs & Happ & Hshape); [reflexivity|].
           destruct (RetryTrace_head _ _ _ Hshape) as (more & ->).
           unfold appended in Happ. cbn [reads m0] in Happ. rewrite Happ.
           cbn [trace m0]. rewrite !attempts_app. cbn. lia.
      * split.
        -- intros H. destruct (Hone _ _ H).
        -- intros (e' & [= <-] & _ & Hwhy). exfalso.
           rewrite <- !orb_assoc in Hagain.
           apply orb_false_iff in Hagain as [Hoff Hagain].
           apply orb_false_iff in Hagain as [Hab Hst].
           destruct Hwhy as [H | [H | H]].
           ++ rewrite H in Hoff. discriminate.
           ++ rewrite H in Hab. discriminate.
           ++ apply status_retryable in H. congruence.
Qed.

Lemma second_attempt_iff_witness :
  connectivityPasses abortThenOk boot
  /\ (2 <= attempts (trace (snd (PatientApi.fetchWithRetry listRequest abortThenOk boot))))%nat.
Proof.
  assert (Hpass : connectivityPasses abortThenOk boot)
    by (split; [reflexivity | vm_compute; reflexivity]).
  split; [exact Hpass|].
  apply (proj2 (second_attempt_iff listRequest abortThenOk boot Hpass)).
  exists abortError. split; [reflexivity|]. split; [reflexivity|].
  right. left. reflexivity.
Defined.
